(** * setup-healthcare-relocation-workflow.mjs: a shallow embedding

    The script provisions an Orkes Conductor server: it authenticates,
    ensures the OpenAI integration and its models, registers the worker task
    definitions, the human task forms, the AI prompts and the workflows, each
    only when missing, and has a plan mode ([--plan] / [--dry-run]).

    The embedding follows the script function by function.  Console output,
    file-system reads and network requests are recorded as events; a
    computation reads the events emitted so far (the remote server may answer
    according to what happened before), appends its own, and either returns
    or throws. *)

From Stdlib Require Import String Ascii List Bool Arith ZArith QArith Lia.
From stdpp Require Import base strings gmap list.
Import ListNotations.

Local Open Scope string_scope.
Local Open Scope list_scope.
Close Scope Q_scope.
Close Scope Z_scope.
Set Warnings "-register-all".

(** ** Strings as the script uses them *)

Module Str.

(** [s.endsWith(suf)]: some suffix of [s] is [suf]. *)
Fixpoint endsWith (s suf : string) : bool :=
  String.eqb s suf ||
  match s with
  | EmptyString => false
  | String _ s' => endsWith s' suf
  end.

(** [s.startsWith(p)] *)
Definition startsWith (s p : string) : bool := String.prefix p s.

(** [s.replace(/<a>$|<b>$/, "")] for two alternatives anchored at the end
    of the input: the regular expression engine tries the start positions
    from left to right, and at a position the match succeeds exactly when
    the rest of the input is one of the alternatives. *)
Fixpoint stripSuffix2 (a b s : string) : string :=
  if String.eqb s a || String.eqb s b then EmptyString
  else match s with
       | EmptyString => EmptyString
       | String c s' => String c (stripSuffix2 a b s')
       end.

(** [s.split(",")] for a one-character separator. *)
Fixpoint splitOn (sep : ascii) (s : string) : list string :=
  match s with
  | EmptyString => [EmptyString]
  | String c s' =>
      if Ascii.eqb c sep then EmptyString :: splitOn sep s'
      else match splitOn sep s' with
           | [] => [String c EmptyString]
           | w :: ws => String c w :: ws
           end
  end.

Definition hexDigit (n : nat) : ascii :=
  nth n (list_ascii_of_string "0123456789ABCDEF") "0"%char.

(** The characters [encodeURIComponent] leaves alone:
    [A-Z a-z 0-9 - _ . ! ~ * ' ( )]. *)
Definition unreserved (c : ascii) : bool :=
  let n := nat_of_ascii c in
  (Nat.leb 65 n && Nat.leb n 90) || (Nat.leb 97 n && Nat.leb n 122) ||
  (Nat.leb 48 n && Nat.leb n 57) ||
  existsb (Nat.eqb n) [45; 95; 46; 33; 126; 42; 39; 40; 41].

(** [encodeURIComponent] on a string held as its UTF-8 bytes: every byte
    that is not unreserved becomes [%XX].  A string of UTF-8 bytes holds no
    lone surrogate, the one input on which [encodeURIComponent] throws. *)
Fixpoint encodeURIComponent (s : string) : string :=
  match s with
  | EmptyString => EmptyString
  | String c s' =>
      if unreserved c then String c (encodeURIComponent s')
      else
        let n := nat_of_ascii c in
        String "%" (String (hexDigit (Nat.div n 16)) (String (hexDigit (Nat.modulo n 16))
          (encodeURIComponent s')))
  end.

End Str.

(** ** JavaScript values *)

(** What [JSON.parse] can produce, plus [undefined]. *)
Inductive value : Type :=
| VUndefined
| VNull
| VBool (b : bool)
| VNum (q : Q)
| VStr (s : string)
| VArr (items : list value)
| VObj (props : list (string * value)).

Module Js.

(** [Boolean(v)], the test of [if (v)], [!v] and [filter(Boolean)]. *)
Definition truthy (v : value) : bool :=
  match v with
  | VUndefined | VNull => false
  | VBool b => b
  | VNum q => negb (Qeq_bool q 0)
  | VStr s => negb (String.eqb s "")
  | VArr _ | VObj _ => true
  end.

(** [a ?? b] *)
Definition nullish (a b : value) : value :=
  match a with
  | VUndefined | VNull => b
  | _ => a
  end.

Fixpoint assoc (k : string) (props : list (string * value)) : option value :=
  match props with
  | [] => None
  | (k', v) :: rest => if String.eqb k k' then Some v else assoc k rest
  end.

(** [v?.k] for a key that no prototype defines ([name], [id], [token]):
    own property of an object, [undefined] otherwise. *)
Definition optGet (v : value) (k : string) : value :=
  match v with
  | VObj props => default VUndefined (assoc k props)
  | _ => VUndefined
  end.

(** [o[k] = v] on an object held as its list of properties. *)
Fixpoint objSet (k : string) (v : value) (props : list (string * value))
  : list (string * value) :=
  match props with
  | [] => [(k, v)]
  | (k', v') :: rest =>
      if String.eqb k k' then (k, v) :: rest else (k', v') :: objSet k v rest
  end.

(** SameValueZero, the comparison of [Set.prototype.has], which on the
    values of a JSON document is also [===]: primitives by value; two
    objects or arrays that come out of different [JSON.parse] calls are
    never the same object. *)
Definition sameValueZero (a b : value) : bool :=
  match a, b with
  | VUndefined, VUndefined => true
  | VNull, VNull => true
  | VBool x, VBool y => Bool.eqb x y
  | VNum x, VNum y => Qeq_bool x y
  | VStr x, VStr y => String.eqb x y
  | _, _ => false
  end.

(** [arr.includes(x)] / [arr.indexOf(x)] on an array of strings *)
Definition includes (xs : list string) (x : string) : bool :=
  existsb (String.eqb x) xs.

Fixpoint indexOf (xs : list string) (x : string) : option nat :=
  match xs with
  | [] => None
  | y :: ys => if String.eqb y x then Some 0 else S <$> indexOf ys x
  end.

End Js.

(** ** Requests, responses, console lines, events *)

Inductive body : Type :=
| BodyText (s : string)        (* a string body is sent as it is *)
| BodyJson (v : value).        (* any other body is sent as [JSON.stringify(v)] *)

(** [req_url] is the string the script hands to [fetch], as the script
    built it; how [fetch] parses that string (dot segments, a part after
    [#]) is not modelled. *)
Record request : Type := Request {
  req_method : string;
  req_url : string;
  req_headers : list (string * value);
  req_body : option body }.

Record response : Type := Response {
  res_status : nat;
  res_statusText : string;
  res_text : string }.

(** [res.ok]: the status is in the range 200-299. *)
Definition res_ok (r : response) : bool :=
  Nat.leb 200 (res_status r) && Nat.leb (res_status r) 299.

(** A console line is kept as the pieces of its template literal.  Quotation
    marks that the script prints around an interpolated value are left out,
    and a [join(", ")] is kept as the list of the joined items.  An
    interpolated value is kept as it is: its conversion to text, on which a
    template literal throws for an object with a [toString] entry of its
    own, is not modelled. *)
Inductive frag : Type :=
| Lit (s : string)             (* literal text of the template *)
| Sub (s : string)             (* an interpolated string *)
| Cnt (n : nat)                (* an interpolated counter *)
| Val (v : value).             (* an interpolated value *)

(** The output helper that printed the line. *)
Inductive level : Type :=
| LHeader | LSection | LBullet | LOk | LInfo | LWarn | LPlan | LLog | LError.

Inductive fsop : Type :=
| FsExists (p : string)
| FsReaddir (p : string)
| FsReadFile (p : string).

Inductive event : Type :=
| EFetch (r : request) (answer : option response)
    (* a call of [fetch] with its answer; [None]: [fetch] rejected *)
| ELog (l : level) (msg : list frag)
| EFs (op : fsop).

Inductive error : Type :=
| ErrMissingEnv (names : list string)
| ErrNeedCredentials
| ErrNoToken
| ErrHttp (status : nat) (statusText url text : string)
| ErrFetch (url : string)
| ErrTypeError (prop : string)
| ErrSyntax (text : string)
| ErrFs (op : fsop)
| ErrWorkflowsDir (dir : string).

Definition LF : string := String (ascii_of_nat 10) EmptyString.

(** [e.message]; for the errors the engine throws the text is
    representative only. *)
Definition error_message (e : error) : list frag :=
  match e with
  | ErrMissingEnv names =>
      Lit "Missing required env var. Tried: " :: map Sub names
  | ErrNeedCredentials =>
      [Lit "Need CONDUCTOR_ACCESS_TOKEN OR (CONDUCTOR_KEY_ID/CONDUCTOR_KEY) + (CONDUCTOR_KEY_SECRET/CONDUCTOR_SECRET)."]
  | ErrNoToken => [Lit "Failed to obtain token from /token"]
  | ErrHttp st stt url text =>
      [Lit "HTTP "; Cnt st; Lit " "; Sub stt; Lit (LF +:+ "URL: "); Sub url;
       Lit (LF +:+ "Response: "); Sub text]
  | ErrFetch url => [Lit "fetch failed"]
  | ErrTypeError prop => [Lit "Cannot read properties of null (reading "; Sub prop; Lit ")"]
  | ErrSyntax text => [Lit "Unexpected token in JSON"]
  | ErrFs op => [Lit "file system error"]
  | ErrWorkflowsDir dir => [Lit "Workflows dir not found: "; Sub dir]
  end.

(** ** The machine the script runs on *)

(** Node built-ins whose result the script only passes on. *)
Record Platform : Type := {
  JSON_parse : string -> option value;      (* [None]: SyntaxError *)
  path_join : string -> string -> string;
  path_resolve : string -> string;
  String_trim : string -> string;
  ToString : value -> string }.             (* [String(v)] of a non-string *)

(** The state outside the process.  [env] is [process.env] once
    [loadDotEnvIfPresent] has run; [net] answers a request given everything
    that happened before it. *)
Record World : Type := {
  argv : list string;
  env : gmap string string;
  fs_existsSync : string -> bool;
  fs_readdirSync : string -> option (list string);
  fs_readFileSync : string -> option string;
  net : list event -> request -> option response }.

(** ** Computations *)

Inductive outcome (A : Type) : Type :=
| Ret (a : A)
| Throw (e : error).
Arguments Ret {A} a.
Arguments Throw {A} e.

(** A computation sees the events so far and gives its outcome together
    with the events it emitted itself. *)
Definition M (A : Type) : Type := list event -> outcome A * list event.

Definition ret {A} (a : A) : M A := fun _ => (Ret a, []).

Definition throw {A} (e : error) : M A := fun _ => (Throw e, []).

Definition bind {A B} (m : M A) (k : A -> M B) : M B :=
  fun h =>
    match m h with
    | (Ret a, e1) => let '(o, e2) := k a (h ++ e1) in (o, e1 ++ e2)
    | (Throw e, e1) => (Throw e, e1)
    end.

(** [try { m } catch { handler }] *)
Definition try_catch {A} (m : M A) (handler : M A) : M A :=
  fun h =>
    match m h with
    | (Ret a, e1) => (Ret a, e1)
    | (Throw _, e1) => let '(o, e2) := handler (h ++ e1) in (o, e1 ++ e2)
    end.

Definition emit (e : event) : M unit := fun _ => (Ret tt, [e]).

Declare Scope m_scope.
Delimit Scope m_scope with M.
Notation "x <- m ;; k" := (bind m (fun x => k))
  (at level 100, m at next level, right associativity) : m_scope.
Notation "m ;; k" := (bind m (fun _ => k))
  (at level 100, right associativity) : m_scope.
Local Open Scope m_scope.

(** [for (const x of xs) { body }] with the loop's mutable locals as [st];
    [continue] is the body returning early. *)
Fixpoint for_of {X St} (xs : list X) (body : X -> St -> M St) (st : St) : M St :=
  match xs with
  | [] => ret st
  | x :: xs' => st' <- body x st ;; for_of xs' body st'
  end.

Definition when (b : bool) (m : M unit) : M unit := if b then m else ret tt.

(** The last two lines of the script: [main().catch(...)]. *)
Definition exit_code {A} (o : outcome A) : nat :=
  match o with Ret _ => 0 | Throw _ => 1 end.

(** ** The script *)

(** The flags and options, read once from [process.argv]. *)
Record Config : Type := {
  PLAN : bool;
  NO_OPENAI : bool;
  WORKFLOWS_DIR : string;
  PROMPTS_DIR : string;
  FORMS_DIR : string }.

Definition argHas (argv : list string) (flag : string) : bool :=
  Js.includes argv flag.

Definition argValue (argv : list string) (flag fallback : string) : string :=
  match Js.indexOf argv flag with
  | None => fallback
  | Some idx => default fallback (argv !! (idx + 1))
  end.

Definition config (argv : list string) : Config := {|
  PLAN := argHas argv "--plan" || argHas argv "--dry-run";
  NO_OPENAI := argHas argv "--no-openai";
  WORKFLOWS_DIR := argValue argv "--workflows-dir" "./workflows";
  PROMPTS_DIR := argValue argv "--prompts-dir" "./workflows/prompts";
  FORMS_DIR := argValue argv "--forms-dir" "./forms" |}.

Definition WORKER_TASKS : list string :=
  ["healthcare_provider_finder"; "communication_drafter";
   "medical_system_navigator"; "prescription_transition_manager"].

(** [{ name, file }] *)
Definition REQUIRED_PROMPTS : list (string * string) :=
  [("MedicalUserIntakeAnalyzer", "medical-user-intake.json");
   ("CombineAnswers", "combine-answers.json");
   ("AssembleHealthPlan", "assemble-health-plan.json")].

Definition DEFAULT_OPENAI_MODELS : list string :=
  ["gpt-4.1"; "gpt-4.1-mini"; "gpt-4o"; "gpt-4o-mini"].

(** [s.replace(/\/api\/?$/, "")] *)
Definition stripApi (s : string) : string := Str.stripSuffix2 "/api" "/api/" s.

(** An environment variable that is set and not empty. *)
Definition env_truthy (e : gmap string string) (k : string) : option string :=
  match e !! k with
  | Some s => if String.eqb s "" then None else Some s
  | None => None
  end.

Definition normalizeBaseApiUrl (e : gmap string string) : string :=
  match env_truthy e "CONDUCTOR_SERVER_API_URL" with
  | Some api => stripApi api +:+ "/api"
  | None =>
      match env_truthy e "CONDUCTOR_SERVER_URL" with
      | Some base => stripApi base +:+ "/api"
      | None => "https://developer.orkescloud.com/api"
      end
  end.

Definition uiBaseFromApi (apiUrl : string) : string := stripApi apiUrl.

(** [/\/token\/?$/.test(url)] *)
Definition tokenUrl (url : string) : bool :=
  Str.endsWith url "/token" || Str.endsWith url "/token/".

(** [allowInPlan] of [http] *)
Definition allowInPlan (method url : string) : bool :=
  String.eqb method "GET" || (String.eqb method "POST" && tokenUrl url).

Inductive expect : Type := ExpectJson | ExpectText.

Section Script.

Variable P : Platform.
Variable C : Config.
Variable W : World.

(** *** Console helpers *)
Definition header (msg : list frag) : M unit := emit (ELog LHeader msg).
Definition section (msg : list frag) : M unit := emit (ELog LSection msg).
Definition bullet (msg : list frag) : M unit := emit (ELog LBullet msg).
Definition ok (msg : list frag) : M unit := emit (ELog LOk msg).
Definition info (msg : list frag) : M unit := emit (ELog LInfo msg).
Definition warn (msg : list frag) : M unit := emit (ELog LWarn msg).
Definition plan (msg : list frag) : M unit := emit (ELog LPlan msg).
Definition console_log (msg : list frag) : M unit := emit (ELog LLog msg).

(** *** Environment *)
Definition env_val (k : string) : value :=
  match env W !! k with
  | Some s => VStr s
  | None => VUndefined
  end.

Fixpoint firstSetEnv (names : list string) : option string :=
  match names with
  | [] => None
  | n :: rest =>
      match env W !! n with
      | Some v =>
          if negb (String.eqb v "") && negb (String.eqb (String_trim P v) "")
          then Some v
          else firstSetEnv rest
      | None => firstSetEnv rest
      end
  end.

Definition mustEnv (names : list string) : M string :=
  match firstSetEnv names with
  | Some v => ret v
  | None => throw (ErrMissingEnv names)
  end.

(** *** File system *)
Definition existsSync (p : string) : M bool :=
  emit (EFs (FsExists p)) ;; ret (fs_existsSync W p).

Definition readdirSync (p : string) : M (list string) :=
  emit (EFs (FsReaddir p)) ;;
  match fs_readdirSync W p with
  | Some names => ret names
  | None => throw (ErrFs (FsReaddir p))
  end.

Definition readText (filePath : string) : M string :=
  emit (EFs (FsReadFile filePath)) ;;
  match fs_readFileSync W filePath with
  | Some text => ret text
  | None => throw (ErrFs (FsReadFile filePath))
  end.

Definition readJson (filePath : string) : M value :=
  text <- readText filePath ;;
  match JSON_parse P text with
  | Some v => ret v
  | None => throw (ErrSyntax text)
  end.

(** [v.k]: reading a property of [null] or [undefined] throws. *)
Definition get (v : value) (k : string) : M value :=
  match v with
  | VUndefined | VNull => throw (ErrTypeError k)
  | _ => ret (Js.optGet v k)
  end.

(** [String(v)], as template literals and [encodeURIComponent] apply it *)
Definition str (v : value) : string :=
  match v with
  | VStr s => s
  | _ => ToString P v
  end.

(** *** HTTP helpers *)

(** [fetch]: the request reaches the network. *)
Definition fetch (r : request) : M response :=
  fun h =>
    match net W h r with
    | Some res => (Ret res, [EFetch r (Some res)])
    | None => (Throw (ErrFetch (req_url r)), [EFetch r None])
    end.

(** [token ? { "X-Authorization": token } : {}] *)
Definition authHeaders (token : value) : list (string * value) :=
  if Js.truthy token then [("X-Authorization", token)] else [].

(** The headers [http] sends: the caller's, [accept] defaulted, the token,
    and a JSON content type for a body that is not a string. *)
Definition requestHeaders (token : value)
    (headers : option (list (string * value))) (body : option body)
  : list (string * value) :=
  let h0 := default [] headers in
  let h1 :=
    Js.objSet "accept"
      (Js.nullish (Js.optGet (VObj h0) "accept") (VStr "*/*")) h0 in
  let h2 :=
    if Js.truthy token then Js.objSet "X-Authorization" token h1 else h1 in
  match body with
  | Some (BodyJson _) =>
      if negb (Js.truthy (Js.optGet (VObj h2) "Content-Type"))
      then Js.objSet "Content-Type" (VStr "application/json") h2
      else h2
  | _ => h2
  end.

Definition http (method url : string) (token : value)
    (headers : option (list (string * value))) (body : option body)
    (expect : expect) (okStatuses : list nat) : M value :=
  if PLAN C && negb (allowInPlan method url) then
    plan [Sub method; Lit " "; Sub url] ;;
    ret (match expect with ExpectText => VStr "" | ExpectJson => VObj [] end)
  else
    res <- fetch (Request method url (requestHeaders token headers body) body) ;;
    let text := res_text res in
    if negb (existsb (Nat.eqb (res_status res)) okStatuses) then
      throw (ErrHttp (res_status res) (res_statusText res) url text)
    else
      match expect with
      | ExpectText => ret (VStr text)
      | ExpectJson =>
          if String.eqb text "" then ret (VObj [])
          else match JSON_parse P text with
               | Some v => ret v
               | None => ret (VObj [("_raw", VStr text)])
               end
      end.

Definition exists_ (url : string) (token : value) : M bool :=
  try_catch
    (res <- fetch (Request "GET" url (authHeaders token) None) ;;
     ret (res_ok res))
    (ret false).

Definition listHumanTemplates (API : string) (token : value) : M (list value) :=
  let url := API +:+ "/human/template" in
  res <- fetch (Request "GET" url (authHeaders token) None) ;;
  if negb (res_ok res) then ret []
  else
    let text := res_text res in
    if String.eqb text "" then ret []
    else match JSON_parse P text with
         | Some (VArr data) => ret data
         | _ => ret []
         end.

Definition humanTemplateExists (API : string) (token : value) (name : value)
  : M bool :=
  templates <- listHumanTemplates API token ;;
  ret (existsb (fun t => Js.sameValueZero (Js.optGet t "name") name) templates).

Definition existsGet (url : string) (token : value) : M bool :=
  if PLAN C then ret false
  else
    res <- fetch (Request "GET" url (authHeaders token) None) ;;
    ret (res_ok res).


(** *** main: authentication *)
Definition authenticate (API : string) : M value :=
  section [Lit "Authentication"] ;;
  let accessToken := env_val "CONDUCTOR_ACCESS_TOKEN" in
  if negb (Js.truthy accessToken) then
    let keyId :=
      Js.nullish (Js.nullish (env_val "CONDUCTOR_KEY_ID")
                              (env_val "CONDUCTOR_AUTH_KEY"))
                 (env_val "CONDUCTOR_KEY") in
    let keySecret :=
      Js.nullish (Js.nullish (env_val "CONDUCTOR_KEY_SECRET")
                              (env_val "CONDUCTOR_AUTH_SECRET"))
                 (env_val "CONDUCTOR_SECRET") in
    if negb (Js.truthy keyId) || negb (Js.truthy keySecret) then
      throw ErrNeedCredentials
    else
      info [Lit "Using key/secret to obtain token"] ;;
      tokenResp <-
        http "POST" (API +:+ "/token") VUndefined
          (Some [("accept", VStr "application/json");
                 ("Content-Type", VStr "application/json")])
          (Some (BodyJson (VObj [("keyId", keyId); ("keySecret", keySecret)])))
          ExpectJson [200] ;;
      token <- get tokenResp "token" ;;
      if negb (Js.truthy token) && negb (PLAN C) then throw ErrNoToken
      else ret token
  else
    ok [Lit "Using CONDUCTOR_ACCESS_TOKEN"] ;;
    ret accessToken.

Definition checkConnectivity (API : string) : M unit :=
  info [Lit "Checking server connectivity"] ;;
  http "GET" (API +:+ "/version") VUndefined None None ExpectText [200] ;;
  ok [Lit "Server reachable"].

(** *** main: optional user info *)
Definition fetchUserInfo (API : string) (token : value) : M value :=
  userInfo <-
    try_catch
      (http "GET" (API +:+ "/token/userInfo") token
         (Some [("accept", VStr "application/json")]) None ExpectJson [200])
      (ret (VObj [])) ;;
  (if Js.truthy (Js.optGet userInfo "name") then
     ok [Lit "Authenticated as: "; Val (Js.optGet userInfo "name"); Lit " (";
         Val (Js.nullish (Js.optGet userInfo "id") (VStr "unknown")); Lit ")"]
   else ok [Lit "Authenticated as: "; Lit "unknown user"]) ;;
  ret userInfo.

(** *** main: OpenAI integration *)
Definition openaiModels : list string :=
  match env_truthy (env W) "OPENAI_MODELS" with
  | Some s =>
      List.filter (fun m => negb (String.eqb m ""))
        (map (String_trim P) (Str.splitOn "," s))
  | None => DEFAULT_OPENAI_MODELS
  end.

Definition integrationBody (openaiApiKey : string) : value :=
  VObj [("category", VStr "AI_MODEL");
        ("configuration", VObj [("api_key", VStr openaiApiKey);
                                ("base_url", VStr "https://api.openai.com")]);
        ("description", VStr "OpenAI integration for built-in LLM tasks");
        ("enabled", VBool true);
        ("type", VStr "openai")].

Definition ensureIntegration (API : string) (token : value)
    (openaiIntegrationName openaiApiKey : string) : M unit :=
  let integUrl := API +:+ "/integrations/provider/" +:+ openaiIntegrationName in
  integExists <- existsGet integUrl token ;;
  if negb integExists then
    if PLAN C then
      plan [Lit "Would create OpenAI integration "; Sub openaiIntegrationName]
    else
      http "POST" integUrl token
        (Some [("Content-Type", VStr "application/json")])
        (Some (BodyJson (integrationBody openaiApiKey)))
        ExpectText [200; 201; 204] ;;
      ok [Lit "Created OpenAI integration: "; Sub openaiIntegrationName]
  else
    ok [Lit "OpenAI integration already exists: "; Sub openaiIntegrationName].

Definition modelBody (modelName : string) : value :=
  VObj [("configuration", VObj []);
        ("description", VStr (modelName +:+ " from OpenAI"));
        ("enabled", VBool true)].

(** The body of [for (const modelName of models)], on
    [(modelsAdded, modelsSkipped)]. *)
Definition ensureModel (API : string) (token : value)
    (openaiIntegrationName modelName : string) (st : nat * nat)
  : M (nat * nat) :=
  let '(modelsAdded, modelsSkipped) := st in
  let modelUrl :=
    API +:+ "/integrations/provider/" +:+ openaiIntegrationName +:+
    "/integration/" +:+ Str.encodeURIComponent modelName in
  modelExists <- existsGet modelUrl token ;;
  if negb modelExists then
    if PLAN C then
      plan [Lit "Would enable model "; Sub modelName] ;;
      ret (modelsAdded, modelsSkipped)
    else
      http "POST" modelUrl token
        (Some [("Content-Type", VStr "application/json")])
        (Some (BodyJson (modelBody modelName)))
        ExpectText [200; 201; 204] ;;
      ret (S modelsAdded, modelsSkipped)
  else ret (modelsAdded, S modelsSkipped).

Definition openaiSection (API UI : string) (token : value) : M unit :=
  section [Lit "OpenAI Integration (idempotent)"] ;;
  if NO_OPENAI C then
    warn [Lit "Skipping OpenAI integration step (--no-openai)."]
  else
    let openaiIntegrationName :=
      default "openai" (env W !! "OPENAI_INTEGRATION_NAME") in
    openaiApiKey <- mustEnv ["OPENAI_API_KEY"] ;;
    let models := openaiModels in
    bullet [Lit "Integration name: "; Sub openaiIntegrationName] ;;
    bullet (Lit "Models: " :: map Sub models) ;;
    ensureIntegration API token openaiIntegrationName openaiApiKey ;;
    counts <-
      for_of models (ensureModel API token openaiIntegrationName) (0, 0) ;;
    let '(modelsAdded, modelsSkipped) := counts in
    (if negb (PLAN C) then
       ok [Lit "Models added: "; Cnt modelsAdded] ;;
       ok [Lit "Models already present: "; Cnt modelsSkipped]
     else info [Lit "PLAN mode: no changes made."]) ;;
    bullet [Lit "UI: "; Sub UI; Lit "/integrations/"; Sub openaiIntegrationName;
            Lit "/integration"].

(** *** main: task definitions *)
Definition taskDefRecord (name : string) (userInfo : value) : value :=
  VObj [("name", VStr name);
        ("description", VStr ("Worker task for " +:+ name));
        ("retryCount", VNum 2);
        ("timeoutSeconds", VNum 300);
        ("responseTimeoutSeconds", VNum 300);
        ("ownerEmail", Js.nullish (Js.optGet userInfo "id") (VStr "unknown"))].

(** The body of [for (const name of WORKER_TASKS)], on [missingTaskDefs]. *)
Definition checkTaskDef (API : string) (token userInfo : value)
    (name : string) (missingTaskDefs : list value) : M (list value) :=
  let taskDefUrl :=
    API +:+ "/metadata/taskdefs/" +:+ Str.encodeURIComponent name in
  taskExists <- exists_ taskDefUrl token ;;
  if taskExists then
    ok [Lit "TaskDef exists: "; Sub name] ;;
    ret missingTaskDefs
  else
    warn [Lit "TaskDef missing: "; Sub name] ;;
    ret (missingTaskDefs ++ [taskDefRecord name userInfo]).

Definition registerTaskDefs (API : string) (token : value)
    (missingTaskDefs : list value) : M unit :=
  if Nat.eqb (length missingTaskDefs) 0 then
    ok [Lit "All worker task definitions already exist (nothing to create)."]
  else
    http "POST" (API +:+ "/metadata/taskdefs") token
      (Some [("Content-Type", VStr "application/json")])
      (Some (BodyJson (VArr missingTaskDefs)))
      ExpectText [200; 204] ;;
    if negb (PLAN C) then
      ok [Lit "Registered "; Cnt (length missingTaskDefs);
          Lit " missing task definition(s)."]
    else
      plan [Lit "Would register "; Cnt (length missingTaskDefs);
            Lit " missing task definition(s)."].

Definition taskDefsSection (tasks : list string) (API UI : string)
    (token userInfo : value) : M unit :=
  section [Lit "Worker Task Definitions"] ;;
  for_of tasks (fun t _ => bullet [Sub t]) tt ;;
  missingTaskDefs <- for_of tasks (checkTaskDef API token userInfo) [] ;;
  registerTaskDefs API token missingTaskDefs ;;
  bullet [Lit "UI: "; Sub UI; Lit "/taskDef"].


(** *** main: human task forms *)

(** [new Set(existingTemplates.map((t) => t?.name).filter(Boolean))] *)
Definition templateNames (existingTemplates : list value) : list value :=
  List.filter Js.truthy (map (fun t => Js.optGet t "name") existingTemplates).

(** [existingNames.has(name)] *)
Definition setHas (existingNames : list value) (name : value) : bool :=
  existsb (Js.sameValueZero name) existingNames.

(** The body of [for (const f of files)], on [(formsCreated, formsSkipped)]. *)
Definition ensureForm (API : string) (token : value)
    (existingNames : list value) (f : string) (st : nat * nat)
  : M (nat * nat) :=
  let '(formsCreated, formsSkipped) := st in
  let full := path_join P (FORMS_DIR C) f in
  form <- readJson full ;;
  name <- get form "name" ;;
  if negb (Js.truthy name) then
    warn [Lit "Skipping form (missing name): "; Sub f] ;;
    ret (formsCreated, formsSkipped)
  else
    bullet [Lit "Form: "; Val name] ;;
    if setHas existingNames name then
      ok [Lit "Form template exists: "; Val name] ;;
      ret (formsCreated, S formsSkipped)
    else
      http "POST" (API +:+ "/human/template?newVersion=false") token
        (Some [("Content-Type", VStr "application/json")])
        (Some (BodyJson form))
        ExpectText [200; 204] ;;
      (if negb (PLAN C) then ok [Lit "Created form template: "; Val name]
       else plan [Lit "Would create form template: "; Val name]) ;;
      ret (S formsCreated, formsSkipped).

Definition formsSummary (st : nat * nat) : M unit :=
  let '(formsCreated, formsSkipped) := st in
  if negb (PLAN C) then
    ok [Lit "Forms created: "; Cnt formsCreated] ;;
    ok [Lit "Forms skipped (already existed): "; Cnt formsSkipped]
  else
    plan [Lit "Would create "; Cnt formsCreated; Lit " form(s); would skip ";
          Cnt formsSkipped; Lit " form(s)"].

Definition formsSection (API UI : string) (token : value) : M unit :=
  section [Lit "Human Task Forms"] ;;
  dirExists <- existsSync (FORMS_DIR C) ;;
  (if negb dirExists then
     info [Lit "No forms dir found at "; Sub (FORMS_DIR C); Lit " (skipping)."]
   else
     entries <- readdirSync (FORMS_DIR C) ;;
     let files := List.filter (fun f => Str.endsWith f ".json") entries in
     if Nat.eqb (length files) 0 then
       info [Lit "No form JSON files found (skipping)."]
     else
       existingTemplates <- listHumanTemplates API token ;;
       let existingNames := templateNames existingTemplates in
       counts <- for_of files (ensureForm API token existingNames) (0, 0) ;;
       formsSummary counts) ;;
  bullet [Lit "UI hint: "; Sub UI; Lit "/humanTask"].

(** *** main: AI prompts *)

(** The body of [for (const p of REQUIRED_PROMPTS)], on
    [(promptsCreated, promptsSkipped)]; [p] is [(p.name, p.file)]. *)
Definition ensurePrompt (API UI : string) (token : value)
    (encodedModels : string) (p : string * string) (st : nat * nat)
  : M (nat * nat) :=
  let '(promptsCreated, promptsSkipped) := st in
  let '(p_name, p_file) := p in
  let fp := path_join P (PROMPTS_DIR C) p_file in
  fileExists <- existsSync fp ;;
  if negb fileExists then
    warn [Lit "Prompt file not found: "; Sub fp] ;;
    ret (promptsCreated, promptsSkipped)
  else
    bullet [Lit "Prompt: "; Sub p_name] ;;
    let promptGetUrl := API +:+ "/prompts/" +:+ Str.encodeURIComponent p_name in
    promptExists <- exists_ promptGetUrl token ;;
    if promptExists then
      ok [Lit "Prompt exists: "; Sub p_name] ;;
      ret (promptsCreated, S promptsSkipped)
    else
      promptBodyText <- readText fp ;;
      let desc := Str.encodeURIComponent ("Auto-registered from " +:+ p_file) in
      http "POST"
        (API +:+ "/prompts/" +:+ Str.encodeURIComponent p_name +:+
         "?description=" +:+ desc +:+ "&models=" +:+ encodedModels)
        token
        (Some [("Content-Type", VStr "application/json")])
        (Some (BodyText promptBodyText))
        ExpectText [200; 204] ;;
      (if negb (PLAN C) then ok [Lit "Created prompt: "; Sub p_name]
       else plan [Lit "Would create prompt: "; Sub p_name]) ;;
      bullet [Lit "UI: "; Sub UI; Lit "/ai_prompts/";
              Sub (Str.encodeURIComponent p_name)] ;;
      ret (S promptsCreated, promptsSkipped).

Definition promptsSummary (st : nat * nat) : M unit :=
  let '(promptsCreated, promptsSkipped) := st in
  if negb (PLAN C) then
    ok [Lit "Prompts created: "; Cnt promptsCreated] ;;
    ok [Lit "Prompts skipped (already existed): "; Cnt promptsSkipped]
  else
    plan [Lit "Would create "; Cnt promptsCreated;
          Lit " prompt(s); would skip "; Cnt promptsSkipped; Lit " prompt(s)"].

Definition promptsSection (prompts : list (string * string))
    (API UI : string) (token : value) : M unit :=
  section [Lit "AI Prompts"] ;;
  let promptModelAssociation :=
    default "openai:gpt-4o-mini" (env W !! "PROMPT_MODEL_ASSOCIATION") in
  bullet [Lit "Model association: "; Sub promptModelAssociation] ;;
  let encodedModels := Str.encodeURIComponent promptModelAssociation in
  counts <- for_of prompts (ensurePrompt API UI token encodedModels) (0, 0) ;;
  promptsSummary counts.

(** *** main: workflows *)

(** [process.argv.find((a) => a.endsWith(".json") && !a.startsWith("-"))] *)
Definition positionalJson : option string :=
  find (fun a => Str.endsWith a ".json" && negb (Str.startsWith a "-")) (argv W).

(** The body of [for (const wfFile of workflowFiles)], on
    [(workflowsCreated, workflowsSkipped)]. *)
Definition ensureWorkflow (API UI : string) (token : value)
    (wfFile : string) (st : nat * nat) : M (nat * nat) :=
  let '(workflowsCreated, workflowsSkipped) := st in
  let full :=
    match positionalJson with
    | Some _ => path_resolve P wfFile
    | None => path_join P (WORKFLOWS_DIR C) wfFile
    end in
  wf <- readJson full ;;
  name <- get wf "name" ;;
  if negb (Js.truthy name) then
    warn [Lit "Skipping workflow (missing name): "; Sub wfFile] ;;
    ret (workflowsCreated, workflowsSkipped)
  else
    bullet [Lit "Workflow: "; Val name; Lit " ("; Sub wfFile; Lit ")"] ;;
    let wfGetUrl :=
      API +:+ "/metadata/workflow/" +:+ Str.encodeURIComponent (str name) in
    wfExists <- exists_ wfGetUrl token ;;
    if wfExists then
      ok [Lit "Workflow exists: "; Val name; Lit " (skipping)"] ;;
      bullet [Lit "UI: "; Sub UI; Lit "/workflowDef/";
              Sub (Str.encodeURIComponent (str name))] ;;
      ret (workflowsCreated, S workflowsSkipped)
    else
      http "POST"
        (API +:+ "/metadata/workflow?overwrite=false&newVersion=false") token
        (Some [("Content-Type", VStr "application/json")])
        (Some (BodyJson wf))
        ExpectText [200; 204] ;;
      (if negb (PLAN C) then ok [Lit "Created workflow: "; Val name]
       else plan [Lit "Would create workflow: "; Val name]) ;;
      bullet [Lit "UI: "; Sub UI; Lit "/workflowDef/";
              Sub (Str.encodeURIComponent (str name))] ;;
      ret (S workflowsCreated, workflowsSkipped).

Definition workflowFiles : M (list string) :=
  match positionalJson with
  | Some a => ret [a]
  | None =>
      entries <- readdirSync (WORKFLOWS_DIR C) ;;
      ret (List.filter (fun f => Str.endsWith f ".json") entries)
  end.

Definition workflowsSummary (st : nat * nat) : M unit :=
  let '(workflowsCreated, workflowsSkipped) := st in
  if negb (PLAN C) then
    ok [Lit "Workflows created: "; Cnt workflowsCreated] ;;
    ok [Lit "Workflows skipped (already existed): "; Cnt workflowsSkipped]
  else
    plan [Lit "Would create "; Cnt workflowsCreated;
          Lit " workflow(s); would skip "; Cnt workflowsSkipped;
          Lit " workflow(s)"].

Definition workflowsSection (API UI : string) (token : value) : M unit :=
  section [Lit "Workflows"] ;;
  dirExists <- existsSync (WORKFLOWS_DIR C) ;;
  if negb dirExists then throw (ErrWorkflowsDir (WORKFLOWS_DIR C))
  else
    files <- workflowFiles ;;
    counts <- for_of files (ensureWorkflow API UI token) (0, 0) ;;
    workflowsSummary counts.

(** *** main *)
Definition modeName : string := if PLAN C then "PLAN" else "APPLY".

Definition done : M unit :=
  header [Lit "Setup complete ("; Sub modeName; Lit " mode)"] ;;
  console_log [Lit "Next steps:"] ;;
  console_log [Lit "1) Start workers: node ConductorWorkers/workers.js"] ;;
  console_log [Lit "2) Run workflow from Orkes UI (Executions tab)."] ;;
  console_log [] ;;
  console_log [Lit "Tip: Your integration name + prompt model association must match:"] ;;
  console_log [Lit "  OPENAI_INTEGRATION_NAME=<name> and PROMPT_MODEL_ASSOCIATION=<name>:<model>"].

(** [main] from the line after [loadDotEnvIfPresent()] on, on the
    environment that call leaves; [mainWithDotEnv] further down puts the
    call in front. *)
Definition main : M unit :=
  let API := normalizeBaseApiUrl (env W) in
  let UI := uiBaseFromApi API in
  header [Lit "Orkes Healthcare Relocation Setup"] ;;
  bullet [Lit "Mode: ";
          Lit (if PLAN C then "PLAN (no changes)" else "APPLY")] ;;
  bullet [Lit "Orkes API: "; Sub API] ;;
  bullet [Lit "Orkes UI : "; Sub UI] ;;
  token <- authenticate API ;;
  checkConnectivity API ;;
  userInfo <- fetchUserInfo API token ;;
  openaiSection API UI token ;;
  taskDefsSection WORKER_TASKS API UI token userInfo ;;
  formsSection API UI token ;;
  promptsSection REQUIRED_PROMPTS API UI token ;;
  workflowsSection API UI token ;;
  done.

End Script.

(** The process from the heading on, that is once [loadDotEnvIfPresent]
    has run: [main().catch((e) => { console.error(...); process.exit(1) })],
    started with no event behind it.  The result is the exit code and
    everything that was printed, read and requested. *)
Definition run (P : Platform) (W : World) : nat * list event :=
  match main P (config (argv W)) W [] with
  | (Ret _, evs) => (0, evs)
  | (Throw e, evs) => (1, evs ++ [ELog LError (Lit "ERROR:" :: error_message e)])
  end.

(** A server whose answers do not depend on what happened before. *)
Definition static (W : World) : Prop :=
  forall h r, net W h r = net W [] r.

(** ** A concrete machine for the examples *)

Module Scenario.

Definition dq : string := String (ascii_of_nat 34) EmptyString.

(** [{"name":"<n>"}] *)
Definition namedDoc (n : string) : string :=
  "{" +:+ dq +:+ "name" +:+ dq +:+ ":" +:+ dq +:+ n +:+ dq +:+ "}".

(** [JSON.parse] on the documents the examples read. *)
Definition parseTable : list (string * value) :=
  [("{}", VObj []);
   ("[]", VArr []);
   (namedDoc "intake", VObj [("name", VStr "intake")]);
   (namedDoc "consent", VObj [("name", VStr "consent")]);
   (namedDoc "relocation", VObj [("name", VStr "relocation")]);
   ("[" +:+ namedDoc "intake" +:+ "]", VArr [VObj [("name", VStr "intake")]])].

Definition isSpace (c : ascii) : bool :=
  existsb (Nat.eqb (nat_of_ascii c)) [32; 9; 10; 11; 12; 13].

Fixpoint trimStart (s : string) : string :=
  match s with
  | String c s' => if isSpace c then trimStart s' else s
  | EmptyString => EmptyString
  end.

Definition rev (s : string) : string :=
  string_of_list_ascii (List.rev (list_ascii_of_string s)).

(** A POSIX Node on these inputs: [path.join] drops a leading [./],
    [path.resolve] is relative to the working directory [/work], and
    [trim] removes ASCII white space. *)
Definition node : Platform := {|
  JSON_parse := fun text => Js.assoc text parseTable;
  path_join := fun d f =>
    (if String.prefix "./" d then String.substring 2 (String.length d - 2) d
     else d) +:+ "/" +:+ f;
  path_resolve := fun f => "/work/" +:+ f;
  String_trim := fun s => rev (trimStart (rev (trimStart s)));
  ToString := fun _ => "[object Object]" |}.

Definition ok200 (text : string) : option response :=
  Some (Response 200 "OK" text).
Definition notFound : option response :=
  Some (Response 404 "Not Found" "").
Definition serverError : option response :=
  Some (Response 500 "Internal Server Error" "").

Definition envToken : gmap string string :=
  {[ "CONDUCTOR_ACCESS_TOKEN" := "tok";
     "CONDUCTOR_SERVER_URL" := "https://host";
     "OPENAI_API_KEY" := "sk" ]}.

Definition api : string := "https://host/api".
Definition ui : string := "https://host".
Definition tok : value := VStr "tok".

(** A server on which nothing exists yet and which accepts every write;
    its answers do not depend on the past. *)
Definition emptyServer (r : request) : option response :=
  if String.eqb (req_method r) "GET" then
    if Str.endsWith (req_url r) "/version" then ok200 "v"
    else if Str.endsWith (req_url r) "/human/template" then ok200 "[]"
    else notFound
  else ok200 "".

(** The same server with one request answered differently; [None] as the
    answer is a network failure. *)
Definition except (method url : string) (answer : option response)
    (r : request) : option response :=
  if String.eqb (req_method r) method && String.eqb (req_url r) url
  then answer
  else emptyServer r.

Definition integrationAddress : string :=
  "https://host/api/integrations/provider/openai".

Definition argvOf (args : list string) : list string :=
  "node" :: "setup-healthcare-relocation-workflow.mjs" :: args.

(** No local directories at all. *)
Definition bare (args : list string) (server : request -> option response)
  : World := {|
  argv := argvOf args;
  env := envToken;
  fs_existsSync := fun _ => false;
  fs_readdirSync := fun _ => None;
  fs_readFileSync := fun _ => None;
  net := fun _ => server |}.

(** A checkout with three forms, one of them without a name, one prompt
    file, one workflow in the workflows directory and one beside it. *)
Definition files : list (string * string) :=
  [("forms/intake.json", namedDoc "intake");
   ("forms/consent.json", namedDoc "consent");
   ("forms/draft.json", "{}");
   ("workflows/prompts/combine-answers.json", "Combine the answers.");
   ("workflows/relocation.json", namedDoc "relocation");
   ("/work/extra.json", namedDoc "consent")].

Fixpoint lookupFile (p : string) (l : list (string * string)) : option string :=
  match l with
  | [] => None
  | (q, text) :: rest => if String.eqb p q then Some text else lookupFile p rest
  end.

Definition checkout (args : list string) (server : request -> option response)
  : World := {|
  argv := argvOf args;
  env := envToken;
  fs_existsSync := fun p =>
    existsb (String.eqb p)
      ["./forms"; "./workflows"; "workflows/prompts/combine-answers.json"];
  fs_readdirSync := fun p =>
    if String.eqb p "./forms"
    then Some ["intake.json"; "consent.json"; "draft.json"; "notes.txt"]
    else if String.eqb p "./workflows" then Some ["relocation.json"; "prompts"]
    else None;
  fs_readFileSync := fun p => lookupFile p files;
  net := fun _ => server |}.

(** The server refuses to enable the second model. *)
Definition refusing : request -> option response :=
  except "POST" (integrationAddress +:+ "/integration/gpt-4.1-mini") serverError.

(** The connection drops on the read that checks the integration. *)
Definition dropping : request -> option response :=
  except "GET" integrationAddress None.

(** The integration is there already. *)
Definition provisioned : request -> option response :=
  except "GET" integrationAddress (ok200 "{}").

(** The connection drops on the read that lists the form templates. *)
Definition droppingList : request -> option response :=
  except "GET" (api +:+ "/human/template") None.

(** The answers of these servers never depend on the past. *)
Definition staticBare args server : static (bare args server) :=
  fun _ _ => eq_refl.
Definition staticCheckout args server : static (checkout args server) :=
  fun _ _ => eq_refl.

(** Where the failed write sits in the run against [refusing]. *)
Definition refusedAt : nat := 20.

End Scenario.

(** ** What the properties look at *)

Definition isGet (r : request) : bool := String.eqb (req_method r) "GET".

(** The requests that reached the network and are not reads, in order. *)
Definition posts (evs : list event) : list request :=
  omap (fun e => match e with
                 | EFetch r _ => if isGet r then None else Some r
                 | _ => None
                 end) evs.

Definition level_eqb (a b : level) : bool :=
  match a, b with
  | LHeader, LHeader | LSection, LSection | LBullet, LBullet | LOk, LOk
  | LInfo, LInfo | LWarn, LWarn | LPlan, LPlan | LLog, LLog
  | LError, LError => true
  | _, _ => false
  end.

(** The lines printed by helper [l] whose template starts with the literal
    [p], each without that literal, in order. *)
Definition lines (l : level) (p : string) (evs : list event) : list (list frag) :=
  omap (fun e => match e with
                 | ELog l' (Lit p' :: rest) =>
                     if level_eqb l' l && String.eqb p' p then Some rest else None
                 | _ => None
                 end) evs.

(** [fetch] rejected, or the answer is outside 200-299. *)
Definition transportFailure (a : option response) : bool :=
  match a with
  | None => true
  | Some res => negb (res_ok res)
  end.

(** What [fetch] or [http] throws then. *)
Definition transportError (r : request) (a : option response) : error :=
  match a with
  | None => ErrFetch (req_url r)
  | Some res =>
      ErrHttp (res_status res) (res_statusText res) (req_url r) (res_text res)
  end.

(** An event that plan mode allows: anything printed or read locally, a
    [GET], and the [POST] that exchanges the key pair for a token. *)
Definition planSafe (API : string) (e : event) : Prop :=
  match e with
  | EFetch r _ =>
      req_method r = "GET" \/
      (req_method r = "POST" /\ req_url r = API +:+ "/token")
  | _ => True
  end.


(** The answer of a static server to the read that [exists] and [existsGet]
    send. *)
Definition probe (W : World) (url : string) (token : value) : option response :=
  net W [] (Request "GET" url (authHeaders token) None).

Definition remoteOk (W : World) (url : string) (token : value) : bool :=
  match probe W url token with
  | Some res => res_ok res
  | None => false
  end.

(** The configuration with the mode replaced. *)
Definition withPlan (b : bool) (C : Config) : Config := {|
  PLAN := b;
  NO_OPENAI := NO_OPENAI C;
  WORKFLOWS_DIR := WORKFLOWS_DIR C;
  PROMPTS_DIR := PROMPTS_DIR C;
  FORMS_DIR := FORMS_DIR C |}.

(** The lines that report one creation: [Created <kind>: <name>] in apply
    mode, [Would create <kind>: <name>] in plan mode. *)
Definition createdLines (plan : bool) (kind : string) (evs : list event)
  : list (list frag) :=
  if plan then lines LPlan ("Would create " +:+ kind +:+ ": ") evs
  else lines LOk ("Created " +:+ kind +:+ ": ") evs.

(** [1] for an item of the class, [0] otherwise. *)
Definition one {A} (o : option A) : nat :=
  match o with Some _ => 1 | None => 0 end.

(** An event that is no line of helper [l] starting with [p]. *)
Definition noLine (l : level) (p : string) (e : event) : Prop :=
  lines l p [e] = [].

(** Every number the run printed, in order. *)
Definition countsReported (evs : list event) : list nat :=
  flat_map (fun e => match e with
                     | ELog _ msg =>
                         omap (fun f => match f with Cnt n => Some n | _ => None end) msg
                     | _ => []
                     end) evs.

(** An event that prints no number. *)
Definition noCount (e : event) : Prop := countsReported [e] = [].

(** The same machine started with another command line. *)
Definition withArgv (a : list string) (W : World) : World := {|
  argv := a;
  env := env W;
  fs_existsSync := fs_existsSync W;
  fs_readdirSync := fs_readdirSync W;
  fs_readFileSync := fs_readFileSync W;
  net := net W |}.

(** The options that take the next argument as their value. *)
Definition valueFlags : list string :=
  ["--workflows-dir"; "--prompts-dir"; "--forms-dir"].

(** The test of [positionalJson]. *)
Definition positional (a : string) : bool :=
  Str.endsWith a ".json" && negb (Str.startsWith a "-").

(** The defaults of a task definition record. *)
Definition hasDefaults (userInfo rec : value) : Prop :=
  Js.optGet rec "retryCount" = VNum 2 /\
  Js.optGet rec "timeoutSeconds" = VNum 300 /\
  Js.optGet rec "responseTimeoutSeconds" = VNum 300 /\
  Js.optGet rec "ownerEmail" =
    match Js.optGet userInfo "id" with
    | VUndefined | VNull => VStr "unknown"
    | id => id
    end.

(** [s] contains a slash. *)
Fixpoint hasSlash (s : string) : bool :=
  match s with
  | EmptyString => false
  | String c s' => Ascii.eqb c "/" || hasSlash s'
  end.

(** Events that are no write at all. *)
Definition quiet (e : event) : Prop :=
  match e with
  | EFetch r _ => isGet r = true
  | _ => True
  end.

(** Every event that [m] emits satisfies [phi], whatever came before. *)
Definition always {A} (phi : event -> Prop) (m : M A) : Prop :=
  forall h, Forall phi (snd (m h)).

(** [m] stops at the first write that fails in transport: the failed
    request is the last event and the transport error is thrown. *)
Definition failFast {A} (m : M A) : Prop :=
  forall h pre r a post,
    snd (m h) = pre ++ EFetch r a :: post ->
    isGet r = false -> transportFailure a = true ->
    post = [] /\ fst (m h) = Throw (transportError r a).

(** The statuses [http] is asked to accept are 200, 201 or 204 at every call
    of the script, so an answer outside 200-299 is never accepted. *)
Definition accepted2xx (okStatuses : list nat) : Prop :=
  forall s, existsb (Nat.eqb s) okStatuses = true -> 200 <= s <= 299.

(** ** The partition of the desired resources on a static server *)

Section Partition.

Variable P : Platform.
Variable C : Config.
Variable W : World.
Variable API : string.
Variable token : value.

Definition jsonHeaders : option (list (string * value)) :=
  Some [("Content-Type", VStr "application/json")].

(** A write as [http] sends it. *)
Definition writeRequest (url : string) (b : body) : request :=
  Request "POST" url (requestHeaders token jsonHeaders (Some b)) (Some b).

(** *** Task definitions *)
Definition taskDefUrl (name : string) : string :=
  API +:+ "/metadata/taskdefs/" +:+ Str.encodeURIComponent name.

Definition taskDefExists (name : string) : bool :=
  remoteOk W (taskDefUrl name) token.

Definition existingTasks (tasks : list string) : list string :=
  List.filter taskDefExists tasks.

Definition missingTasks (tasks : list string) : list string :=
  List.filter (fun n => negb (taskDefExists n)) tasks.

(** What checking one task definition emits. *)
Definition checkEvents (name : string) : list event :=
  [EFetch (Request "GET" (taskDefUrl name) (authHeaders token) None)
     (probe W (taskDefUrl name) token);
   if taskDefExists name
   then ELog LOk [Lit "TaskDef exists: "; Sub name]
   else ELog LWarn [Lit "TaskDef missing: "; Sub name]].

(** The lines that name the tasks before they are checked. *)
Definition taskBullets (tasks : list string) : list event :=
  map (fun t => ELog LBullet [Sub t]) tasks.

(** The one batched creation call. *)
Definition registerRequest (userInfo : value) (missing : list string) : request :=
  writeRequest (API +:+ "/metadata/taskdefs")
    (BodyJson (VArr (map (fun n => taskDefRecord n userInfo) missing))).

(** *** Documents: forms and workflows *)

(** What the loop body finds for one document. *)
Inductive verdict : Type :=
| Broken                            (* unreadable, or not an object: it throws *)
| Nameless                          (* no name: skipped with a warning *)
| Existing (name : value)
| Missing (name doc : value).

Definition missingOf (v : verdict) : option (value * value) :=
  match v with Missing n d => Some (n, d) | _ => None end.
Definition existingOf (v : verdict) : option value :=
  match v with Existing n => Some n | _ => None end.
Definition isNameless (v : verdict) : bool :=
  match v with Nameless => true | _ => false end.

(** [readJson] without the events. *)
Definition readDoc (path : string) : option value :=
  match fs_readFileSync W path with
  | Some text => JSON_parse P text
  | None => None
  end.

Definition judge (known : value -> bool) (doc : option value) : verdict :=
  match doc with
  | None | Some VUndefined | Some VNull => Broken
  | Some d =>
      let name := Js.optGet d "name" in
      if Js.truthy name
      then if known name then Existing name else Missing name d
      else Nameless
  end.

(** *** Workflows *)
Definition workflowPath (wfFile : string) : string :=
  match positionalJson W with
  | Some _ => path_resolve P wfFile
  | None => path_join P (WORKFLOWS_DIR C) wfFile
  end.

Definition workflowGetUrl (name : value) : string :=
  API +:+ "/metadata/workflow/" +:+ Str.encodeURIComponent (str P name).

Definition workflowVerdict (wfFile : string) : verdict :=
  judge (fun name => remoteOk W (workflowGetUrl name) token)
        (readDoc (workflowPath wfFile)).

Definition workflowRequest (doc : value) : request :=
  writeRequest (API +:+ "/metadata/workflow?overwrite=false&newVersion=false")
    (BodyJson doc).

Definition missingWorkflows (files : list string) : list (value * value) :=
  omap (fun f => missingOf (workflowVerdict f)) files.
Definition existingWorkflows (files : list string) : list value :=
  omap (fun f => existingOf (workflowVerdict f)) files.
Definition namelessWorkflows (files : list string) : list string :=
  List.filter (fun f => isNameless (workflowVerdict f)) files.

(** The files the workflow pass goes through. *)
Definition theWorkflowFiles : list string :=
  match positionalJson W with
  | Some a => [a]
  | None =>
      match fs_readdirSync W (WORKFLOWS_DIR C) with
      | Some entries => List.filter (fun f => Str.endsWith f ".json") entries
      | None => []
      end
  end.

(** *** Forms *)
Definition templatesRequest : request :=
  Request "GET" (API +:+ "/human/template") (authHeaders token) None.

(** [listHumanTemplates] without the events. *)
Definition remoteTemplates : list value :=
  match net W [] templatesRequest with
  | Some res =>
      if negb (res_ok res) then []
      else if String.eqb (res_text res) "" then []
      else match JSON_parse P (res_text res) with
           | Some (VArr data) => data
           | _ => []
           end
  | None => []
  end.

Definition formVerdict (existingNames : list value) (f : string) : verdict :=
  judge (setHas existingNames) (readDoc (path_join P (FORMS_DIR C) f)).

Definition formRequest (doc : value) : request :=
  writeRequest (API +:+ "/human/template?newVersion=false") (BodyJson doc).

Definition missingForms (existingNames : list value) (files : list string)
  : list (value * value) :=
  omap (fun f => missingOf (formVerdict existingNames f)) files.
Definition existingForms (existingNames : list value) (files : list string)
  : list value :=
  omap (fun f => existingOf (formVerdict existingNames f)) files.
Definition namelessForms (existingNames : list value) (files : list string)
  : list string :=
  List.filter (fun f => isNameless (formVerdict existingNames f)) files.

(** The files the form pass goes through. *)
Definition theFormFiles : list string :=
  if fs_existsSync W (FORMS_DIR C) then
    match fs_readdirSync W (FORMS_DIR C) with
    | Some entries => List.filter (fun f => Str.endsWith f ".json") entries
    | None => []
    end
  else [].

(** *** Prompts; a prompt is [(name, file)] *)
Definition promptPath (p : string * string) : string :=
  path_join P (PROMPTS_DIR C) (snd p).

Definition promptGetUrl (p : string * string) : string :=
  API +:+ "/prompts/" +:+ Str.encodeURIComponent (fst p).

Definition promptPostUrl (association : string) (p : string * string) : string :=
  API +:+ "/prompts/" +:+ Str.encodeURIComponent (fst p) +:+
  "?description=" +:+
  Str.encodeURIComponent ("Auto-registered from " +:+ snd p) +:+
  "&models=" +:+ Str.encodeURIComponent association.

Definition promptHasFile (p : string * string) : bool :=
  fs_existsSync W (promptPath p).

Definition promptExists (p : string * string) : bool :=
  promptHasFile p && remoteOk W (promptGetUrl p) token.

(** The text of a prompt that has its file and is not on the server. *)
Definition promptMissing (p : string * string) : option string :=
  if promptHasFile p && negb (remoteOk W (promptGetUrl p) token)
  then fs_readFileSync W (promptPath p)
  else None.

Definition promptRequest (association : string) (p : string * string)
    (text : string) : request :=
  writeRequest (promptPostUrl association p) (BodyText text).

Definition missingPrompts (prompts : list (string * string))
  : list ((string * string) * string) :=
  omap (fun p => (fun text => (p, text)) <$> promptMissing p) prompts.
Definition existingPrompts (prompts : list (string * string))
  : list (string * string) :=
  List.filter promptExists prompts.
Definition filelessPrompts (prompts : list (string * string))
  : list (string * string) :=
  List.filter (fun p => negb (promptHasFile p)) prompts.

(** [process.env.PROMPT_MODEL_ASSOCIATION ?? "openai:gpt-4o-mini"] *)
Definition promptModelAssociation : string :=
  default "openai:gpt-4o-mini" (env W !! "PROMPT_MODEL_ASSOCIATION").

(** *** The OpenAI integration and its models *)
Definition openaiIntegrationName : string :=
  default "openai" (env W !! "OPENAI_INTEGRATION_NAME").

Definition integrationUrl (name : string) : string :=
  API +:+ "/integrations/provider/" +:+ name.

Definition integrationRequest (name openaiApiKey : string) : request :=
  writeRequest (integrationUrl name) (BodyJson (integrationBody openaiApiKey)).

Definition modelUrl (name modelName : string) : string :=
  API +:+ "/integrations/provider/" +:+ name +:+ "/integration/" +:+
  Str.encodeURIComponent modelName.

Definition modelExists (name modelName : string) : bool :=
  remoteOk W (modelUrl name modelName) token.

Definition modelRequest (name modelName : string) : request :=
  writeRequest (modelUrl name modelName) (BodyJson (modelBody modelName)).

Definition missingModels (name : string) (models : list string) : list string :=
  List.filter (fun m => negb (modelExists name m)) models.
Definition existingModels (name : string) (models : list string) : list string :=
  List.filter (modelExists name) models.

End Partition.

(** ** The environment file *)

(** [loadDotEnvIfPresent] fills [process.env] before [main] reads it: for
    [main] and [run] the [env] of a [World] is the environment it leaves
    behind, for [mainWithDotEnv] and [runWithDotEnv] below it is the
    environment the process was started with.  The
    environment is the one of a POSIX system: names are case-sensitive and
    the empty name cannot be set.  The file is taken to hold no NUL
    character. *)
Module DotEnv.

Definition newline : ascii := ascii_of_nat 10.
Definition dquote : ascii := ascii_of_nat 34.
Definition squote : ascii := ascii_of_nat 39.

(** [s.indexOf(c)] for a one-character [c] *)
Fixpoint indexOf (c : ascii) (s : string) : option nat :=
  match s with
  | EmptyString => None
  | String c' s' => if Ascii.eqb c' c then Some 0 else S <$> indexOf c s'
  end.

(** [s.slice(0, n)] *)
Definition sliceTo (n : nat) (s : string) : string := String.substring 0 n s.

(** [s.slice(n)] *)
Fixpoint sliceFrom (n : nat) (s : string) : string :=
  match n, s with
  | 0, _ => s
  | S n', String _ s' => sliceFrom n' s'
  | S _, EmptyString => EmptyString
  end.

(** [v.slice(1, -1)] *)
Definition sliceInner (v : string) : string :=
  String.substring 1 (String.length v - 2) v.

(** [v.startsWith(q) && v.endsWith(q)] for a quotation mark [q] *)
Definition wrappedIn (q : ascii) (v : string) : bool :=
  Str.startsWith v (String q EmptyString) && Str.endsWith v (String q EmptyString).

Definition unquote (v : string) : string :=
  if wrappedIn dquote v || wrappedIn squote v then sliceInner v else v.

(** The names every object inherits from [Object.prototype]: the [in]
    operator finds them on [process.env] whatever the environment holds. *)
Definition inheritedNames : list string :=
  ["constructor"; "__defineGetter__"; "__defineSetter__"; "hasOwnProperty";
   "__lookupGetter__"; "__lookupSetter__"; "isPrototypeOf";
   "propertyIsEnumerable"; "toString"; "valueOf"; "__proto__";
   "toLocaleString"].

(** [k in process.env] *)
Definition envHas (k : string) (e : gmap string string) : bool :=
  bool_decide (is_Some (e !! k)) || Js.includes inheritedNames k.

(** [process.env[k] = v]; setting the empty name is refused by the
    operating system and changes nothing. *)
Definition envSet (k v : string) (e : gmap string string) : gmap string string :=
  if String.eqb k "" then e else <[k := v]> e.

(** What a line of the file defines, if anything: the part of the loop body
    before the assignment. *)
Definition parseLine (P : Platform) (line : string) : option (string * string) :=
  let trimmed := String_trim P line in
  if String.eqb trimmed "" || Str.startsWith trimmed "#" then None
  else
    match indexOf "=" trimmed with
    | None => None
    | Some eq =>
        let k := String_trim P (sliceTo eq trimmed) in
        let v := String_trim P (sliceFrom (eq + 1) trimmed) in
        Some (k, unquote v)
    end.

(** The body of [for (const line of content.split("\n"))], on
    [process.env]. *)
Definition loadLine (P : Platform) (line : string) (e : gmap string string)
  : gmap string string :=
  match parseLine P line with
  | None => e
  | Some (k, v) => if envHas k e then e else envSet k v e
  end.

Definition loadDotEnvIfPresent (P : Platform) (W : World) (dotEnvPath : string)
    (e : gmap string string) : M (gmap string string) :=
  present <- existsSync W dotEnvPath ;;
  if negb present then ret e
  else
    content <- readText W dotEnvPath ;;
    for_of (Str.splitOn newline content) (fun line e' => ret (loadLine P line e')) e.

(** The definitions of a file, line by line, and the first one for a
    name. *)
Definition entries (P : Platform) (content : string) : list (string * string) :=
  omap (parseLine P) (Str.splitOn newline content).

Definition firstFor (k : string) (kvs : list (string * string)) : option string :=
  snd <$> List.find (fun kv => String.eqb (fst kv) k) kvs.

(** A name the loop can set. *)
Definition settable (k : string) : bool :=
  negb (String.eqb k "") && negb (Js.includes inheritedNames k).

End DotEnv.

(** ** More of what the properties look at *)

(** Every request that reached the network, in order. *)
Definition fetches (evs : list event) : list request :=
  omap (fun e => match e with EFetch r _ => Some r | _ => None end) evs.

(** An event that is no request. *)
Definition silent (e : event) : Prop := fetches [e] = [].

(** What was looked up on the disk, in order. *)
Definition fsOps (evs : list event) : list fsop :=
  omap (fun e => match e with EFs op => Some op | _ => None end) evs.

(** An event that is no lookup on the disk. *)
Definition noFs (e : event) : Prop := fsOps [e] = [].

(** The files that were read, in order. *)
Definition filesRead (evs : list event) : list string :=
  omap (fun op => match op with FsReadFile p => Some p | _ => None end)
       (fsOps evs).

(** The reads that reached the network, in order. *)
Definition gets (evs : list event) : list request :=
  omap (fun e => match e with
                 | EFetch r _ => if isGet r then Some r else None
                 | _ => None
                 end) evs.

(** The request carries the access token [t]. *)
Definition carries (t : string) (r : request) : Prop :=
  Js.assoc "X-Authorization" (req_headers r) = Some (VStr t).

(** [keyId] and [keySecret] of the authentication step. *)
Definition keyId (W : World) : value :=
  Js.nullish (Js.nullish (env_val W "CONDUCTOR_KEY_ID")
                          (env_val W "CONDUCTOR_AUTH_KEY"))
             (env_val W "CONDUCTOR_KEY").

Definition keySecret (W : World) : value :=
  Js.nullish (Js.nullish (env_val W "CONDUCTOR_KEY_SECRET")
                          (env_val W "CONDUCTOR_AUTH_SECRET"))
             (env_val W "CONDUCTOR_SECRET").

(** An environment value that [mustEnv] accepts. *)
Definition usable (P : Platform) (W : World) (n : string) : bool :=
  match env W !! n with
  | Some v => negb (String.eqb v "") && negb (String.eqb (String_trim P v) "")
  | None => false
  end.

(** The request of the optional user-info step. *)
Definition userInfoRequest (API : string) (token : value) : request :=
  Request "GET" (API +:+ "/token/userInfo")
    (requestHeaders token (Some [("accept", VStr "application/json")]) None)
    None.

(** What [http] returns for an accepted answer. *)
Definition decoded (P : Platform) (x : expect) (text : string) : value :=
  match x with
  | ExpectText => VStr text
  | ExpectJson =>
      if String.eqb text "" then VObj []
      else match JSON_parse P text with
           | Some v => v
           | None => VObj [("_raw", VStr text)]
           end
  end.

(** The user info that comes out of the answer [a] to the user-info
    request: the decoded body when the status is 200, the empty object when
    the request failed in any way. *)
Definition userInfoOf (P : Platform) (a : option response) : value :=
  match a with
  | Some res =>
      if Nat.eqb (res_status res) 200 then decoded P ExpectJson (res_text res)
      else VObj []
  | None => VObj []
  end.

(** The user info a static server gives. *)
Definition remoteUserInfo (P : Platform) (W : World) (API : string)
    (token : value) : value :=
  userInfoOf P (net W [] (userInfoRequest API token)).

(** A value that a template literal turns into text without calling
    anything of the value's own: not an object and not an array. *)
Definition primitive (v : value) : bool :=
  match v with
  | VObj _ | VArr _ => false
  | _ => true
  end.

(** What the run prints after [Authenticated as: ]. *)
Definition who (userInfo : value) : list frag :=
  if Js.truthy (Js.optGet userInfo "name") then
    [Val (Js.optGet userInfo "name"); Lit " (";
     Val (Js.nullish (Js.optGet userInfo "id") (VStr "unknown")); Lit ")"]
  else [Lit "unknown user"].

(** A document that cannot be used: the file could not be read or parsed,
    or it holds [null]. *)
Definition brokenDoc (d : option value) : bool :=
  match d with
  | None | Some VUndefined | Some VNull => true
  | Some _ => false
  end.

(** An event that is no read from the network. *)
Definition noGet (e : event) : Prop := gets [e] = [].

(** The address string handed to [fetch] begins with [API]. *)
Definition onServer (API : string) (e : event) : Prop :=
  match e with
  | EFetch r _ => String.prefix API (req_url r) = true
  | _ => True
  end.

(** The line that closes a successful run. *)
Definition banner (evs : list event) : list (list frag) :=
  lines LHeader "Setup complete (" evs.

(** [m] throws, and what it emitted before satisfies [phi]; when the line
    that opens the OpenAI pass was printed, the error is the missing
    variable. *)
Definition stops {A} (phi : event -> Prop) (m : M A) : Prop :=
  forall h,
    Forall phi (snd (m h)) /\
    exists err,
      fst (m h) = Throw err /\
      (lines LSection "OpenAI Integration (idempotent)" (snd (m h)) = [] \/
       err = ErrMissingEnv ["OPENAI_API_KEY"]).

(** [m] prints the closing banner exactly when it returns. *)
Definition closes (mode : string) {A} (m : M A) : Prop :=
  forall h,
    banner (snd (m h)) =
    match fst (m h) with
    | Ret _ => [[Sub mode; Lit " mode)"]]
    | Throw _ => []
    end.

(** ** The writes of a run, pass by pass *)

Section Writes.

Variable P : Platform.
Variable C : Config.
Variable W : World.
Variable API : string.
Variable token : value.

Definition openaiWrites : list request :=
  if NO_OPENAI C then []
  else
    let name := openaiIntegrationName W in
    match firstSetEnv P W ["OPENAI_API_KEY"] with
    | Some key =>
        (if remoteOk W (integrationUrl API name) token then []
         else [integrationRequest API token name key]) ++
        map (modelRequest API token name)
            (missingModels W API token name (openaiModels P W))
    | None => []
    end.

Definition taskDefWrites : list request :=
  match missingTasks W API token WORKER_TASKS with
  | [] => []
  | missing =>
      [registerRequest API token (remoteUserInfo P W API token) missing]
  end.

Definition formWrites : list request :=
  map (fun nd => formRequest API token (snd nd))
      (missingForms P C W (templateNames (remoteTemplates P W API token))
         (theFormFiles C W)).

Definition promptWrites : list request :=
  map (fun pt => promptRequest API token (promptModelAssociation W)
                   (fst pt) (snd pt))
      (missingPrompts P C W API token REQUIRED_PROMPTS).

Definition workflowWrites : list request :=
  map (fun nd => workflowRequest API token (snd nd))
      (missingWorkflows P C W API token (theWorkflowFiles C W)).

End Writes.

(** ** More machines for the examples *)

Module EnvFile.

Definition nl : string := String DotEnv.newline EmptyString.
Definition dq : string := String DotEnv.dquote EmptyString.

(** An environment file: a comment, a quoted value for a name the shell
    has set, a name defined twice, and a line that defines nothing. *)
Definition content : string :=
  "# local settings" +:+ nl +:+
  "CONDUCTOR_SERVER_URL=" +:+ dq +:+ "https://file" +:+ dq +:+ nl +:+
  "OPENAI_API_KEY = 'sk-file'" +:+ nl +:+
  "OPENAI_API_KEY=sk-second" +:+ nl +:+
  "not a definition" +:+ nl.

(** What the shell has set before the script starts. *)
Definition shell : gmap string string :=
  {[ "CONDUCTOR_SERVER_URL" := "https://shell" ]}.

Definition world : World := {|
  argv := Scenario.argvOf [];
  env := shell;
  fs_existsSync := fun p => String.eqb p ".env";
  fs_readdirSync := fun _ => None;
  fs_readFileSync := fun p => if String.eqb p ".env" then Some content else None;
  net := fun _ _ => None |}.

(** The environment once the file is loaded. *)
Definition loaded : gmap string string :=
  match fst (DotEnv.loadDotEnvIfPresent Scenario.node world ".env" shell []) with
  | Ret e => e
  | Throw _ => shell
  end.

End EnvFile.

Module Machines.

(** A machine like [Scenario.bare] with another environment. *)
Definition withEnv (e : gmap string string) (W : World) : World := {|
  argv := argv W;
  env := e;
  fs_existsSync := fs_existsSync W;
  fs_readdirSync := fs_readdirSync W;
  fs_readFileSync := fs_readFileSync W;
  net := net W |}.

(** No access token; the key id is set but empty, although the variable it
    would fall back to holds a key. *)
Definition emptyKeyId : World :=
  withEnv {[ "CONDUCTOR_KEY_ID" := EmptyString;
             "CONDUCTOR_AUTH_KEY" := "key";
             "CONDUCTOR_KEY_SECRET" := "secret" ]}
          (Scenario.bare [] Scenario.emptyServer).

(** An access token but no OpenAI key. *)
Definition noOpenaiKey : World :=
  withEnv {[ "CONDUCTOR_ACCESS_TOKEN" := "tok";
             "CONDUCTOR_SERVER_URL" := "https://host" ]}
          (Scenario.bare [] Scenario.emptyServer).

(** A server on which every read finds something. *)
Definition complete : request -> option response :=
  fun _ => Scenario.ok200 "{}".

(** The server knows the user. *)
Definition knownUser : request -> option response :=
  Scenario.except "GET" (Scenario.api +:+ "/token/userInfo")
    (Scenario.ok200 (Scenario.namedDoc "intake")).

(** The server has the form template [intake]. *)
Definition listed : request -> option response :=
  Scenario.except "GET" (Scenario.api +:+ "/human/template")
    (Scenario.ok200 ("[" +:+ Scenario.namedDoc "intake" +:+ "]")).

End Machines.

(** What a run authenticated by the access token has printed when it sends
    the connectivity check, and the check itself. *)
Definition opening (C : Config) (API : string) : list event :=
  [ELog LHeader [Lit "Orkes Healthcare Relocation Setup"];
   ELog LBullet [Lit "Mode: ";
                 Lit (if PLAN C then "PLAN (no changes)" else "APPLY")];
   ELog LBullet [Lit "Orkes API: "; Sub API];
   ELog LBullet [Lit "Orkes UI : "; Sub (uiBaseFromApi API)];
   ELog LSection [Lit "Authentication"];
   ELog LOk [Lit "Using CONDUCTOR_ACCESS_TOKEN"];
   ELog LInfo [Lit "Checking server connectivity"]].

Definition versionRequest (API : string) : request :=
  Request "GET" (API +:+ "/version") [("accept", VStr "*/*")] None.

(** The request carries the access token [t], or is the connectivity
    check, which carries no token. *)
Definition authorized (API t : string) (e : event) : Prop :=
  match e with
  | EFetch r _ => carries t r \/ r = versionRequest API
  | _ => True
  end.

(** The exchange of the key pair for a token, and what a run without an
    access token has printed when it sends it. *)
Definition tokenRequest (W : World) (API : string) : request :=
  let b := BodyJson (VObj [("keyId", keyId W); ("keySecret", keySecret W)]) in
  Request "POST" (API +:+ "/token")
    (requestHeaders VUndefined
       (Some [("accept", VStr "application/json");
              ("Content-Type", VStr "application/json")])
       (Some b))
    (Some b).

Definition keyOpening (C : Config) (API : string) : list event :=
  [ELog LHeader [Lit "Orkes Healthcare Relocation Setup"];
   ELog LBullet [Lit "Mode: ";
                 Lit (if PLAN C then "PLAN (no changes)" else "APPLY")];
   ELog LBullet [Lit "Orkes API: "; Sub API];
   ELog LBullet [Lit "Orkes UI : "; Sub (uiBaseFromApi API)];
   ELog LSection [Lit "Authentication"];
   ELog LInfo [Lit "Using key/secret to obtain token"]].

Module KeyMachines.

(** A key pair and no access token. *)
Definition keyPair : gmap string string :=
  {[ "CONDUCTOR_KEY_ID" := "id";
     "CONDUCTOR_KEY_SECRET" := "secret";
     "CONDUCTOR_SERVER_URL" := "https://host";
     "OPENAI_API_KEY" := "sk" ]}.

(** The server answers the token exchange with an empty object. *)
Definition tokenless : request -> option response :=
  Scenario.except "POST" (Scenario.api +:+ "/token") (Scenario.ok200 "{}").

Definition world (args : list string) : World :=
  Machines.withEnv keyPair (Scenario.bare args tokenless).

(** The shell sets both address variables to the empty string; the file
    defines one of them. *)
Definition emptyAddresses : gmap string string :=
  {[ "CONDUCTOR_SERVER_API_URL" := EmptyString;
     "CONDUCTOR_SERVER_URL" := EmptyString ]}.

End KeyMachines.

(** ** The process from its first statement *)

(** The source's [main] in full: the environment file is loaded into the
    environment the process was started with, [env W], and the rest of
    [main] runs on the environment that leaves. *)
Definition mainWithDotEnv (P : Platform) (W : World) : M unit :=
  e <- DotEnv.loadDotEnvIfPresent P W ".env" (env W) ;;
  main P (config (argv W)) (Machines.withEnv e W).

(** [main().catch(...)] for it: the exit code and the events. *)
Definition runWithDotEnv (P : Platform) (W : World) : nat * list event :=
  match mainWithDotEnv P W [] with
  | (Ret _, evs) => (0, evs)
  | (Throw e, evs) => (1, evs ++ [ELog LError (Lit "ERROR:" :: error_message e)])
  end.

(** What [loadDotEnvIfPresent] looks up on the disk. *)
Definition dotEnvLookup (W : World) : list event :=
  EFs (FsExists ".env") ::
  (if fs_existsSync W ".env" then [EFs (FsReadFile ".env")] else []).

Module TokenFile.

(** The shell sets nothing; the environment file holds the access token
    and the server address. *)
Definition content : string :=
  "CONDUCTOR_ACCESS_TOKEN=tok" +:+ EnvFile.nl +:+
  "CONDUCTOR_SERVER_URL=https://host" +:+ EnvFile.nl.

(** The server does not answer the connectivity check. *)
Definition world : World := {|
  argv := Scenario.argvOf [];
  env := ∅;
  fs_existsSync := fun p => String.eqb p ".env";
  fs_readdirSync := fun _ => None;
  fs_readFileSync := fun p => if String.eqb p ".env" then Some content else None;
  net := fun _ => Scenario.except "GET" (Scenario.api +:+ "/version") None |}.

Definition loaded : gmap string string :=
  {[ "CONDUCTOR_ACCESS_TOKEN" := "tok";
     "CONDUCTOR_SERVER_URL" := "https://host" ]}.

End TokenFile.

(** * Properties *)

(** ** Strings *)

Module StrFacts.

Lemma length_append (a b : string) :
  String.length (a +:+ b) = String.length a + String.length b.
Proof. induction a as [|c a IH]; simpl; [reflexivity | now rewrite IH]. Qed.

Lemma eqb_length_neq (a b : string) :
  String.length a <> String.length b -> String.eqb a b = false.
Proof.
  intros Hlen. destruct (String.eqb_spec a b) as [->|]; [lia | reflexivity].
Qed.

(** A suffix no longer than [c] is looked for in [c] alone. *)
Lemma endsWith_append (a c suf : string) :
  String.length suf <= String.length c ->
  Str.endsWith (a +:+ c) suf = Str.endsWith c suf.
Proof.
  intros Hlen. induction a as [|x a IH]; [reflexivity|].
  change (String x a +:+ c) with (String x (a +:+ c)).
  cbn [Str.endsWith]. rewrite IH, eqb_length_neq; [reflexivity|].
  cbn [String.length]. rewrite length_append. lia.
Qed.

(** Removing the suffix that was just appended gives the string back. *)
Lemma stripApi_append (u : string) : stripApi (u +:+ "/api") = u.
Proof.
  unfold stripApi. induction u as [|c u IH]; [reflexivity|].
  change (String c u +:+ "/api") with (String c (u +:+ "/api")).
  cbn [Str.stripSuffix2].
  assert (H1 : String.eqb (String c (u +:+ "/api")) "/api" = false).
  { apply eqb_length_neq. cbn [String.length]. rewrite length_append.
    simpl. lia. }
  assert (H2 : String.eqb (String c (u +:+ "/api")) "/api/" = false).
  { destruct u as [|c' u].
    - simpl. destruct (Ascii.eqb c "/"); reflexivity.
    - apply eqb_length_neq. cbn [String.length String.append].
      rewrite length_append. simpl. lia. }
  rewrite H1, H2. cbn [orb]. now rewrite IH.
Qed.

(** A string that ends in neither alternative is left alone. *)
Lemma stripApi_id (u : string) :
  Str.endsWith u "/api" = false -> Str.endsWith u "/api/" = false ->
  stripApi u = u.
Proof.
  unfold stripApi. induction u as [|c u IH]; [reflexivity|].
  cbn [Str.endsWith Str.stripSuffix2].
  intros [-> Ha]%orb_false_iff [-> Hb]%orb_false_iff.
  cbn [orb]. now rewrite IH.
Qed.

Lemma append_nonempty (a b : string) : b <> "" -> a +:+ b <> "".
Proof. destruct a; simpl; [tauto | discriminate]. Qed.

End StrFacts.

Module UrlFacts.
Import StrFacts.

Lemma hasSlash_append (a b : string) :
  hasSlash (a +:+ b) = hasSlash a || hasSlash b.
Proof.
  induction a as [|c a IH]; simpl; [reflexivity|].
  now rewrite IH, orb_assoc.
Qed.

(** A string that ends in [/...] contains a slash. *)
Lemma endsWith_hasSlash (s suf : string) :
  Str.endsWith s (String "/" suf) = true -> hasSlash s = true.
Proof.
  induction s as [|c s IH]; cbn [Str.endsWith hasSlash].
  - rewrite orb_false_r. intros H%String.eqb_eq. discriminate.
  - intros [H%String.eqb_eq | H]%orb_true_iff.
    + injection H as -> _. reflexivity.
    + rewrite (IH H). apply orb_true_r.
Qed.

Lemma hexDigit_no_slash (n : nat) : Ascii.eqb (Str.hexDigit n) "/" = false.
Proof.
  unfold Str.hexDigit.
  do 16 (destruct n as [|n]; [reflexivity|]). simpl.
  destruct n; reflexivity.
Qed.

Lemma unreserved_no_slash (c : ascii) :
  Str.unreserved c = true -> Ascii.eqb c "/" = false.
Proof.
  intros Hc. destruct (Ascii.eqb_spec c "/") as [->|]; [|reflexivity].
  discriminate Hc.
Qed.

(** [encodeURIComponent] escapes every slash. *)
Lemma encodeURIComponent_no_slash (s : string) :
  hasSlash (Str.encodeURIComponent s) = false.
Proof.
  induction s as [|c s IH]; [reflexivity|].
  cbn [Str.encodeURIComponent].
  destruct (Str.unreserved c) eqn:Hc; cbn [hasSlash].
  - now rewrite (unreserved_no_slash _ Hc), IH.
  - now rewrite !hexDigit_no_slash, IH.
Qed.

Lemma tokenUrl_append (a c : string) :
  7 <= String.length c -> tokenUrl (a +:+ c) = tokenUrl c.
Proof.
  intros Hlen. unfold tokenUrl.
  rewrite !endsWith_append; [reflexivity | simpl; lia | simpl; lia].
Qed.

Lemma tokenUrl_no_slash (s : string) : hasSlash s = false -> tokenUrl s = false.
Proof.
  intros Hs. unfold tokenUrl. apply orb_false_iff. split.
  - destruct (Str.endsWith s "/token") eqn:E; [|reflexivity].
    apply endsWith_hasSlash in E. congruence.
  - destruct (Str.endsWith s "/token/") eqn:E; [|reflexivity].
    apply endsWith_hasSlash in E. congruence.
Qed.

(** The address a prompt is created at never looks like the token
    endpoint: its last slash-free stretch starts in the query string. *)
Lemma tokenUrl_prompt (API name desc models : string) :
  tokenUrl (API +:+ "/prompts/" +:+ name +:+ "?description=" +:+
            Str.encodeURIComponent desc +:+ "&models=" +:+
            Str.encodeURIComponent models) = false.
Proof.
  do 4 (rewrite tokenUrl_append;
        [| rewrite ?length_append; simpl; lia]).
  apply tokenUrl_no_slash.
  rewrite !hasSlash_append, !encodeURIComponent_no_slash. reflexivity.
Qed.

End UrlFacts.

(** ** Reasoning about computations *)


Lemma always_ret {A} phi (a : A) : always phi (ret a).
Proof. intros h. constructor. Qed.

Lemma always_throw {A} phi e : always phi (@throw A e).
Proof. intros h. constructor. Qed.

Lemma always_emit phi e : phi e -> always phi (emit e).
Proof. intros He h. repeat constructor. exact He. Qed.

Lemma always_bind {A B} phi (m : M A) (k : A -> M B) :
  always phi m -> (forall a, always phi (k a)) -> always phi (bind m k).
Proof.
  intros Hm Hk h. unfold bind. specialize (Hm h).
  destruct (m h) as [[a|e] e1]; simpl in *; [|exact Hm].
  specialize (Hk a (h ++ e1)).
  destruct (k a (h ++ e1)) as [o e2]; simpl in *.
  apply Forall_app; split; assumption.
Qed.

Lemma always_try_catch {A} phi (m handler : M A) :
  always phi m -> always phi handler -> always phi (try_catch m handler).
Proof.
  intros Hm Hh h. unfold try_catch. specialize (Hm h).
  destruct (m h) as [[a|e] e1]; simpl in *; [exact Hm|].
  specialize (Hh (h ++ e1)).
  destruct (handler (h ++ e1)) as [o e2]; simpl in *.
  apply Forall_app; split; assumption.
Qed.

Lemma always_for_of {X St} phi (body : X -> St -> M St) (xs : list X) :
  (forall x st, always phi (body x st)) ->
  forall st, always phi (for_of xs body st).
Proof.
  intros Hb. induction xs as [|x xs IH]; intros st; simpl.
  - apply always_ret.
  - apply always_bind; [apply Hb | intros st'; apply IH].
Qed.

Lemma always_weaken {A} (phi psi : event -> Prop) (m : M A) :
  (forall e, phi e -> psi e) -> always phi m -> always psi m.
Proof. intros Himp Hm h. eapply Forall_impl; [apply Hm | exact Himp]. Qed.


Lemma quiet_no_write evs pre r a post :
  Forall quiet evs -> evs = pre ++ EFetch r a :: post -> isGet r = false -> False.
Proof.
  intros Hq -> Hr. apply Forall_app in Hq as [_ Hq].
  apply Forall_cons_1 in Hq as [Hq _]. simpl in Hq. congruence.
Qed.

Lemma failFast_quiet {A} (m : M A) : always quiet m -> failFast m.
Proof.
  intros Hq h pre r a post Heq Hr _. exfalso.
  eapply quiet_no_write; [apply (Hq h) | exact Heq | exact Hr].
Qed.

(** Where an event of [e1 ++ e2] sits. *)
Lemma app_split_event (e1 e2 pre post : list event) (x : event) :
  e1 ++ e2 = pre ++ x :: post ->
  (exists post1, e1 = pre ++ x :: post1 /\ post = post1 ++ e2) \/
  (exists pre2, e2 = pre2 ++ x :: post /\ pre = e1 ++ pre2).
Proof.
  revert pre. induction e1 as [|y e1 IH]; intros pre Heq; simpl in Heq.
  - right. exists pre. split; [exact Heq | reflexivity].
  - destruct pre as [|z pre]; simpl in Heq.
    + injection Heq as -> <-. left. exists e1. split; reflexivity.
    + injection Heq as -> Heq. destruct (IH _ Heq) as [[p1 [-> ->]]|[p2 [-> ->]]].
      * left. exists p1. split; reflexivity.
      * right. exists p2. split; reflexivity.
Qed.

Lemma failFast_bind {A B} (m : M A) (k : A -> M B) :
  failFast m -> (forall a, failFast (k a)) -> failFast (bind m k).
Proof.
  intros Hm Hk h pre r a post. unfold bind.
  specialize (Hm h). destruct (m h) as [[x|e] e1] eqn:Emh; simpl in *.
  - specialize (Hk x (h ++ e1)).
    destruct (k x (h ++ e1)) as [o e2]; simpl in *.
    intros Heq Hr Ha.
    destruct (app_split_event _ _ _ _ _ Heq) as [[p1 [E1 ->]]|[p2 [E2 ->]]].
    + destruct (Hm _ _ _ _ E1 Hr Ha) as [_ Hthrow]. discriminate.
    + apply (Hk _ _ _ _ E2 Hr Ha).
  - intros Heq Hr Ha. destruct (Hm _ _ _ _ Heq Hr Ha) as [-> [= ->]].
    split; reflexivity.
Qed.

Lemma failFast_ret {A} (a : A) : failFast (ret a).
Proof. apply failFast_quiet, always_ret. Qed.

Lemma failFast_throw {A} e : failFast (@throw A e).
Proof. apply failFast_quiet, always_throw. Qed.

Lemma failFast_for_of {X St} (body : X -> St -> M St) (xs : list X) :
  (forall x st, failFast (body x st)) ->
  forall st, failFast (for_of xs body st).
Proof.
  intros Hb. induction xs as [|x xs IH]; intros st; simpl.
  - apply failFast_ret.
  - apply failFast_bind; [apply Hb | intros st'; apply IH].
Qed.

(** ** The primitives *)

Section Primitives.

Variable P : Platform.
Variable C : Config.
Variable W : World.

Lemma always_fetch phi (r : request) :
  (forall a, phi (EFetch r a)) -> always phi (fetch W r).
Proof.
  intros Hr h. unfold fetch.
  destruct (net W h r); simpl; repeat constructor; apply Hr.
Qed.

(** [http] emits its plan line, or the one request it was asked for. *)
Lemma always_http phi method url token headers body expect okStatuses :
  phi (ELog LPlan [Sub method; Lit " "; Sub url]) ->
  (PLAN C && negb (allowInPlan method url) = false ->
   forall r a, req_method r = method -> req_url r = url -> phi (EFetch r a)) ->
  always phi (http P C W method url token headers body expect okStatuses).
Proof.
  intros Hlog Hreq. unfold http.
  destruct (PLAN C && negb (allowInPlan method url)) eqn:Eplan.
  - apply always_bind; [apply always_emit, Hlog | intros; apply always_ret].
  - apply always_bind.
    + apply always_fetch. intros a. now apply Hreq.
    + intros res.
      destruct (negb (existsb (Nat.eqb (res_status res)) okStatuses));
        [apply always_throw|].
      destruct expect; [|apply always_ret].
      destruct (String.eqb (res_text res) ""); [apply always_ret|].
      destruct (JSON_parse P (res_text res)); apply always_ret.
Qed.

Lemma quiet_http_get url token headers body expect okStatuses :
  always quiet (http P C W "GET" url token headers body expect okStatuses).
Proof.
  apply always_http; [exact I|].
  intros _ r a Hm _. simpl. unfold isGet. now rewrite Hm.
Qed.

(** In plan mode a request passes [http] only when [allowInPlan] holds. *)
Lemma planSafe_http API method url token headers body expect okStatuses :
  PLAN C = true ->
  (allowInPlan method url = true ->
   method = "GET" \/ (method = "POST" /\ url = API +:+ "/token")) ->
  always (planSafe API)
    (http P C W method url token headers body expect okStatuses).
Proof.
  intros HPLAN Hallowed. apply always_http; [exact I|].
  rewrite HPLAN. cbn [andb]. intros Hallow%negb_false_iff r a Hm Hu.
  simpl. rewrite Hm, Hu. auto.
Qed.


Lemma failFast_http method url token headers body expect okStatuses :
  accepted2xx okStatuses ->
  failFast (http P C W method url token headers body expect okStatuses).
Proof.
  intros Hacc h pre r a post. unfold http.
  destruct (PLAN C && negb (allowInPlan method url)).
  { simpl. intros Heq. destruct pre as [|? [|? ?]]; discriminate. }
  unfold bind, fetch.
  match goal with |- context [net W h ?q] => set (req := q) end.
  destruct (net W h req) as [res|] eqn:Enet; cbn [fst snd].
  - destruct (negb (existsb (Nat.eqb (res_status res)) okStatuses)) eqn:Est.
    + simpl. intros Heq _ Ha.
      destruct pre as [|? [|? ?]]; try discriminate.
      injection Heq as <- <- <-. split; reflexivity.
    + assert (Hok : res_ok res = true).
      { apply negb_false_iff, Hacc in Est. unfold res_ok.
        apply andb_true_iff. split; apply Nat.leb_le; lia. }
      assert (Hall : forall (o : outcome value) e2,
                 e2 = [] ->
                 ([EFetch req (Some res)] ++ e2 = pre ++ EFetch r a :: post ->
                  isGet r = false -> transportFailure a = true ->
                  post = [] /\ o = Throw (transportError r a))).
      { intros o e2 -> Heq _ Ha.
        destruct pre as [|? [|? ?]]; try discriminate.
        injection Heq as <- <- <-. simpl in Ha. rewrite Hok in Ha.
        discriminate. }
      destruct expect; [|apply Hall; reflexivity].
      destruct (String.eqb (res_text res) ""); [apply Hall; reflexivity|].
      destruct (JSON_parse P (res_text res)); apply Hall; reflexivity.
  - simpl. intros Heq _ _.
    destruct pre as [|? [|? ?]]; try discriminate.
    injection Heq as <- <- <-. split; reflexivity.
Qed.

Lemma quiet_exists url token : always quiet (exists_ W url token).
Proof.
  unfold exists_. apply always_try_catch; [|apply always_ret].
  apply always_bind; [|intros; apply always_ret].
  apply always_fetch. reflexivity.
Qed.

Lemma quiet_existsGet url token : always quiet (existsGet C W url token).
Proof.
  unfold existsGet. destruct (PLAN C); [apply always_ret|].
  apply always_bind; [|intros; apply always_ret].
  apply always_fetch. reflexivity.
Qed.

Lemma quiet_listHumanTemplates API token :
  always quiet (listHumanTemplates P W API token).
Proof.
  unfold listHumanTemplates. apply always_bind.
  - apply always_fetch. reflexivity.
  - intros res. destruct (negb (res_ok res)); [apply always_ret|].
    destruct (String.eqb (res_text res) ""); [apply always_ret|].
    destruct (JSON_parse P (res_text res)) as [[]|]; apply always_ret.
Qed.

Lemma quiet_log l msg : always quiet (emit (ELog l msg)).
Proof. apply always_emit. exact I. Qed.

Lemma quiet_existsSync p : always quiet (existsSync W p).
Proof.
  unfold existsSync. apply always_bind; [|intros; apply always_ret].
  apply always_emit. exact I.
Qed.

Lemma quiet_readdirSync p : always quiet (readdirSync W p).
Proof.
  unfold readdirSync. apply always_bind; [apply always_emit; exact I|].
  intros _. destruct (fs_readdirSync W p); [apply always_ret | apply always_throw].
Qed.

Lemma quiet_readText p : always quiet (readText W p).
Proof.
  unfold readText. apply always_bind; [apply always_emit; exact I|].
  intros _. destruct (fs_readFileSync W p); [apply always_ret | apply always_throw].
Qed.

Lemma quiet_readJson p : always quiet (readJson P W p).
Proof.
  unfold readJson. apply always_bind; [apply quiet_readText|].
  intros text. destruct (JSON_parse P text); [apply always_ret | apply always_throw].
Qed.

Lemma quiet_get v k : always quiet (get v k).
Proof. destruct v; first [apply always_ret | apply always_throw]. Qed.

Lemma quiet_mustEnv names : always quiet (mustEnv P W names).
Proof.
  unfold mustEnv. destruct (firstSetEnv P W names);
    [apply always_ret | apply always_throw].
Qed.

Lemma quiet_planSafe API e : quiet e -> planSafe API e.
Proof.
  destruct e as [r a| |]; simpl; auto.
  unfold isGet. intros H%String.eqb_eq. now left.
Qed.

End Primitives.

Create HintDb quiet.
#[local] Hint Resolve quiet_exists quiet_existsGet quiet_listHumanTemplates
  quiet_log quiet_existsSync quiet_readdirSync quiet_readText quiet_readJson
  quiet_get quiet_mustEnv quiet_http_get : quiet.

Lemma always_get phi v k : always phi (get v k).
Proof. destruct v; first [apply always_ret | apply always_throw]. Qed.

Lemma always_mustEnv phi P W names : always phi (mustEnv P W names).
Proof.
  unfold mustEnv. destruct (firstSetEnv P W names);
    [apply always_ret | apply always_throw].
Qed.

(** One step through a computation built from the combinators, for a goal
    [always phi m] or [failFast m]; [prim] closes the primitives. *)
Ltac walk prim :=
  repeat first
    [ progress cbn [PLAN negb andb orb]
    | match goal with
      | |- always _ (http _ _ _ _ _ _ _ _ _ _) => solve [prim]
      | |- failFast (http _ _ _ _ _ _ _ _ _ _) => solve [prim]
      end
    | apply always_ret | apply always_throw
    | apply always_get | apply always_mustEnv
    | apply always_emit; first [exact I | reflexivity]
    | apply always_fetch; intros ?; first [reflexivity | left; reflexivity]
    | apply failFast_quiet; apply always_emit; exact I
    | apply failFast_ret | apply failFast_throw
    | apply always_try_catch
    | apply always_for_of; intros ? ?
    | apply failFast_for_of; intros ? ?
    | apply always_bind; [|intros ?]
    | apply failFast_bind; [|intros ?]
    | match goal with
      | |- always _ (if ?b then _ else _) => destruct b
      | |- failFast (if ?b then _ else _) => destruct b
      | |- always _ (match ?x with _ => _ end) => destruct x
      | |- failFast (match ?x with _ => _ end) => destruct x
      end
    | solve [prim]
    | progress unfold ensureModel, ensureForm, ensurePrompt, ensureWorkflow,
        formsSummary, promptsSummary, workflowsSummary, workflowFiles,
        registerTaskDefs, existsGet ].

(** The plan-mode test of [http] at a call site. *)
Ltac plan_guard :=
  intros Hallow;
  first
    [ left; reflexivity
    | right; split; reflexivity
    | exfalso; revert Hallow; unfold allowInPlan; cbn [String.eqb Ascii.eqb Bool.eqb andb orb];
      first [ rewrite UrlFacts.tokenUrl_prompt
            | rewrite UrlFacts.tokenUrl_append by (simpl; lia); vm_compute ];
      discriminate ].

Ltac plan_prim HPLAN :=
  first
    [ eapply always_weaken; [apply quiet_planSafe | solve [eauto with quiet]]
    | apply planSafe_http; [exact HPLAN | plan_guard] ].

Lemma main_planSafe (P : Platform) (C : Config) (W : World) :
  PLAN C = true ->
  always (planSafe (normalizeBaseApiUrl (env W))) (main P C W).
Proof.
  intros HPLAN. destruct C as [pl no wd pd fd]. simpl in HPLAN. subst pl.
  unfold main. walk ltac:(plan_prim (eq_refl true)).
Qed.

Lemma accepted2xx_script (okStatuses : list nat) :
  okStatuses = [200] \/ okStatuses = [200; 204] \/ okStatuses = [200; 201; 204] ->
  accepted2xx okStatuses.
Proof.
  intros [-> | [-> | ->]] s; simpl; rewrite ?orb_false_r; intros H;
    repeat (apply orb_true_iff in H as [H|H]); apply Nat.eqb_eq in H; lia.
Qed.

Ltac quiet_prim := solve [eauto with quiet].

Ltac ff_prim :=
  first
    [ apply failFast_http; apply accepted2xx_script; auto
    | apply failFast_quiet; solve [walk quiet_prim] ].

(** The whole of [main] stops at the first failed write. *)
Lemma main_failFast (P : Platform) (C : Config) (W : World) :
  failFast (main P C W).
Proof. unfold main. walk ff_prim. Qed.

(** ** Running on a static server *)

Lemma posts_app (a b : list event) : posts (a ++ b) = posts a ++ posts b.
Proof. apply omap_app. Qed.

Lemma lines_app l p (a b : list event) : lines l p (a ++ b) = lines l p a ++ lines l p b.
Proof. apply omap_app. Qed.

Lemma createdLines_app plan kind (a b : list event) :
  createdLines plan kind (a ++ b) =
  createdLines plan kind a ++ createdLines plan kind b.
Proof. unfold createdLines. destruct plan; apply lines_app. Qed.

Lemma always_noLine {A} l p (m : M A) h :
  always (noLine l p) m -> lines l p (snd (m h)) = [].
Proof.
  intros Hm. specialize (Hm h). induction Hm as [|e evs He _ IH]; [reflexivity|].
  change (e :: evs) with ([e] ++ evs). now rewrite lines_app, He, IH.
Qed.

(** Closes [always (noLine l p) m] for a computation that prints no such
    line. *)
Ltac no_line :=
  walk ltac:(apply always_http; [reflexivity | intros; reflexivity]).

Lemma always_noCount {A} (m : M A) h :
  always noCount m -> countsReported (snd (m h)) = [].
Proof.
  intros Hm. specialize (Hm h). induction Hm as [|e evs He _ IH]; [reflexivity|].
  change (e :: evs) with ([e] ++ evs). unfold noCount, countsReported in *.
  now rewrite flat_map_app, He, IH.
Qed.

(** In plan mode the OpenAI pass prints no number. *)
Lemma openaiSection_plan_noCount P C W API UI token :
  PLAN C = true -> always noCount (openaiSection P C W API UI token).
Proof.
  intros HPLAN. destruct C as [pl no wd pd fd]. simpl in HPLAN. subst pl.
  unfold openaiSection. no_line.
  apply always_emit. unfold noCount, countsReported. cbn [flat_map omap].
  rewrite app_nil_r.
  induction (openaiModels P W) as [|m ms IH]; [reflexivity | exact IH].
Qed.

Lemma fetches_app (a b : list event) : fetches (a ++ b) = fetches a ++ fetches b.
Proof. apply omap_app. Qed.

Lemma always_silent {A} (m : M A) h :
  always silent m -> fetches (snd (m h)) = [].
Proof.
  intros Hm. specialize (Hm h). induction Hm as [|e evs He _ IH]; [reflexivity|].
  change (e :: evs) with ([e] ++ evs). unfold silent in He.
  now rewrite fetches_app, He, IH.
Qed.

(** In plan mode the OpenAI pass sends no request: the existence checks
    answer [false] without asking, and no creation is attempted. *)
Lemma openaiSection_plan_silent P C W API UI token :
  PLAN C = true -> always silent (openaiSection P C W API UI token).
Proof.
  intros HPLAN. destruct C as [pl no wd pd fd]. simpl in HPLAN. subst pl.
  unfold openaiSection. walk fail.
Qed.

(** What returns from a [bind] went through both halves. *)
Lemma bind_ret_inv {A B} (m : M A) (k : A -> M B) h b evs :
  bind m k h = (Ret b, evs) ->
  exists a e1 e2,
    m h = (Ret a, e1) /\ k a (h ++ e1) = (Ret b, e2) /\ evs = e1 ++ e2.
Proof.
  unfold bind. destruct (m h) as [[a|e] e1]; [|discriminate].
  destruct (k a (h ++ e1)) as [o e2] eqn:Ek. intros [= -> <-].
  exists a, e1, e2. auto.
Qed.

Section Static.

Variable P : Platform.
Variable C : Config.
Variable W : World.
Hypothesis Hstatic : static W.

Lemma fetch_static r h :
  fetch W r h =
  (match net W [] r with
   | Some res => Ret res
   | None => Throw (ErrFetch (req_url r))
   end, [EFetch r (net W [] r)]).
Proof. unfold fetch. rewrite Hstatic. now destruct (net W [] r). Qed.

Lemma exists_static url token h :
  exists_ W url token h =
  (Ret (remoteOk W url token),
   [EFetch (Request "GET" url (authHeaders token) None) (probe W url token)]).
Proof.
  unfold exists_, try_catch, bind. rewrite fetch_static.
  unfold remoteOk, probe.
  now destruct (net W [] (Request "GET" url (authHeaders token) None)).
Qed.

(** The events of [http]: the plan line when plan mode suppresses the request, the one
    request otherwise. *)
Lemma http_events method url token headers body expect okStatuses h :
  snd (http P C W method url token headers body expect okStatuses h) =
  if PLAN C && negb (allowInPlan method url)
  then [ELog LPlan [Sub method; Lit " "; Sub url]]
  else
    let r := Request method url (requestHeaders token headers body) body in
    [EFetch r (net W [] r)].
Proof.
  unfold http. destruct (PLAN C && negb (allowInPlan method url)); [reflexivity|].
  unfold bind. rewrite fetch_static. cbn zeta.
  destruct (net W [] _) as [res|]; [|reflexivity].
  destruct (negb _); [reflexivity|].
  destruct expect; [|reflexivity].
  destruct (String.eqb _ _); [reflexivity|].
  now destruct (JSON_parse P _).
Qed.

(** *** Task definitions *)
Variable API : string.
Variable token : value.

Lemma closed_taskdefs : allowInPlan "POST" (API +:+ "/metadata/taskdefs") = false.
Proof.
  unfold allowInPlan. rewrite UrlFacts.tokenUrl_append by (simpl; lia).
  reflexivity.
Qed.

Lemma checkTaskDef_static userInfo name acc h :
  checkTaskDef W API token userInfo name acc h =
  (Ret (if taskDefExists W API token name then acc
        else acc ++ [taskDefRecord name userInfo]),
   checkEvents W API token name).
Proof.
  unfold checkTaskDef, bind. rewrite exists_static.
  unfold checkEvents, taskDefExists, taskDefUrl.
  now destruct (remoteOk W _ token).
Qed.

Lemma checkLoop_static userInfo tasks acc h :
  for_of tasks (checkTaskDef W API token userInfo) acc h =
  (Ret (acc ++ map (fun n => taskDefRecord n userInfo)
                   (missingTasks W API token tasks)),
   flat_map (checkEvents W API token) tasks).
Proof.
  revert acc h. induction tasks as [|n tasks IH]; intros acc h.
  - simpl. now rewrite app_nil_r.
  - cbn [for_of]. unfold bind at 1. rewrite checkTaskDef_static, IH.
    cbn [flat_map missingTasks List.filter]. fold (missingTasks W API token tasks).
    destruct (taskDefExists W API token n); cbn [negb map]; [reflexivity|].
    now rewrite <- app_assoc.
Qed.

Lemma bulletLoop tasks h :
  for_of tasks (fun t (_ : unit) => bullet [Sub t]) tt h =
  (Ret tt, taskBullets tasks).
Proof.
  revert h. induction tasks as [|n tasks IH]; intros h; [reflexivity|].
  cbn [for_of]. unfold bind at 1. cbn [bullet emit]. now rewrite IH.
Qed.

Lemma posts_taskBullets tasks : posts (taskBullets tasks) = [].
Proof. induction tasks; [reflexivity | exact IHtasks]. Qed.

Lemma lines_taskBullets l p tasks : lines l p (taskBullets tasks) = [].
Proof. induction tasks; [reflexivity | exact IHtasks]. Qed.

Lemma posts_checks tasks : posts (flat_map (checkEvents W API token) tasks) = [].
Proof.
  induction tasks as [|n tasks IH]; [reflexivity|].
  cbn [flat_map]. rewrite posts_app, IH. unfold checkEvents.
  now destruct (taskDefExists W API token n).
Qed.

Lemma exists_checks tasks :
  lines LOk "TaskDef exists: " (flat_map (checkEvents W API token) tasks) =
  map (fun n => [Sub n]) (existingTasks W API token tasks).
Proof.
  induction tasks as [|n tasks IH]; [reflexivity|].
  cbn [flat_map existingTasks List.filter]. rewrite lines_app, IH.
  unfold checkEvents. now destruct (taskDefExists W API token n).
Qed.

Lemma missing_checks tasks :
  lines LWarn "TaskDef missing: " (flat_map (checkEvents W API token) tasks) =
  map (fun n => [Sub n]) (missingTasks W API token tasks).
Proof.
  induction tasks as [|n tasks IH]; [reflexivity|].
  cbn [flat_map missingTasks List.filter]. rewrite lines_app, IH.
  unfold checkEvents. now destruct (taskDefExists W API token n).
Qed.

Lemma other_checks l p tasks :
  (level_eqb LOk l && String.eqb "TaskDef exists: " p = false) ->
  (level_eqb LWarn l && String.eqb "TaskDef missing: " p = false) ->
  lines l p (flat_map (checkEvents W API token) tasks) = [].
Proof.
  intros H1 H2. induction tasks as [|n tasks IH]; [reflexivity|].
  cbn [flat_map]. rewrite lines_app, IH. unfold checkEvents, lines.
  destruct (taskDefExists W API token n); cbn [omap list_omap];
    [now rewrite H1 | now rewrite H2].
Qed.

(** The task definition pass, step by step: the prefix is always emitted,
    then [registerTaskDefs] runs on the missing ones. *)
Lemma taskDefsSection_eq UI userInfo tasks h :
  exists h',
    taskDefsSection P C W tasks API UI token userInfo h =
    let pre := ELog LSection [Lit "Worker Task Definitions"] ::
               taskBullets tasks ++ flat_map (checkEvents W API token) tasks in
    let reg := registerTaskDefs P C W API token
                 (map (fun n => taskDefRecord n userInfo)
                      (missingTasks W API token tasks)) h' in
    match fst reg with
    | Ret _ => (Ret tt, pre ++ snd reg ++ [ELog LBullet [Lit "UI: "; Sub UI; Lit "/taskDef"]])
    | Throw e => (Throw e, pre ++ snd reg)
    end.
Proof.
  exists (((h ++ [ELog LSection [Lit "Worker Task Definitions"]]) ++
           taskBullets tasks) ++ flat_map (checkEvents W API token) tasks).
  unfold taskDefsSection.
  unfold bind at 1. cbn [section emit].
  unfold bind at 1. rewrite bulletLoop.
  unfold bind at 1. rewrite checkLoop_static.
  unfold bind at 1. cbn [app].
  destruct (registerTaskDefs P C W API token _ _) as [[[]|err] e1] eqn:Er;
    cbn [fst snd bullet emit].
  - now rewrite <- !app_assoc.
  - now rewrite <- !app_assoc.
Qed.


Lemma http_closed method url tok headers body okStatuses h :
  PLAN C = true -> allowInPlan method url = false ->
  http P C W method url tok headers body ExpectText okStatuses h =
  (Ret (VStr ""), [ELog LPlan [Sub method; Lit " "; Sub url]]).
Proof. intros HP Hclosed. unfold http. now rewrite HP, Hclosed. Qed.

Lemma registerTaskDefs_obs recs h :
  let r := registerTaskDefs P C W API token recs h in
  posts (snd r) =
    (if PLAN C then []
     else match recs with
          | [] => []
          | _ => [writeRequest token (API +:+ "/metadata/taskdefs")
                    (BodyJson (VArr recs))]
          end) /\
  (PLAN C = true ->
   fst r = Ret tt /\
   lines LPlan "Would register " (snd r) =
     match recs with
     | [] => []
     | _ => [[Cnt (length recs); Lit " missing task definition(s)."]]
     end) /\
  (PLAN C = false -> fst r = Ret tt ->
   lines LOk "Registered " (snd r) =
     match recs with
     | [] => []
     | _ => [[Cnt (length recs); Lit " missing task definition(s)."]]
     end).
Proof.
  unfold registerTaskDefs. destruct recs as [|rec recs]; cbn [length Nat.eqb].
  - cbn. destruct (PLAN C); repeat split; reflexivity.
  - destruct (PLAN C) eqn:HP.
    + unfold bind. rewrite http_closed by (exact HP || apply closed_taskdefs).
      cbn. repeat split; discriminate || reflexivity.
    + unfold bind.
      destruct (http P C W "POST" _ token _ _ ExpectText _ h) as [o eh] eqn:Eh.
      pose proof (http_events "POST" (API +:+ "/metadata/taskdefs") token
                    jsonHeaders (Some (BodyJson (VArr (rec :: recs))))
                    ExpectText [200; 204] h) as Hev.
      unfold jsonHeaders in Hev. rewrite Eh, HP in Hev. cbn in Hev. subst eh.
      destruct o as [v|err]; cbn; repeat split; try discriminate; reflexivity.
Qed.

(** What the task definition pass requests and prints. *)
Lemma taskDefsSection_obs UI userInfo tasks h :
  let r := taskDefsSection P C W tasks API UI token userInfo h in
  let missing := missingTasks W API token tasks in
  posts (snd r) =
    (if PLAN C then []
     else match missing with
          | [] => []
          | _ => [registerRequest API token userInfo missing]
          end) /\
  lines LOk "TaskDef exists: " (snd r) =
    map (fun n => [Sub n]) (existingTasks W API token tasks) /\
  lines LWarn "TaskDef missing: " (snd r) = map (fun n => [Sub n]) missing /\
  (PLAN C = true ->
   fst r = Ret tt /\
   lines LPlan "Would register " (snd r) =
     match missing with
     | [] => []
     | _ => [[Cnt (length missing); Lit " missing task definition(s)."]]
     end) /\
  (PLAN C = false -> fst r = Ret tt ->
   lines LOk "Registered " (snd r) =
     match missing with
     | [] => []
     | _ => [[Cnt (length missing); Lit " missing task definition(s)."]]
     end).
Proof.
  cbv zeta. destruct (taskDefsSection_eq UI userInfo tasks h) as [h' ->].
  cbv zeta.
  set (recs := map (fun n => taskDefRecord n userInfo)
                   (missingTasks W API token tasks)).
  pose proof (registerTaskDefs_obs recs h') as (Hp & Hplan & Happly).
  assert (Hex : lines LOk "TaskDef exists: "
                  (snd (registerTaskDefs P C W API token recs h')) = []).
  { apply always_noLine. no_line. }
  assert (Hmi : lines LWarn "TaskDef missing: "
                  (snd (registerTaskDefs P C W API token recs h')) = []).
  { apply always_noLine. no_line. }
  assert (Hrecs : forall A (a b : A),
             match recs with [] => a | _ => b end =
             match missingTasks W API token tasks with [] => a | _ => b end).
  { intros. subst recs. now destruct (missingTasks W API token tasks). }
  assert (Hlen : length recs = length (missingTasks W API token tasks)).
  { subst recs. apply length_map. }
  rewrite Hrecs in Hp, Hplan, Happly. rewrite Hlen in Hplan, Happly.
  destruct (fst (registerTaskDefs P C W API token recs h')) as [[]|err] eqn:Ef;
    cbn [fst snd];
    change (ELog LSection [Lit "Worker Task Definitions"] :: ?l)
      with ([ELog LSection [Lit "Worker Task Definitions"]] ++ l);
    rewrite ?posts_app, ?lines_app, ?posts_taskBullets, ?lines_taskBullets,
      ?posts_checks, ?exists_checks, ?missing_checks, ?Hp, ?Hex, ?Hmi,
      ?(other_checks LPlan "Would register "),
      ?(other_checks LOk "Registered ") by reflexivity;
    cbn [app]; rewrite ?app_nil_r.
  - split; [reflexivity|]. split; [reflexivity|]. split; [reflexivity|]. split.
    + intros HP. destruct (Hplan HP) as [_ ->]. split; reflexivity.
    + intros HP _. rewrite (Happly HP eq_refl). reflexivity.
  - split; [reflexivity|]. split; [reflexivity|]. split; [reflexivity|]. split.
    + intros HP. destruct (Hplan HP) as [? _]. discriminate.
    + intros _ ?. discriminate.
Qed.

End Static.

(** ** The loops and the passes on a static server *)

(** Takes apart a hypothesis that says a computation returned. *)
Ltac returned :=
  cbv [header section bullet ok info warn plan console_log] in *;
  repeat match goal with
    | H : bind _ _ _ = (Ret _, _) |- _ =>
        apply bind_ret_inv in H as (? & ? & ? & ? & H & ->)
    | H : emit _ _ = (Ret _, _) |- _ => unfold emit in H; simplify_eq
    | H : ret _ _ = (Ret _, _) |- _ => unfold ret in H; simplify_eq
    | H : throw _ _ = (Ret _, _) |- _ => discriminate H
    | H : (_, _) = (_, _) |- _ => simplify_eq
    end.

Section Items.

Variable P : Platform.
Variable C : Config.
Variable W : World.
Hypothesis Hstatic : static W.
Variable API UI : string.
Variable token : value.

Lemma readJson_ret path h doc e :
  readJson P W path h = (Ret doc, e) ->
  readDoc P W path = Some doc /\ e = [EFs (FsReadFile path)].
Proof.
  unfold readJson, readText, readDoc, bind, emit.
  destruct (fs_readFileSync W path) as [text|]; cbn; [|discriminate].
  destruct (JSON_parse P text); cbn; [|discriminate].
  intros [= <- <-]. auto.
Qed.

Lemma get_ret v k h x e :
  get v k h = (Ret x, e) ->
  v <> VUndefined /\ v <> VNull /\ x = Js.optGet v k /\ e = [].
Proof.
  destruct v; cbn [get]; intros H; try discriminate H; returned;
    repeat split; congruence.
Qed.

Lemma http_ret method url tok headers body expect okStatuses h v e :
  http P C W method url tok headers body expect okStatuses h = (Ret v, e) ->
  e = if PLAN C && negb (allowInPlan method url)
      then [ELog LPlan [Sub method; Lit " "; Sub url]]
      else
        let r := Request method url (requestHeaders tok headers body) body in
        [EFetch r (net W [] r)].
Proof.
  intros H. rewrite <- (http_events P C W Hstatic method url tok headers body
                          expect okStatuses h).
  now rewrite H.
Qed.

Lemma closed_workflow :
  allowInPlan "POST"
    (API +:+ "/metadata/workflow?overwrite=false&newVersion=false") = false.
Proof.
  unfold allowInPlan. rewrite UrlFacts.tokenUrl_append by (simpl; lia).
  reflexivity.
Qed.

Lemma closed_form :
  allowInPlan "POST" (API +:+ "/human/template?newVersion=false") = false.
Proof.
  unfold allowInPlan. rewrite UrlFacts.tokenUrl_append by (simpl; lia).
  reflexivity.
Qed.

Lemma judge_doc known d :
  d <> VUndefined -> d <> VNull ->
  judge known (Some d) =
  if Js.truthy (Js.optGet d "name")
  then if known (Js.optGet d "name")
       then Existing (Js.optGet d "name")
       else Missing (Js.optGet d "name") d
  else Nameless.
Proof. intros. destruct d; try congruence; reflexivity. Qed.

Lemma existsSync_ret p h b e :
  existsSync W p h = (Ret b, e) -> b = fs_existsSync W p /\ e = [EFs (FsExists p)].
Proof. unfold existsSync. intros H. returned. auto. Qed.

Lemma readText_ret p h text e :
  readText W p h = (Ret text, e) ->
  fs_readFileSync W p = Some text /\ e = [EFs (FsReadFile p)].
Proof.
  unfold readText, bind, emit.
  destruct (fs_readFileSync W p); cbn; [|discriminate].
  intros [= <- <-]. auto.
Qed.

(** Takes apart what is known to have returned, primitives included. *)
Ltac unroll :=
  repeat first
    [ progress returned
    | match goal with
      | H : readJson _ _ _ _ = (Ret _, _) |- _ =>
          apply readJson_ret in H as [? ->]
      | H : readText _ _ _ = (Ret _, _) |- _ =>
          apply readText_ret in H as [? ->]
      | H : existsSync _ _ _ = (Ret _, _) |- _ =>
          apply existsSync_ret in H as [-> ->]
      | H : get _ _ _ = (Ret _, _) |- _ =>
          apply get_ret in H as (? & ? & -> & ->)
      | H : exists_ _ _ _ _ = _ |- _ =>
          rewrite exists_static in H by assumption
      | H : http _ _ _ _ _ _ _ _ _ _ _ = (Ret _, _) |- _ =>
          apply http_ret in H as ->
      | H : (if negb (PLAN C) then _ else _) _ = (Ret _, _) |- _ =>
          destruct (PLAN C) eqn:?; cbn [negb] in H
      end ].

(** Closes the cases of an iteration once its events are explicit. *)
Ltac leaf :=
  rewrite ?closed_workflow, ?closed_form;
  try destruct (PLAN C); try discriminate;
  cbn; repeat split; try reflexivity; f_equal; lia.

(** *** Workflows *)
Lemma ensureWorkflow_ret f c s h st' e :
  ensureWorkflow P C W API UI token f (c, s) h = (Ret st', e) ->
  let v := workflowVerdict P C W API token f in
  st' = (c + one (missingOf v), s + one (existingOf v)) /\
  posts e =
    (if PLAN C then []
     else option_list
            ((fun nd => workflowRequest API token (snd nd)) <$> missingOf v)) /\
  lines LOk "Workflow exists: " e =
    option_list ((fun n => [Val n; Lit " (skipping)"]) <$> existingOf v) /\
  createdLines (PLAN C) "workflow" e =
    option_list ((fun nd => [Val (fst nd)]) <$> missingOf v) /\
  lines LWarn "Skipping workflow (missing name): " e =
    (if isNameless v then [[Sub f]] else []).
Proof.
  unfold ensureWorkflow. intros H. unroll.
  unfold workflowVerdict, workflowPath.
  match goal with Hd : readDoc _ _ _ = Some _ |- _ => rewrite Hd end.
  rewrite judge_doc by assumption.
  destruct (Js.truthy (Js.optGet x "name")) eqn:Hname; cbn [negb] in H.
  - unroll. fold (workflowGetUrl P API (Js.optGet x "name")) in *.
    destruct (remoteOk W _ token) eqn:Hex; unroll; leaf.
  - unroll. leaf.
Qed.

(** The step of the induction over a loop: the first iteration and the
    rest both returned. *)
Ltac loop_step item IH :=
  match goal with
  | H : bind _ _ _ = (Ret _, _) |- _ =>
      apply bind_ret_inv in H as ([c1 s1] & e1 & e2 & Hb & Hl & ->);
      apply item in Hb; cbv zeta in Hb;
      destruct Hb as (Hst & Hb); injection Hst as -> ->;
      apply IH in Hl;
      rewrite ?posts_app, ?lines_app, ?createdLines_app
  end.

Lemma workflowLoop_ret files c s h c' s' evs :
  for_of files (ensureWorkflow P C W API UI token) (c, s) h =
    (Ret (c', s'), evs) ->
  c' = c + length (missingWorkflows P C W API token files) /\
  s' = s + length (existingWorkflows P C W API token files) /\
  posts evs =
    (if PLAN C then []
     else map (fun nd => workflowRequest API token (snd nd))
              (missingWorkflows P C W API token files)) /\
  lines LOk "Workflow exists: " evs =
    map (fun n => [Val n; Lit " (skipping)"])
        (existingWorkflows P C W API token files) /\
  createdLines (PLAN C) "workflow" evs =
    map (fun nd => [Val (fst nd)]) (missingWorkflows P C W API token files) /\
  lines LWarn "Skipping workflow (missing name): " evs =
    map (fun f => [Sub f]) (namelessWorkflows P C W API token files).
Proof.
  revert c s h evs. induction files as [|f files IH]; intros c s h evs H.
  - cbn [for_of] in H. returned.
    unfold createdLines. destruct (PLAN C); cbn; repeat split; try reflexivity; lia.
  - cbn [for_of] in H. loop_step ensureWorkflow_ret IH.
    destruct Hb as (-> & -> & -> & ->).
    destruct Hl as (-> & -> & -> & -> & -> & ->).
    unfold missingWorkflows, existingWorkflows, namelessWorkflows.
    cbn [omap list_omap List.filter].
    destruct (workflowVerdict P C W API token f), (PLAN C);
      cbn; repeat split; try reflexivity; lia.
Qed.

(** *** Forms *)
Lemma ensureForm_ret existingNames f c s h st' e :
  ensureForm P C W API token existingNames f (c, s) h = (Ret st', e) ->
  let v := formVerdict P C W existingNames f in
  st' = (c + one (missingOf v), s + one (existingOf v)) /\
  posts e =
    (if PLAN C then []
     else option_list
            ((fun nd => formRequest API token (snd nd)) <$> missingOf v)) /\
  lines LOk "Form template exists: " e =
    option_list ((fun n => [Val n]) <$> existingOf v) /\
  createdLines (PLAN C) "form template" e =
    option_list ((fun nd => [Val (fst nd)]) <$> missingOf v) /\
  lines LWarn "Skipping form (missing name): " e =
    (if isNameless v then [[Sub f]] else []).
Proof.
  unfold ensureForm. intros H. unroll.
  unfold formVerdict.
  match goal with Hd : readDoc _ _ _ = Some _ |- _ => rewrite Hd end.
  rewrite judge_doc by assumption.
  destruct (Js.truthy (Js.optGet x "name")) eqn:Hname; cbn [negb] in H.
  - unroll. destruct (setHas existingNames _) eqn:Hex; unroll; leaf.
  - unroll. leaf.
Qed.

Lemma formLoop_ret existingNames files c s h c' s' evs :
  for_of files (ensureForm P C W API token existingNames) (c, s) h =
    (Ret (c', s'), evs) ->
  c' = c + length (missingForms P C W existingNames files) /\
  s' = s + length (existingForms P C W existingNames files) /\
  posts evs =
    (if PLAN C then []
     else map (fun nd => formRequest API token (snd nd))
              (missingForms P C W existingNames files)) /\
  lines LOk "Form template exists: " evs =
    map (fun n => [Val n]) (existingForms P C W existingNames files) /\
  createdLines (PLAN C) "form template" evs =
    map (fun nd => [Val (fst nd)]) (missingForms P C W existingNames files) /\
  lines LWarn "Skipping form (missing name): " evs =
    map (fun f => [Sub f]) (namelessForms P C W existingNames files).
Proof.
  revert c s h evs. induction files as [|f files IH]; intros c s h evs H.
  - cbn [for_of] in H. returned.
    unfold createdLines. destruct (PLAN C); cbn; repeat split; try reflexivity; lia.
  - cbn [for_of] in H. loop_step ensureForm_ret IH.
    destruct Hb as (-> & -> & -> & ->).
    destruct Hl as (-> & -> & -> & -> & -> & ->).
    unfold missingForms, existingForms, namelessForms.
    cbn [omap list_omap List.filter].
    destruct (formVerdict P C W existingNames f), (PLAN C);
      cbn; repeat split; try reflexivity; lia.
Qed.

(** *** Prompts *)
Lemma closed_prompt association p :
  allowInPlan "POST" (promptPostUrl API association p) = false.
Proof.
  unfold allowInPlan, promptPostUrl. now rewrite UrlFacts.tokenUrl_prompt.
Qed.

Lemma ensurePrompt_ret association p c s h st' e :
  ensurePrompt P C W API UI token (Str.encodeURIComponent association) p (c, s) h
    = (Ret st', e) ->
  st' = (c + one (promptMissing P C W API token p),
         s + (if promptExists P C W API token p then 1 else 0)) /\
  posts e =
    (if PLAN C then []
     else option_list
            (promptRequest API token association p <$>
             promptMissing P C W API token p)) /\
  lines LOk "Prompt exists: " e =
    (if promptExists P C W API token p then [[Sub (fst p)]] else []) /\
  createdLines (PLAN C) "prompt" e =
    option_list ((fun _ => [Sub (fst p)]) <$> promptMissing P C W API token p) /\
  lines LWarn "Prompt file not found: " e =
    (if promptHasFile P C W p then [] else [[Sub (promptPath P C p)]]).
Proof.
  unfold ensurePrompt. destruct p as [p_name p_file]. intros H. unroll.
  unfold promptMissing, promptExists, promptHasFile, promptPath. cbn [fst snd].
  destruct (fs_existsSync W _) eqn:Hfile; cbn [negb] in H.
  - unroll. fold (promptGetUrl API (p_name, p_file)) in *.
    destruct (remoteOk W _ token) eqn:Hex.
    + unroll. leaf.
    + pose proof (closed_prompt association (p_name, p_file)) as G.
      unfold promptPostUrl in G. cbn [fst snd] in G.
      unroll;
        match goal with
        | Ht : fs_readFileSync W _ = Some _ |- _ => rewrite Ht
        end;
        rewrite ?G; leaf.
  - unroll. leaf.
Qed.

Lemma promptLoop_ret association prompts c s h c' s' evs :
  for_of prompts
    (ensurePrompt P C W API UI token (Str.encodeURIComponent association))
    (c, s) h = (Ret (c', s'), evs) ->
  c' = c + length (missingPrompts P C W API token prompts) /\
  s' = s + length (existingPrompts P C W API token prompts) /\
  posts evs =
    (if PLAN C then []
     else map (fun pt => promptRequest API token association (fst pt) (snd pt))
              (missingPrompts P C W API token prompts)) /\
  lines LOk "Prompt exists: " evs =
    map (fun p => [Sub (fst p)]) (existingPrompts P C W API token prompts) /\
  createdLines (PLAN C) "prompt" evs =
    map (fun pt => [Sub (fst (fst pt))])
        (missingPrompts P C W API token prompts) /\
  lines LWarn "Prompt file not found: " evs =
    map (fun p => [Sub (promptPath P C p)]) (filelessPrompts P C W prompts).
Proof.
  revert c s h evs. induction prompts as [|p prompts IH]; intros c s h evs H.
  - cbn [for_of] in H. returned.
    unfold createdLines. destruct (PLAN C); cbn; repeat split; try reflexivity; lia.
  - cbn [for_of] in H. loop_step ensurePrompt_ret IH.
    destruct Hb as (-> & -> & -> & ->).
    destruct Hl as (-> & -> & -> & -> & -> & ->).
    unfold missingPrompts, existingPrompts, filelessPrompts.
    cbn [omap list_omap List.filter].
    destruct (promptMissing P C W API token p),
      (promptExists P C W API token p), (promptHasFile P C W p), (PLAN C);
      cbn; repeat split; try reflexivity; lia.
Qed.

(** *** The OpenAI integration and its models *)
Lemma existsGet_ret url h b e :
  existsGet C W url token h = (Ret b, e) ->
  if PLAN C then b = false /\ e = []
  else b = remoteOk W url token /\
       e = [EFetch (Request "GET" url (authHeaders token) None)
              (probe W url token)].
Proof.
  unfold existsGet. destruct (PLAN C); intros H; returned; [auto|].
  rewrite fetch_static in H0 by assumption.
  unfold remoteOk, probe.
  destruct (net W [] _); [|discriminate]. returned. auto.
Qed.

Lemma ensureIntegration_ret name key h e :
  ensureIntegration P C W API token name key h = (Ret tt, e) ->
  posts e =
    (if PLAN C || remoteOk W (integrationUrl API name) token then []
     else [integrationRequest API token name key]) /\
  lines LOk "OpenAI integration already exists: " e =
    (if negb (PLAN C) && remoteOk W (integrationUrl API name) token
     then [[Sub name]] else []) /\
  lines LOk "Created OpenAI integration: " e =
    (if PLAN C || remoteOk W (integrationUrl API name) token then []
     else [[Sub name]]) /\
  lines LPlan "Would create OpenAI integration " e =
    (if PLAN C then [[Sub name]] else []).
Proof.
  unfold ensureIntegration. intros H. returned.
  match goal with
  | Hx : existsGet _ _ _ _ _ = _ |- _ => apply existsGet_ret in Hx
  end.
  fold (integrationUrl API name) in *.
  destruct (PLAN C) eqn:HP.
  - destruct H0 as [-> ->]. cbn [negb] in H. returned.
    cbn. repeat split; reflexivity.
  - destruct H0 as [-> ->].
    destruct (remoteOk W _ token) eqn:Hex; cbn [negb] in H.
    + returned. cbn. repeat split; reflexivity.
    + returned. apply http_ret in H0 as ->. rewrite HP. cbn.
      repeat split; reflexivity.
Qed.

Lemma ensureModel_ret name m a k h st' e :
  ensureModel P C W API token name m (a, k) h = (Ret st', e) ->
  posts e =
    (if PLAN C || modelExists W API token name m then []
     else [modelRequest API token name m]) /\
  lines LPlan "Would enable model " e = (if PLAN C then [[Sub m]] else []) /\
  st' = if PLAN C then (a, k)
        else if modelExists W API token name m then (a, S k) else (S a, k).
Proof.
  unfold ensureModel. intros H. returned.
  match goal with
  | Hx : existsGet _ _ _ _ _ = _ |- _ => apply existsGet_ret in Hx
  end.
  fold (modelUrl API name m) in *. unfold modelExists.
  destruct (PLAN C) eqn:HP.
  - destruct H0 as [-> ->]. cbn [negb] in H. returned.
    cbn. repeat split; reflexivity.
  - destruct H0 as [-> ->].
    destruct (remoteOk W _ token) eqn:Hex; cbn [negb] in H.
    + returned. cbn. repeat split; reflexivity.
    + returned. apply http_ret in H0 as ->. rewrite HP. cbn.
      repeat split; reflexivity.
Qed.

Lemma modelLoop_ret name models a k h a' k' evs :
  for_of models (ensureModel P C W API token name) (a, k) h =
    (Ret (a', k'), evs) ->
  posts evs =
    (if PLAN C then []
     else map (modelRequest API token name)
              (missingModels W API token name models)) /\
  lines LPlan "Would enable model " evs =
    (if PLAN C then map (fun m => [Sub m]) models else []) /\
  (a', k') =
    if PLAN C then (a, k)
    else (a + length (missingModels W API token name models),
          k + length (existingModels W API token name models)).
Proof.
  revert a k h evs. induction models as [|m models IH]; intros a k h evs H.
  - cbn [for_of] in H. returned.
    destruct (PLAN C); cbn; repeat split; try reflexivity; f_equal; lia.
  - cbn [for_of] in H.
    apply bind_ret_inv in H as ([a1 k1] & e1 & e2 & Hb & Hl & ->).
    apply ensureModel_ret in Hb as (Hp & Hw & Hst). apply IH in Hl.
    destruct Hl as (Hp2 & Hw2 & Hst2).
    rewrite posts_app, lines_app, Hp, Hw, Hp2, Hw2, Hst2.
    unfold missingModels, existingModels. cbn [List.filter].
    destruct (PLAN C); cbn [orb].
    + injection Hst as -> ->. repeat split; reflexivity.
    + destruct (modelExists W API token name m); injection Hst as -> ->;
        cbn; repeat split; try reflexivity; f_equal; lia.
Qed.


(** *** The passes *)

Lemma noLine_ret {A} l p (m : M A) h o e :
  m h = (o, e) -> always (noLine l p) m -> lines l p e = [].
Proof. intros E Hm. pose proof (always_noLine l p m h Hm) as Hn. now rewrite E in Hn. Qed.

Lemma readdirSync_ret p h entries e :
  readdirSync W p h = (Ret entries, e) ->
  fs_readdirSync W p = Some entries /\ e = [EFs (FsReaddir p)].
Proof.
  unfold readdirSync, bind, emit.
  destruct (fs_readdirSync W p); cbn; [|discriminate].
  intros [= <- <-]. auto.
Qed.

Lemma listHumanTemplates_ret h ts e :
  listHumanTemplates P W API token h = (Ret ts, e) ->
  ts = remoteTemplates P W API token /\
  e = [EFetch (templatesRequest API token) (net W [] (templatesRequest API token))].
Proof.
  unfold listHumanTemplates, remoteTemplates. intros H. returned.
  rewrite fetch_static in H0 by assumption.
  fold (templatesRequest API token) in *.
  destruct (net W [] (templatesRequest API token)) as [res|]; [|discriminate].
  returned.
  repeat match goal with
    | H : (if ?b then _ else _) _ = _ |- _ => destruct b
    | H : (match ?x with _ => _ end) _ = _ |- _ => destruct x
    end; returned; rewrite ?app_nil_r; auto.
Qed.

Lemma formsSection_ret h e :
  formsSection P C W API UI token h = (Ret tt, e) ->
  let files := theFormFiles C W in
  let names := templateNames (remoteTemplates P W API token) in
  let missing := missingForms P C W names files in
  let existing := existingForms P C W names files in
  posts e =
    (if PLAN C then []
     else map (fun nd => formRequest API token (snd nd)) missing) /\
  lines LOk "Form template exists: " e = map (fun n => [Val n]) existing /\
  createdLines (PLAN C) "form template" e =
    map (fun nd => [Val (fst nd)]) missing /\
  lines LWarn "Skipping form (missing name): " e =
    map (fun f => [Sub f]) (namelessForms P C W names files) /\
  (files <> [] ->
   if PLAN C then
     lines LPlan "Would create " e =
       [[Cnt (length missing); Lit " form(s); would skip ";
         Cnt (length existing); Lit " form(s)"]]
   else
     lines LOk "Forms created: " e = [[Cnt (length missing)]] /\
     lines LOk "Forms skipped (already existed): " e =
       [[Cnt (length existing)]]).
Proof.
  unfold formsSection, theFormFiles. intros H. unroll.
  destruct (fs_existsSync W (FORMS_DIR C)); cbn [negb] in *.
  - unroll.
    match goal with
    | Hr : readdirSync _ _ _ = _ |- _ => apply readdirSync_ret in Hr as [-> ->]
    end.
    destruct (List.filter _ x) as [|f files] eqn:Hfiles; cbn [length Nat.eqb] in *.
    + unroll. unfold createdLines. destruct (PLAN C); cbn; repeat split; tauto.
    + unroll.
      match goal with
      | Hl : listHumanTemplates _ _ _ _ _ = _ |- _ =>
          apply listHumanTemplates_ret in Hl as [-> ->]
      end.
      match goal with
      | Hl : for_of _ _ _ _ = (Ret ?st, _) |- _ => destruct st as [c' s']
      end.
      match goal with
      | Hl : for_of _ _ _ _ = _ |- _ =>
          pose proof (noLine_ret LPlan "Would create " _ _ _ _ Hl ltac:(no_line)) as N1;
          pose proof (noLine_ret LOk "Forms created: " _ _ _ _ Hl ltac:(no_line)) as N2;
          pose proof (noLine_ret LOk "Forms skipped (already existed): " _ _ _ _ Hl
                        ltac:(no_line)) as N3;
          apply formLoop_ret in Hl as (-> & -> & L1 & L2 & L3 & L4)
      end.
      unfold formsSummary in *.
      rewrite ?posts_app, ?lines_app, ?createdLines_app, L1, L2, L3, L4, N1, N2, N3.
      destruct (PLAN C); cbn [negb] in *; unroll; cbn;
        rewrite ?app_nil_r; repeat split; try reflexivity.
  - unroll. unfold createdLines. destruct (PLAN C); cbn; repeat split; tauto.
Qed.


Lemma workflowFiles_ret h files e :
  workflowFiles C W h = (Ret files, e) -> files = theWorkflowFiles C W.
Proof.
  unfold workflowFiles, theWorkflowFiles.
  destruct (positionalJson W); intros H; returned; [reflexivity|].
  match goal with
  | Hr : readdirSync _ _ _ = _ |- _ => apply readdirSync_ret in Hr as [-> ->]
  end.
  reflexivity.
Qed.

Lemma workflowsSection_ret h e :
  workflowsSection P C W API UI token h = (Ret tt, e) ->
  let files := theWorkflowFiles C W in
  let missing := missingWorkflows P C W API token files in
  let existing := existingWorkflows P C W API token files in
  fs_existsSync W (WORKFLOWS_DIR C) = true /\
  posts e =
    (if PLAN C then []
     else map (fun nd => workflowRequest API token (snd nd)) missing) /\
  lines LOk "Workflow exists: " e =
    map (fun n => [Val n; Lit " (skipping)"]) existing /\
  createdLines (PLAN C) "workflow" e = map (fun nd => [Val (fst nd)]) missing /\
  lines LWarn "Skipping workflow (missing name): " e =
    map (fun f => [Sub f]) (namelessWorkflows P C W API token files) /\
  (if PLAN C then
     lines LPlan "Would create " e =
       [[Cnt (length missing); Lit " workflow(s); would skip ";
         Cnt (length existing); Lit " workflow(s)"]]
   else
     lines LOk "Workflows created: " e = [[Cnt (length missing)]] /\
     lines LOk "Workflows skipped (already existed): " e =
       [[Cnt (length existing)]]).
Proof.
  unfold workflowsSection. intros H. unroll.
  destruct (fs_existsSync W (WORKFLOWS_DIR C)); cbn [negb] in *; [|discriminate].
  unroll.
  match goal with
  | Hf : workflowFiles _ _ _ = (Ret _, ?ef) |- _ =>
      pose proof (noLine_ret LOk "Workflow exists: " _ _ _ _ Hf ltac:(no_line)) as F1;
      pose proof (noLine_ret LOk "Created workflow: " _ _ _ _ Hf ltac:(no_line)) as F2;
      pose proof (noLine_ret LPlan "Would create workflow: " _ _ _ _ Hf ltac:(no_line)) as F3;
      pose proof (noLine_ret LWarn "Skipping workflow (missing name): " _ _ _ _ Hf
                    ltac:(no_line)) as F4;
      pose proof (noLine_ret LPlan "Would create " _ _ _ _ Hf ltac:(no_line)) as F5;
      pose proof (noLine_ret LOk "Workflows created: " _ _ _ _ Hf ltac:(no_line)) as F6;
      pose proof (noLine_ret LOk "Workflows skipped (already existed): "
                    _ _ _ _ Hf ltac:(no_line)) as F7;
      assert (F0 : posts ef = []);
      [ unfold workflowFiles in Hf; destruct (positionalJson W); returned;
        [reflexivity|];
        match goal with
        | Hr : readdirSync _ _ _ = _ |- _ =>
            apply readdirSync_ret in Hr as [? ->]
        end; reflexivity
      | apply workflowFiles_ret in Hf as -> ]
  end.
  match goal with
  | Hl : for_of _ _ _ _ = (Ret ?st, _) |- _ => destruct st as [c' s']
  end.
  match goal with
  | Hl : for_of _ _ _ _ = _ |- _ =>
      pose proof (noLine_ret LPlan "Would create " _ _ _ _ Hl ltac:(no_line)) as N1;
      pose proof (noLine_ret LOk "Workflows created: " _ _ _ _ Hl ltac:(no_line)) as N2;
      pose proof (noLine_ret LOk "Workflows skipped (already existed): "
                    _ _ _ _ Hl ltac:(no_line)) as N3;
      apply workflowLoop_ret in Hl as (-> & -> & L1 & L2 & L3 & L4)
  end.
  split; [reflexivity|].
  unfold workflowsSummary in *. unfold createdLines in *.
  change ("Would create " +:+ "workflow" +:+ ": ")
    with "Would create workflow: " in *.
  change ("Created " +:+ "workflow" +:+ ": ") with "Created workflow: " in *.
  rewrite ?posts_app, ?lines_app, ?F0, L1, L2, L4, ?N1, ?N2, ?N3, ?F1, ?F4,
    ?F5, ?F6, ?F7.
  destruct (PLAN C); cbn [negb] in *; unroll;
    rewrite ?lines_app, ?L3, ?F2, ?F3; cbn;
    rewrite ?app_nil_r; repeat split; reflexivity.
Qed.

Lemma promptsSection_ret prompts h e :
  promptsSection P C W prompts API UI token h = (Ret tt, e) ->
  let missing := missingPrompts P C W API token prompts in
  let existing := existingPrompts P C W API token prompts in
  posts e =
    (if PLAN C then []
     else map (fun pt => promptRequest API token (promptModelAssociation W)
                           (fst pt) (snd pt)) missing) /\
  lines LOk "Prompt exists: " e = map (fun p => [Sub (fst p)]) existing /\
  createdLines (PLAN C) "prompt" e =
    map (fun pt => [Sub (fst (fst pt))]) missing /\
  lines LWarn "Prompt file not found: " e =
    map (fun p => [Sub (promptPath P C p)]) (filelessPrompts P C W prompts) /\
  (if PLAN C then
     lines LPlan "Would create " e =
       [[Cnt (length missing); Lit " prompt(s); would skip ";
         Cnt (length existing); Lit " prompt(s)"]]
   else
     lines LOk "Prompts created: " e = [[Cnt (length missing)]] /\
     lines LOk "Prompts skipped (already existed): " e =
       [[Cnt (length existing)]]).
Proof.
  unfold promptsSection. intros H. unroll.
  fold (promptModelAssociation W) in *.
  match goal with
  | Hl : for_of _ _ _ _ = (Ret ?st, _) |- _ => destruct st as [c' s']
  end.
  match goal with
  | Hl : for_of _ _ _ _ = _ |- _ =>
      pose proof (noLine_ret LPlan "Would create " _ _ _ _ Hl ltac:(no_line)) as N1;
      pose proof (noLine_ret LOk "Prompts created: " _ _ _ _ Hl ltac:(no_line)) as N2;
      pose proof (noLine_ret LOk "Prompts skipped (already existed): "
                    _ _ _ _ Hl ltac:(no_line)) as N3;
      apply promptLoop_ret in Hl as (-> & -> & L1 & L2 & L3 & L4)
  end.
  unfold promptsSummary in *. unfold createdLines in *.
  rewrite ?posts_app, ?lines_app, L1, L2, L4, ?N1, ?N2, ?N3.
  destruct (PLAN C); cbn [negb] in *; unroll;
    rewrite ?lines_app, ?L3; cbn;
    rewrite ?app_nil_r; repeat split; reflexivity.
Qed.


Lemma mustEnv_ret names h v e :
  mustEnv P W names h = (Ret v, e) -> firstSetEnv P W names = Some v /\ e = [].
Proof.
  unfold mustEnv. destruct (firstSetEnv P W names); intros H; returned; auto.
Qed.

Lemma openaiSection_ret h e :
  openaiSection P C W API UI token h = (Ret tt, e) ->
  NO_OPENAI C = false ->
  let name := openaiIntegrationName W in
  let models := openaiModels P W in
  exists key,
    firstSetEnv P W ["OPENAI_API_KEY"] = Some key /\
    posts e =
      (if PLAN C || remoteOk W (integrationUrl API name) token then []
       else [integrationRequest API token name key]) ++
      (if PLAN C then []
       else map (modelRequest API token name)
                (missingModels W API token name models)) /\
    lines LOk "OpenAI integration already exists: " e =
      (if negb (PLAN C) && remoteOk W (integrationUrl API name) token
       then [[Sub name]] else []) /\
    lines LPlan "Would create OpenAI integration " e =
      (if PLAN C then [[Sub name]] else []) /\
    lines LPlan "Would enable model " e =
      (if PLAN C then map (fun m => [Sub m]) models else []) /\
    (PLAN C = false ->
     lines LOk "Models added: " e =
       [[Cnt (length (missingModels W API token name models))]] /\
     lines LOk "Models already present: " e =
       [[Cnt (length (existingModels W API token name models))]]).
Proof.
  unfold openaiSection. intros H Hno. rewrite Hno in H. unroll.
  fold (openaiIntegrationName W) in *.
  match goal with
  | Hm : mustEnv _ _ _ _ = _ |- _ => apply mustEnv_ret in Hm as [Hkey ->]
  end.
  eexists. split; [exact Hkey|].
  match goal with
  | Hi : ensureIntegration _ _ _ _ _ _ _ ?hh = (Ret ?u, _) |- _ =>
      destruct u;
      pose proof (noLine_ret LPlan "Would enable model " _ _ _ _ Hi ltac:(no_line)) as I1;
      pose proof (noLine_ret LOk "Models added: " _ _ _ _ Hi ltac:(no_line)) as I2;
      pose proof (noLine_ret LOk "Models already present: " _ _ _ _ Hi ltac:(no_line)) as I3;
      apply ensureIntegration_ret in Hi as (J1 & J2 & J3 & J4)
  end.
  match goal with
  | Hl : for_of _ _ _ _ = (Ret ?st, _) |- _ => destruct st as [a' k']
  end.
  match goal with
  | Hl : for_of _ _ _ _ = _ |- _ =>
      pose proof (noLine_ret LOk "OpenAI integration already exists: "
                    _ _ _ _ Hl ltac:(no_line)) as M1;
      pose proof (noLine_ret LPlan "Would create OpenAI integration "
                    _ _ _ _ Hl ltac:(no_line)) as M2;
      pose proof (noLine_ret LOk "Models added: " _ _ _ _ Hl ltac:(no_line)) as M3;
      pose proof (noLine_ret LOk "Models already present: "
                    _ _ _ _ Hl ltac:(no_line)) as M4;
      apply modelLoop_ret in Hl as (K1 & K2 & K3)
  end.
  assert (B : forall l p, lines l p [ELog LBullet (Lit "Models: " :: map Sub (openaiModels P W))] =
                          if level_eqb LBullet l && String.eqb "Models: " p
                          then [map Sub (openaiModels P W)] else []).
  { intros l p. unfold lines. cbn [omap list_omap].
    destruct (level_eqb LBullet l && String.eqb "Models: " p); reflexivity. }
  rewrite ?posts_app, ?lines_app, ?B, J1, J2, J4, K1, K2, ?I1, ?I2, ?I3,
    ?M1, ?M2, ?M3, ?M4.
  destruct (PLAN C); cbn [negb] in *; unroll;
    cbn; rewrite ?app_nil_r; repeat split; try reflexivity;
    try discriminate.
Qed.


(** *** A pass that returns has met no broken document *)

Lemma ensureForm_valid existingNames f st h st' e :
  ensureForm P C W API token existingNames f st h = (Ret st', e) ->
  formVerdict P C W existingNames f <> Broken.
Proof.
  unfold ensureForm. destruct st as [c s]. intros H.
  apply bind_ret_inv in H as (doc & e1 & e2 & Hd & H & _).
  apply readJson_ret in Hd as [Hd _].
  apply bind_ret_inv in H as (name & e3 & e4 & Hg & _ & _).
  apply get_ret in Hg as (Hu & Hn & _ & _).
  unfold formVerdict. rewrite Hd, judge_doc by assumption.
  destruct (Js.truthy _); [destruct (setHas _ _)|]; discriminate.
Qed.

Lemma ensureWorkflow_valid f st h st' e :
  ensureWorkflow P C W API UI token f st h = (Ret st', e) ->
  workflowVerdict P C W API token f <> Broken.
Proof.
  unfold ensureWorkflow. destruct st as [c s]. intros H.
  apply bind_ret_inv in H as (doc & e1 & e2 & Hd & H & _).
  apply readJson_ret in Hd as [Hd _].
  apply bind_ret_inv in H as (name & e3 & e4 & Hg & _ & _).
  apply get_ret in Hg as (Hu & Hn & _ & _).
  unfold workflowVerdict, workflowPath. rewrite Hd, judge_doc by assumption.
  destruct (Js.truthy _); [destruct (remoteOk _ _ _)|]; discriminate.
Qed.

Lemma for_of_all {X St} (body : X -> St -> M St) (good : X -> Prop) :
  (forall x st h st' e, body x st h = (Ret st', e) -> good x) ->
  forall xs st h st' e,
    for_of xs body st h = (Ret st', e) -> Forall good xs.
Proof.
  intros Hitem. induction xs as [|x xs IH]; intros st h st' e H; [constructor|].
  cbn [for_of] in H.
  apply bind_ret_inv in H as (st1 & e1 & e2 & Hb & Hl & _).
  constructor; [eapply Hitem, Hb | eapply IH, Hl].
Qed.

(** Documents that are not broken are missing, existing or nameless. *)
Lemma verdict_count (v : string -> verdict) (files : list string) :
  Forall (fun f => v f <> Broken) files ->
  length files =
  length (omap (fun f => missingOf (v f)) files) +
  length (omap (fun f => existingOf (v f)) files) +
  length (List.filter (fun f => isNameless (v f)) files).
Proof.
  induction 1 as [|f files Hf _ IH]; [reflexivity|].
  cbn [omap list_omap List.filter length].
  destruct (v f); cbn; try contradiction; lia.
Qed.

Lemma formsSection_count h e :
  formsSection P C W API UI token h = (Ret tt, e) ->
  let files := theFormFiles C W in
  let names := templateNames (remoteTemplates P W API token) in
  length files =
  length (missingForms P C W names files) +
  length (existingForms P C W names files) +
  length (namelessForms P C W names files).
Proof.
  intros H. cbv zeta. apply verdict_count.
  unfold formsSection, theFormFiles in *. unroll.
  destruct (fs_existsSync W (FORMS_DIR C)); cbn [negb] in *; [|constructor].
  unroll.
  match goal with
  | Hr : readdirSync _ _ _ = _ |- _ => apply readdirSync_ret in Hr as [-> ->]
  end.
  destruct (List.filter _ _) as [|f files] eqn:Hfiles; [constructor|].
  cbn [length Nat.eqb] in *. unroll.
  match goal with
  | Hl : listHumanTemplates _ _ _ _ _ = _ |- _ =>
      apply listHumanTemplates_ret in Hl as [-> ->]
  end.
  match goal with
  | Hl : for_of _ _ _ _ = _ |- _ =>
      exact (for_of_all _ _ (ensureForm_valid _) _ _ _ _ _ Hl)
  end.
Qed.

Lemma workflowsSection_count h e :
  workflowsSection P C W API UI token h = (Ret tt, e) ->
  let files := theWorkflowFiles C W in
  length files =
  length (missingWorkflows P C W API token files) +
  length (existingWorkflows P C W API token files) +
  length (namelessWorkflows P C W API token files).
Proof.
  intros H. cbv zeta. apply verdict_count.
  unfold workflowsSection in *. unroll.
  destruct (fs_existsSync W (WORKFLOWS_DIR C)); cbn [negb] in *; [|discriminate].
  unroll.
  match goal with
  | Hf : workflowFiles _ _ _ = _ |- _ => apply workflowFiles_ret in Hf as ->
  end.
  match goal with
  | Hl : for_of _ _ _ _ = _ |- _ =>
      exact (for_of_all _ _ ensureWorkflow_valid _ _ _ _ _ Hl)
  end.
Qed.

End Items.

(** * The claims *)

(** ** C9: the base address *)

(** C9, as stated, fails: a server address that ends in [/api/] does not end
    in [/api], yet its normalized base is not the one of the address with
    [/api] appended.  Nor does the empty address, which counts as unset and
    gives the default server, where [/api] alone gives [/api]. *)
Lemma normalize_trailing_slash_differs :
  (Str.endsWith "https://host/api/" "/api" = false /\
   normalizeBaseApiUrl {[ "CONDUCTOR_SERVER_URL" := "https://host/api/" ]}
     = "https://host/api" /\
   normalizeBaseApiUrl
     {[ "CONDUCTOR_SERVER_URL" := "https://host/api/" +:+ "/api" ]}
     = "https://host/api//api") /\
  (Str.endsWith EmptyString "/api" = false /\
   normalizeBaseApiUrl {[ "CONDUCTOR_SERVER_URL" := EmptyString ]}
     = "https://developer.orkescloud.com/api" /\
   normalizeBaseApiUrl {[ "CONDUCTOR_SERVER_URL" := EmptyString +:+ "/api" ]}
     = "/api").
Proof. repeat split; vm_compute; reflexivity. Qed.

Lemma env_truthy_insert (e : gmap string string) (k u : string) :
  u <> "" -> env_truthy (<[k := u]> e) k = Some u.
Proof.
  intros Hu. unfold env_truthy. rewrite lookup_insert_eq.
  destruct (String.eqb_spec u ""); [contradiction | reflexivity].
Qed.

Lemma env_truthy_insert_ne (e : gmap string string) (k k' u : string) :
  k <> k' -> env_truthy (<[k := u]> e) k' = env_truthy e k'.
Proof. intros Hk. unfold env_truthy. now rewrite lookup_insert_ne. Qed.

Lemma normalize_api_url (e : gmap string string) (u : string) :
  u <> "" ->
  normalizeBaseApiUrl (<["CONDUCTOR_SERVER_API_URL" := u]> e) = stripApi u +:+ "/api".
Proof. intros Hu. unfold normalizeBaseApiUrl. now rewrite env_truthy_insert. Qed.

Lemma normalize_server_url (e : gmap string string) (u : string) :
  u <> "" -> env_truthy e "CONDUCTOR_SERVER_API_URL" = None ->
  normalizeBaseApiUrl (<["CONDUCTOR_SERVER_URL" := u]> e) = stripApi u +:+ "/api".
Proof.
  intros Hu He. unfold normalizeBaseApiUrl.
  rewrite env_truthy_insert_ne by discriminate. rewrite He.
  now rewrite env_truthy_insert.
Qed.

Lemma normalized_nonempty (e : gmap string string) : normalizeBaseApiUrl e <> "".
Proof.
  unfold normalizeBaseApiUrl.
  destruct (env_truthy e "CONDUCTOR_SERVER_API_URL");
    [apply StrFacts.append_nonempty; discriminate|].
  destruct (env_truthy e "CONDUCTOR_SERVER_URL");
    [apply StrFacts.append_nonempty; discriminate | discriminate].
Qed.

Lemma normalized_shape (e : gmap string string) :
  exists s, normalizeBaseApiUrl e = s +:+ "/api".
Proof.
  unfold normalizeBaseApiUrl.
  destruct (env_truthy e "CONDUCTOR_SERVER_API_URL"); [eauto|].
  destruct (env_truthy e "CONDUCTOR_SERVER_URL"); [eauto|].
  now exists "https://developer.orkescloud.com".
Qed.

(** C9, amended: for every server address [u] that is not empty and ends in
    neither [/api] nor [/api/], given through either variable, the normalized
    base of [u] is the normalized base of [u] with [/api] appended (both are
    [u/api]); and normalizing a normalized base leaves it unchanged. *)
Theorem normalize_api_base (e : gmap string string) (u : string) :
  u <> "" ->
  Str.endsWith u "/api" = false ->
  Str.endsWith u "/api/" = false ->
  (normalizeBaseApiUrl (<["CONDUCTOR_SERVER_API_URL" := u]> e) =
   normalizeBaseApiUrl (<["CONDUCTOR_SERVER_API_URL" := u +:+ "/api"]> e)) /\
  (env_truthy e "CONDUCTOR_SERVER_API_URL" = None ->
   normalizeBaseApiUrl (<["CONDUCTOR_SERVER_URL" := u]> e) =
   normalizeBaseApiUrl (<["CONDUCTOR_SERVER_URL" := u +:+ "/api"]> e)) /\
  normalizeBaseApiUrl (<["CONDUCTOR_SERVER_API_URL" := u]> e) = u +:+ "/api" /\
  (forall e' : gmap string string,
      normalizeBaseApiUrl
        (<["CONDUCTOR_SERVER_API_URL" := normalizeBaseApiUrl e']> e')
      = normalizeBaseApiUrl e' /\
      (env_truthy e' "CONDUCTOR_SERVER_API_URL" = None ->
       normalizeBaseApiUrl
         (<["CONDUCTOR_SERVER_URL" := normalizeBaseApiUrl e']> e')
       = normalizeBaseApiUrl e')).
Proof.
  intros Hu Ha Hb.
  assert (Hu' : u +:+ "/api" <> "") by (apply StrFacts.append_nonempty; discriminate).
  repeat split.
  - rewrite !normalize_api_url by assumption.
    now rewrite StrFacts.stripApi_append, StrFacts.stripApi_id.
  - intros He. rewrite !normalize_server_url by assumption.
    now rewrite StrFacts.stripApi_append, StrFacts.stripApi_id.
  - rewrite normalize_api_url by assumption. now rewrite StrFacts.stripApi_id.
  - rewrite normalize_api_url by apply normalized_nonempty.
    destruct (normalized_shape e') as [s ->].
    now rewrite StrFacts.stripApi_append.
  - intros He. rewrite normalize_server_url by (apply normalized_nonempty || assumption).
    destruct (normalized_shape e') as [s ->].
    now rewrite StrFacts.stripApi_append.
Qed.

Lemma normalize_api_base_witness :
  normalizeBaseApiUrl (<["CONDUCTOR_SERVER_API_URL" := "https://host"]> ∅) =
  "https://host" +:+ "/api".
Proof.
  apply (normalize_api_base ∅ "https://host"); [discriminate | reflexivity | reflexivity].
Defined.

(** ** C5: a write that fails in transport *)

Lemma run_exit (P : Platform) (W : World) :
  fst (run P W) = exit_code (fst (main P (config (argv W)) W [])).
Proof. unfold run. now destruct (main P (config (argv W)) W []) as [[|] ?]. Qed.

(** C5, as stated, fails: when the server refuses to enable the second
    model, the run does not abort the OpenAI pass only; no later pass starts
    (the task definition, form, prompt and workflow passes print nothing),
    although the same checkout runs them all against a server that accepts
    the write. *)
Lemma failed_creation_stops_later_passes :
  let failed := snd (run Scenario.node (Scenario.checkout [] Scenario.refusing)) in
  let fine := snd (run Scenario.node (Scenario.checkout [] Scenario.emptyServer)) in
  fst (run Scenario.node (Scenario.checkout [] Scenario.refusing)) = 1 /\
  map (fun l => lines LSection l failed)
      ["Worker Task Definitions"; "Human Task Forms"; "AI Prompts"; "Workflows"]
    = [[]; []; []; []] /\
  map (fun l => lines LSection l fine)
      ["Worker Task Definitions"; "Human Task Forms"; "AI Prompts"; "Workflows"]
    = [[[]]; [[]]; [[]]; [[]]].
Proof. vm_compute. repeat split; reflexivity. Qed.

(** C5, amended: a transport failure (a rejected [fetch] or an answer
    outside 200-299) on a write ends the whole run at that request: nothing
    is requested or printed after it except the error report, so the call is
    not retried, nothing already created is rolled back, no later pass
    starts, and the exit code is 1. *)
Theorem transport_failure_ends_run (P : Platform) (W : World)
    (pre post : list event) (r : request) (a : option response) :
  snd (run P W) = pre ++ EFetch r a :: post ->
  isGet r = false ->
  transportFailure a = true ->
  fst (run P W) = 1 /\
  post = [ELog LError (Lit "ERROR:" :: error_message (transportError r a))].
Proof.
  unfold run. pose proof (main_failFast P (config (argv W)) W []) as Hff.
  destruct (main P (config (argv W)) W []) as [[u|e] evs]; cbn [fst snd] in *.
  - intros Heq Hr Ha. destruct (Hff _ _ _ _ Heq Hr Ha) as [_ ?]. discriminate.
  - intros Heq Hr Ha. split; [reflexivity|].
    destruct (app_split_event _ _ _ _ _ Heq) as [[p1 [E1 ->]]|[p2 [E2 _]]].
    + destruct (Hff _ _ _ _ E1 Hr Ha) as [-> [= ->]]. reflexivity.
    + destruct p2 as [|? [|? ?]]; discriminate.
Qed.

Lemma transport_failure_ends_run_witness :
  let W := Scenario.checkout [] Scenario.refusing in
  (fst (run Scenario.node W) = 1 /\
   drop (S Scenario.refusedAt) (snd (run Scenario.node W)) =
   [ELog LError
      (Lit "ERROR:" ::
       error_message
         (transportError
            (modelRequest Scenario.api Scenario.tok "openai" "gpt-4.1-mini")
            Scenario.serverError))]) /\
  map req_url (posts (snd (run Scenario.node W))) =
  [ Scenario.api +:+ "/integrations/provider/openai";
    Scenario.api +:+ "/integrations/provider/openai/integration/gpt-4.1";
    Scenario.api +:+ "/integrations/provider/openai/integration/gpt-4.1-mini" ].
Proof.
  split; [|vm_compute; reflexivity].
  apply (transport_failure_ends_run Scenario.node
           (Scenario.checkout [] Scenario.refusing)
           (take Scenario.refusedAt
              (snd (run Scenario.node (Scenario.checkout [] Scenario.refusing))))).
  - vm_compute. reflexivity.
  - reflexivity.
  - reflexivity.
Defined.

(** ** C6: a source directory that is absent *)

(** C6, as stated, fails for the workflows: without the workflows directory
    the run ends with an error and exit code 1. *)
Lemma missing_workflows_dir_is_fatal :
  let W := Scenario.bare [] Scenario.emptyServer in
  fs_existsSync W (WORKFLOWS_DIR (config (argv W))) = false /\
  fst (run Scenario.node W) = 1 /\
  lines LError "ERROR:" (snd (run Scenario.node W)) =
    [[Lit "Workflows dir not found: "; Sub "./workflows"]].
Proof. vm_compute. repeat split; reflexivity. Qed.

Lemma workflowsSection_no_dir P C W API UI token h :
  fs_existsSync W (WORKFLOWS_DIR C) = false ->
  workflowsSection P C W API UI token h =
  (Throw (ErrWorkflowsDir (WORKFLOWS_DIR C)),
   [ELog LSection [Lit "Workflows"]; EFs (FsExists (WORKFLOWS_DIR C))]).
Proof.
  intros Hdir. unfold workflowsSection, bind, section, existsSync, emit, ret.
  cbn. now rewrite Hdir.
Qed.

Lemma formsSection_no_dir P C W API UI token h :
  fs_existsSync W (FORMS_DIR C) = false ->
  formsSection P C W API UI token h =
  (Ret tt,
   [ELog LSection [Lit "Human Task Forms"];
    EFs (FsExists (FORMS_DIR C));
    ELog LInfo [Lit "No forms dir found at "; Sub (FORMS_DIR C);
                Lit " (skipping)."];
    ELog LBullet [Lit "UI hint: "; Sub UI; Lit "/humanTask"]]).
Proof.
  intros Hdir. unfold formsSection, bind, section, existsSync, emit, ret.
  cbn. now rewrite Hdir.
Qed.

Lemma main_needs_workflows_dir P C W h evs :
  main P C W h = (Ret tt, evs) -> fs_existsSync W (WORKFLOWS_DIR C) = true.
Proof.
  unfold main. intros H. returned.
  destruct (fs_existsSync W (WORKFLOWS_DIR C)) eqn:Hdir; [reflexivity|].
  match goal with
  | Hw : workflowsSection _ _ _ _ _ _ _ = _ |- _ =>
      rewrite workflowsSection_no_dir in Hw by assumption; discriminate Hw
  end.
Qed.

(** C6, amended: when the forms directory is absent the form pass is skipped
    with one informational line and returns, so the run goes on with the
    prompts; when the workflows directory is absent the workflow pass throws
    before it looks at any file, and the run cannot end with exit code 0. *)
Theorem missing_source_directory (P : Platform) (W : World)
    (API UI : string) (token : value) (h : list event) :
  let C := config (argv W) in
  (fs_existsSync W (FORMS_DIR C) = false ->
   formsSection P C W API UI token h =
   (Ret tt,
    [ELog LSection [Lit "Human Task Forms"];
     EFs (FsExists (FORMS_DIR C));
     ELog LInfo [Lit "No forms dir found at "; Sub (FORMS_DIR C);
                 Lit " (skipping)."];
     ELog LBullet [Lit "UI hint: "; Sub UI; Lit "/humanTask"]])) /\
  (fs_existsSync W (WORKFLOWS_DIR C) = false ->
   workflowsSection P C W API UI token h =
   (Throw (ErrWorkflowsDir (WORKFLOWS_DIR C)),
    [ELog LSection [Lit "Workflows"]; EFs (FsExists (WORKFLOWS_DIR C))]) /\
   fst (run P W) = 1).
Proof.
  cbv zeta. split.
  - apply formsSection_no_dir.
  - intros Hdir. split; [now apply workflowsSection_no_dir|].
    rewrite run_exit.
    destruct (main P (config (argv W)) W []) as [[[]|e] evs] eqn:Hmain;
      [|reflexivity].
    apply main_needs_workflows_dir in Hmain. congruence.
Qed.

Lemma missing_source_directory_witness :
  let W := Scenario.bare [] Scenario.emptyServer in
  formsSection Scenario.node (config (argv W)) W Scenario.api Scenario.ui
    Scenario.tok [] =
  (Ret tt,
   [ELog LSection [Lit "Human Task Forms"];
    EFs (FsExists "./forms");
    ELog LInfo [Lit "No forms dir found at "; Sub "./forms"; Lit " (skipping)."];
    ELog LBullet [Lit "UI hint: "; Sub Scenario.ui; Lit "/humanTask"]]) /\
  fst (run Scenario.node W) = 1.
Proof.
  split.
  - apply (missing_source_directory Scenario.node
             (Scenario.bare [] Scenario.emptyServer)). reflexivity.
  - apply (missing_source_directory Scenario.node
             (Scenario.bare [] Scenario.emptyServer) Scenario.api Scenario.ui
             Scenario.tok []). reflexivity.
Defined.

(** ** C2: existence checks that fail *)

(** [exists] never throws, and a failed read answers [false]. *)
Lemma exists_fails_open (W : World) (url : string) (token : value) (h : list event) :
  let r := Request "GET" url (authHeaders token) None in
  exists b,
    exists_ W url token h = (Ret b, [EFetch r (net W h r)]) /\
    (transportFailure (net W h r) = true -> b = false).
Proof.
  cbv zeta. unfold exists_, try_catch, bind, fetch, ret.
  destruct (net W h _) as [res|]; cbn.
  - exists (res_ok res). split; [reflexivity|].
    now intros ->%negb_true_iff.
  - exists false. split; reflexivity.
Qed.

(** The other two checks answer [false] on a status outside 200-299. *)
Lemma existsGet_status (C : Config) (W : World) (url : string) (token : value)
    (h : list event) (res : response) :
  let r := Request "GET" url (authHeaders token) None in
  net W h r = Some res -> PLAN C = false ->
  existsGet C W url token h = (Ret (res_ok res), [EFetch r (Some res)]).
Proof.
  cbv zeta. intros Hnet HP. unfold existsGet, bind, fetch, ret.
  now rewrite HP, Hnet.
Qed.

(** C2: the claim holds on [exists] (task definitions, prompts, workflows)
    and, for a status outside 200-299, everywhere; but a network failure is
    not caught by [existsGet] (integration, models) nor by
    [listHumanTemplates] (forms), which [exists] does catch.  At the input
    below the connection drops on the read that checks the integration:
    [exists] would answer false, [existsGet] throws, and the run ends with
    exit code 1 without creating anything; likewise for the form list. *)
Theorem existence_check_network_failure :
  let W := Scenario.bare [] Scenario.dropping in
  let C := config (argv W) in
  let r := Request "GET" Scenario.integrationAddress
             (authHeaders Scenario.tok) None in
  exists_ W Scenario.integrationAddress Scenario.tok [] =
    (Ret false, [EFetch r None]) /\
  existsGet C W Scenario.integrationAddress Scenario.tok [] =
    (Throw (ErrFetch Scenario.integrationAddress), [EFetch r None]) /\
  fst (run Scenario.node W) = 1 /\
  lines LError "ERROR:" (snd (run Scenario.node W)) = [[Lit "fetch failed"]] /\
  posts (snd (run Scenario.node W)) = [] /\
  fst (listHumanTemplates Scenario.node
         (Scenario.checkout [] Scenario.droppingList) Scenario.api Scenario.tok [])
    = Throw (ErrFetch (Scenario.api +:+ "/human/template")).
Proof. vm_compute. repeat split; reflexivity. Qed.

(** ** C8: the defaults of a task definition *)

Lemma checkLoop_records (W : World) (API : string) (token userInfo : value)
    (tasks : list string) :
  forall acc h acc' e,
    for_of tasks (checkTaskDef W API token userInfo) acc h = (Ret acc', e) ->
    exists names,
      acc' = acc ++ map (fun n => taskDefRecord n userInfo) names /\
      forall n, In n names -> In n tasks.
Proof.
  induction tasks as [|n tasks IH]; intros acc h acc' e H.
  - cbn [for_of] in H. unfold ret in H. injection H as <- _.
    exists []. split; [now rewrite app_nil_r | intros ? []].
  - cbn [for_of] in H.
    apply bind_ret_inv in H as (acc1 & e1 & e2 & Hb & Hl & ->).
    apply IH in Hl as (names & -> & Hin).
    unfold checkTaskDef in Hb.
    apply bind_ret_inv in Hb as (b & e3 & e4 & _ & Hb & _).
    destruct b.
    + apply bind_ret_inv in Hb as (? & ? & ? & _ & Hb & _).
      unfold ret in Hb. injection Hb as <- _.
      exists names. split; [reflexivity | intros ? ?; right; auto].
    + apply bind_ret_inv in Hb as (? & ? & ? & _ & Hb & _).
      unfold ret in Hb. injection Hb as <- _.
      exists (n :: names). split; [now rewrite <- app_assoc|].
      intros m [->|Hm]; [now left | right; auto].
Qed.

Lemma taskDefRecord_defaults (name : string) (userInfo : value) :
  hasDefaults userInfo (taskDefRecord name userInfo).
Proof.
  unfold hasDefaults, taskDefRecord. cbn. repeat split.
  now destruct (Js.optGet userInfo "id").
Qed.

(** C8: every record the task definition loop builds for a missing task
    definition has [retryCount] 2, [timeoutSeconds] 300,
    [responseTimeoutSeconds] 300 and the user's [id] as [ownerEmail], or
    ["unknown"] when the user info has no [id]; and when the user info
    request fails, the user info is the empty object, which has none. *)
Theorem taskdef_defaults (P : Platform) (C : Config) (W : World) (API : string)
    (token userInfo : value) (tasks : list string) (h : list event)
    (missingTaskDefs : list value) (e : list event) :
  for_of tasks (checkTaskDef W API token userInfo) [] h = (Ret missingTaskDefs, e) ->
  Forall (hasDefaults userInfo) missingTaskDefs /\
  (forall err ev,
      http P C W "GET" (API +:+ "/token/userInfo") token
        (Some [("accept", VStr "application/json")]) None ExpectJson [200] h
      = (Throw err, ev) ->
      fst (fetchUserInfo P C W API token h) = Ret (VObj [])) /\
  (forall name,
      Js.optGet (taskDefRecord name (VObj [])) "ownerEmail" = VStr "unknown").
Proof.
  intros H. split; [|split].
  - apply checkLoop_records in H as (names & -> & _). cbn [app].
    apply Forall_forall. intros rec Hin.
    apply list_elem_of_In, in_map_iff in Hin as (n & <- & _).
    apply taskDefRecord_defaults.
  - intros err ev Hhttp. unfold fetchUserInfo, bind, try_catch.
    rewrite Hhttp. reflexivity.
  - reflexivity.
Qed.

Lemma taskdef_defaults_witness :
  Forall (hasDefaults (VObj [("id", VStr "ops@example.org")]))
    (map (fun n => taskDefRecord n (VObj [("id", VStr "ops@example.org")]))
         WORKER_TASKS).
Proof.
  apply (taskdef_defaults Scenario.node
           (config (Scenario.argvOf []))
           (Scenario.bare [] Scenario.emptyServer) Scenario.api Scenario.tok
           (VObj [("id", VStr "ops@example.org")]) WORKER_TASKS []
           _
           (snd (for_of WORKER_TASKS
                   (checkTaskDef (Scenario.bare [] Scenario.emptyServer)
                      Scenario.api Scenario.tok
                      (VObj [("id", VStr "ops@example.org")])) [] []))).
  vm_compute. reflexivity.
Defined.

(** ** C10: a workflow file named on the command line *)

Lemma find_positional (args : list string) :
  (exists a, In a args /\ positional a = true) ->
  exists p, find positional args = Some p /\ In p args /\ positional p = true.
Proof.
  induction args as [|x args IH]; intros (a & Hin & Ha); [destruct Hin|].
  cbn [find]. destruct (positional x) eqn:Hx.
  - exists x. repeat split; [now left | exact Hx].
  - destruct Hin as [->|Hin]; [congruence|].
    destruct IH as (p & Hf & Hp & Hpp); [eauto|].
    exists p. repeat split; [exact Hf | now right | exact Hpp].
Qed.

(** [argValue], read from the front of the command line. *)
Lemma argValue_cons (x : string) (xs : list string) (flag fallback : string) :
  argValue (x :: xs) flag fallback =
  if String.eqb x flag then default fallback (head xs)
  else argValue xs flag fallback.
Proof.
  unfold argValue. cbn [Js.indexOf].
  destruct (String.eqb x flag); [now destruct xs|].
  destruct (Js.indexOf xs flag) as [idx|]; reflexivity.
Qed.

Lemma argValue_insert (pre post : list string) (p flag fallback : string) :
  p <> flag -> last pre <> Some flag ->
  argValue (pre ++ p :: post) flag fallback = argValue (pre ++ post) flag fallback.
Proof.
  intros Hp. induction pre as [|x pre IH]; intros Hlast.
  - cbn [app]. rewrite argValue_cons.
    destruct (String.eqb_spec p flag); [contradiction | reflexivity].
  - cbn [app]. rewrite !argValue_cons.
    destruct (String.eqb_spec x flag) as [->|Hx].
    + destruct pre as [|y pre]; [now contradiction Hlast | reflexivity].
    + apply IH. destruct pre as [|y pre]; [discriminate | exact Hlast].
Qed.

Lemma argHas_insert (pre post : list string) (p flag : string) :
  p <> flag -> argHas (pre ++ p :: post) flag = argHas (pre ++ post) flag.
Proof.
  intros Hp. unfold argHas, Js.includes. rewrite !existsb_app. cbn [existsb].
  destruct (String.eqb_spec flag p); [congruence | reflexivity].
Qed.

Lemma not_flag (p flag : string) :
  Str.startsWith p "-" = false -> Str.startsWith flag "-" = true -> p <> flag.
Proof. intros Hp Hf ->. congruence. Qed.

(** An argument that is no option and does not follow an option that takes
    a value changes none of the flags and directories. *)
Lemma config_insert (pre post : list string) (p : string) :
  Str.startsWith p "-" = false ->
  (forall flag, In flag valueFlags -> last pre <> Some flag) ->
  config (pre ++ p :: post) = config (pre ++ post).
Proof.
  intros Hp Hlast. unfold config.
  rewrite !(argHas_insert pre post p) by (apply not_flag; [exact Hp | reflexivity]).
  rewrite !(argValue_insert pre post p)
    by first [ apply not_flag; [exact Hp | reflexivity]
             | apply Hlast; cbn; tauto ].
  reflexivity.
Qed.

Lemma bind_head {A B} (m : M A) (k : A -> M B) h x l :
  snd (m h) = x :: l -> head (snd (bind m k h)) = Some x.
Proof.
  unfold bind. destruct (m h) as [[a|e] e1]; cbn [snd]; intros ->; [|reflexivity].
  now destruct (k a (h ++ x :: l)).
Qed.

Lemma readJson_events P W p h : snd (readJson P W p h) = [EFs (FsReadFile p)].
Proof.
  unfold readJson, readText, bind, emit.
  destruct (fs_readFileSync W p) as [text|]; cbn; [|reflexivity].
  now destruct (JSON_parse P text).
Qed.

Lemma ensureWorkflow_reads P C W API UI token f st h a :
  positionalJson W = Some a ->
  head (snd (ensureWorkflow P C W API UI token f st h)) =
  Some (EFs (FsReadFile (path_resolve P f))).
Proof.
  intros Ha. unfold ensureWorkflow. destruct st as [c s]. rewrite Ha.
  eapply bind_head. apply readJson_events.
Qed.

Lemma fsOps_app (a b : list event) : fsOps (a ++ b) = fsOps a ++ fsOps b.
Proof. apply omap_app. Qed.

Lemma always_noFs {A} (m : M A) h : always noFs m -> fsOps (snd (m h)) = [].
Proof.
  intros Hm. specialize (Hm h). induction Hm as [|e evs He _ IH]; [reflexivity|].
  change (e :: evs) with ([e] ++ evs). unfold noFs in He.
  now rewrite fsOps_app, He, IH.
Qed.

Lemma fsOps_bind {A B} (m : M A) (k : A -> M B) h :
  fsOps (snd (bind m k h)) =
  fsOps (snd (m h)) ++
  match fst (m h) with
  | Ret a => fsOps (snd (k a (h ++ snd (m h))))
  | Throw _ => []
  end.
Proof.
  unfold bind. destruct (m h) as [[a|e] e1]; cbn [fst snd];
    [|now rewrite app_nil_r].
  destruct (k a (h ++ e1)) as [o e2]. cbn [snd]. apply fsOps_app.
Qed.

(** The one lookup of [ensureWorkflow] is the read of the document. *)
Lemma ensureWorkflow_fsOps P C W API UI token f st h a :
  positionalJson W = Some a ->
  fsOps (snd (ensureWorkflow P C W API UI token f st h)) =
  [FsReadFile (path_resolve P f)].
Proof.
  intros Ha. unfold ensureWorkflow. destruct st as [c s]. rewrite Ha.
  rewrite fsOps_bind, readJson_events. cbn [fsOps omap list_omap app].
  destruct (fst (readJson P W (path_resolve P f) h)) as [wf|]; [|reflexivity].
  match goal with
  | |- _ :: fsOps (snd (?m ?h')) = _ => rewrite (always_noFs m h'); [reflexivity|]
  end.
  no_line.
Qed.

(** Laws of the computations. *)
Lemma bind_ext {A B} (m : M A) (k1 k2 : A -> M B) h :
  (forall a h', k1 a h' = k2 a h') -> bind m k1 h = bind m k2 h.
Proof.
  intros Hk. unfold bind. destruct (m h) as [[a|e] e1]; [|reflexivity].
  now rewrite Hk.
Qed.

Lemma bind_ret_l {A B} (a : A) (k : A -> M B) h : bind (ret a) k h = k a h.
Proof.
  unfold bind, ret. rewrite app_nil_r. now destruct (k a h).
Qed.

Lemma bind_ret_r {A} (m : M A) h : bind m (fun a => ret a) h = m h.
Proof.
  unfold bind, ret. destruct (m h) as [[a|e] e1]; [|reflexivity].
  now rewrite app_nil_r.
Qed.

Lemma bind_assoc {A B D} (m : M A) (k : A -> M B) (k' : B -> M D) h :
  bind (bind m k) k' h = bind m (fun a => bind (k a) k') h.
Proof.
  unfold bind. destruct (m h) as [[a|e] e1]; [|reflexivity].
  destruct (k a (h ++ e1)) as [[b|e] e2]; [|reflexivity].
  rewrite <- app_assoc. destruct (k' b (h ++ e1 ++ e2)) as [o e3].
  now rewrite app_assoc.
Qed.

Lemma bind_existsSync {B} (W : World) (p : string) (k : bool -> M B) h :
  bind (existsSync W p) k h =
  (fst (k (fs_existsSync W p) (h ++ [EFs (FsExists p)])),
   EFs (FsExists p) :: snd (k (fs_existsSync W p) (h ++ [EFs (FsExists p)]))).
Proof.
  unfold existsSync. rewrite bind_assoc. unfold bind at 1. cbn [emit].
  rewrite bind_ret_l. now destruct (k _ _).
Qed.

(** With a file named on the command line and the workflows directory in
    place, the pass is the loop body run once, on that file. *)
Lemma workflowsSection_positional P C W API UI token p h :
  positionalJson W = Some p ->
  fs_existsSync W (WORKFLOWS_DIR C) = true ->
  workflowsSection P C W API UI token h =
  (section [Lit "Workflows"] ;;
   existsSync W (WORKFLOWS_DIR C) ;;
   counts <- ensureWorkflow P C W API UI token p (0, 0) ;;
   workflowsSummary C counts) h.
Proof.
  intros Hp Hdir. unfold workflowsSection, workflowFiles. rewrite Hp.
  apply bind_ext. intros _ h1. rewrite !bind_existsSync, Hdir. cbn [negb].
  rewrite bind_ret_l. cbn [for_of]. rewrite bind_assoc.
  erewrite bind_ext; [reflexivity|].
  intros st h2. cbv beta. now rewrite bind_ret_l.
Qed.

(** C10, as stated, fails twice.  Without the workflows directory the pass
    throws before it looks at the file named on the command line, and the
    run reads no file at all.  And an argument that is the value of
    [--forms-dir] is at once the forms directory and the workflow file, so
    the form pass is not unaffected by it. *)
Lemma positional_without_workflows_dir :
  let W := Scenario.bare ["extra.json"] Scenario.emptyServer in
  let V := Scenario.checkout ["--forms-dir"; "x.json"] Scenario.emptyServer in
  positionalJson W = Some "extra.json" /\
  workflowsSection Scenario.node (config (argv W)) W Scenario.api Scenario.ui
    Scenario.tok [] =
    (Throw (ErrWorkflowsDir "./workflows"),
     [ELog LSection [Lit "Workflows"]; EFs (FsExists "./workflows")]) /\
  fst (run Scenario.node W) = 1 /\
  filesRead (snd (run Scenario.node W)) = [] /\
  positionalJson V = Some "x.json" /\
  FORMS_DIR (config (argv V)) = "x.json" /\
  FORMS_DIR (config (Scenario.argvOf ["--forms-dir"])) = "./forms" /\
  head (fsOps (snd (formsSection Scenario.node (config (argv V)) V Scenario.api
                      Scenario.ui Scenario.tok []))) =
    Some (FsExists "x.json").
Proof. vm_compute. repeat split; reflexivity. Qed.

(** C10, amended: when some argument ends in [.json] and does not start
    with [-], the first such argument [p] is the only workflow file.  With
    the workflows directory in place the workflow pass is its loop body run
    once on [p]: it looks up the directory, reads the file at
    [path.resolve(p)] and touches nothing else on the disk, the directory
    is not listed.  Without the workflows directory the pass throws before
    it reads [p].  The other passes do not read the command line beyond the
    flags and directories, and those are the same with and without [p]
    wherever [p] does not directly follow [--workflows-dir],
    [--prompts-dir] or [--forms-dir]. *)
Theorem positional_workflow_file (P : Platform) (C : Config) (W : World) :
  (exists a, In a (argv W) /\ positional a = true) ->
  exists p,
    positionalJson W = Some p /\ In p (argv W) /\ positional p = true /\
    (forall h, workflowFiles C W h = (Ret [p], [])) /\
    theWorkflowFiles C W = [p] /\
    (forall API UI token st h,
        head (snd (ensureWorkflow P C W API UI token p st h)) =
        Some (EFs (FsReadFile (path_resolve P p)))) /\
    (forall API UI token h,
        if fs_existsSync W (WORKFLOWS_DIR C) then
          workflowsSection P C W API UI token h =
            (section [Lit "Workflows"] ;;
             existsSync W (WORKFLOWS_DIR C) ;;
             counts <- ensureWorkflow P C W API UI token p (0, 0) ;;
             workflowsSummary C counts) h /\
          fsOps (snd (workflowsSection P C W API UI token h)) =
            [FsExists (WORKFLOWS_DIR C); FsReadFile (path_resolve P p)]
        else
          workflowsSection P C W API UI token h =
            (Throw (ErrWorkflowsDir (WORKFLOWS_DIR C)),
             [ELog LSection [Lit "Workflows"];
              EFs (FsExists (WORKFLOWS_DIR C))])) /\
    (forall args,
        openaiSection P C (withArgv args W) = openaiSection P C W /\
        taskDefsSection P C (withArgv args W) = taskDefsSection P C W /\
        formsSection P C (withArgv args W) = formsSection P C W /\
        promptsSection P C (withArgv args W) = promptsSection P C W) /\
    (forall pre post,
        (forall flag, In flag valueFlags -> last pre <> Some flag) ->
        config (pre ++ p :: post) = config (pre ++ post)) /\
    (forall pre post,
        argv W = pre ++ p :: post ->
        (forall flag, In flag valueFlags -> last pre <> Some flag) ->
        let W' := withArgv (pre ++ post) W in
        openaiSection P (config (argv W')) W' = openaiSection P (config (argv W)) W /\
        taskDefsSection P (config (argv W')) W' =
          taskDefsSection P (config (argv W)) W /\
        formsSection P (config (argv W')) W' = formsSection P (config (argv W)) W /\
        promptsSection P (config (argv W')) W' =
          promptsSection P (config (argv W)) W).
Proof.
  intros Hex. destruct (find_positional _ Hex) as (p & Hfind & Hin & Hp).
  exists p.
  assert (Hpos : positionalJson W = Some p) by exact Hfind.
  assert (Hdash : Str.startsWith p "-" = false).
  { unfold positional in Hp. apply andb_true_iff in Hp as [_ Hp].
    now apply negb_true_iff in Hp. }
  split; [exact Hpos|]. split; [exact Hin|]. split; [exact Hp|].
  split; [intros h; unfold workflowFiles; now rewrite Hpos|].
  split; [unfold theWorkflowFiles; now rewrite Hpos|].
  split; [intros; now apply ensureWorkflow_reads with (a := p)|].
  split.
  { intros API UI token h.
    destruct (fs_existsSync W (WORKFLOWS_DIR C)) eqn:Hdir.
    - split; [now apply workflowsSection_positional|].
      rewrite (workflowsSection_positional P C W API UI token p h Hpos Hdir).
      rewrite fsOps_bind. cbn [section emit fst snd fsOps omap list_omap app].
      rewrite fsOps_bind. unfold existsSync at 1 2.
      unfold bind at 1 2. cbn [emit ret fst snd app fsOps omap list_omap].
      f_equal. rewrite fsOps_bind.
      rewrite (ensureWorkflow_fsOps P C W API UI token p (0, 0) _ p Hpos).
      destruct (fst (ensureWorkflow P C W API UI token p (0, 0) _)) as [st|];
        [|reflexivity].
      match goal with
      | |- _ ++ fsOps (snd (?m ?h')) = _ => rewrite (always_noFs m h'); [reflexivity|]
      end.
      no_line.
    - now apply workflowsSection_no_dir. }
  split; [intros args; repeat split; reflexivity|].
  split; [intros pre post Hlast; now apply config_insert|].
  intros pre post Hargv Hlast W'.
  assert (HC : config (argv W') = config (argv W)).
  { unfold W'. cbn [argv withArgv]. rewrite Hargv. symmetry.
    now apply config_insert. }
  rewrite HC. repeat split; reflexivity.
Qed.

Lemma positional_workflow_file_witness :
  let W := Scenario.checkout ["extra.json"] Scenario.emptyServer in
  positionalJson W = Some "extra.json" /\
  fsOps (snd (workflowsSection Scenario.node (config (argv W)) W Scenario.api
                Scenario.ui Scenario.tok [])) =
    [FsExists "./workflows"; FsReadFile "/work/extra.json"].
Proof.
  cbv zeta.
  destruct (positional_workflow_file Scenario.node
              (config (Scenario.argvOf ["extra.json"]))
              (Scenario.checkout ["extra.json"] Scenario.emptyServer))
    as (p & Hp & _ & _ & _ & _ & _ & Hpass & _).
  { exists "extra.json". split; [|reflexivity].
    right. right. left. reflexivity. }
  split; [reflexivity|].
  specialize (Hpass Scenario.api Scenario.ui Scenario.tok []).
  change (fs_existsSync _ _) with true in Hpass. cbv iota in Hpass.
  destruct Hpass as [_ Hfs].
  assert (E : p = "extra.json") by (vm_compute in Hp; congruence).
  rewrite E in Hfs. exact Hfs.
Defined.

(** ** C3: one batched call for the task definitions, one call each otherwise *)



(** ** C1: plan mode *)

(** C1, as stated, fails on the counts: in plan mode the OpenAI pass prints
    one line for each of the four models it would enable but no number at
    all, where apply mode prints the two model counts.  The other passes
    print a count only when they have something to count and get that far:
    in the same plan run the form pass, which finds no forms directory,
    returns without a number, and the workflow pass, which finds no
    workflows directory, throws without one; and against a server that has
    every task definition the task definition pass returns without a
    number. *)
Lemma plan_mode_reports_no_model_count :
  let Wp := Scenario.bare ["--plan"] Scenario.emptyServer in
  let Wa := Scenario.bare [] Scenario.emptyServer in
  let Wt := Scenario.bare ["--plan"] Machines.complete in
  let pass W :=
    openaiSection Scenario.node (config (argv W)) W Scenario.api Scenario.ui
      Scenario.tok [] in
  let forms :=
    formsSection Scenario.node (config (argv Wp)) Wp Scenario.api Scenario.ui
      Scenario.tok [] in
  let workflows :=
    workflowsSection Scenario.node (config (argv Wp)) Wp Scenario.api
      Scenario.ui Scenario.tok [] in
  let taskDefs :=
    taskDefsSection Scenario.node (config (argv Wt)) Wt WORKER_TASKS
      Scenario.api Scenario.ui Scenario.tok (VObj []) [] in
  PLAN (config (argv Wp)) = true /\
  fst (pass Wp) = Ret tt /\
  length (lines LPlan "Would enable model " (snd (pass Wp))) = 4 /\
  countsReported (snd (pass Wp)) = [] /\
  countsReported (snd (pass Wa)) = [4; 0] /\
  fst forms = Ret tt /\ countsReported (snd forms) = [] /\
  fst workflows = Throw (ErrWorkflowsDir "./workflows") /\
  countsReported (snd workflows) = [] /\
  PLAN (config (argv Wt)) = true /\
  fst taskDefs = Ret tt /\ countsReported (snd taskDefs) = [].
Proof. vm_compute. repeat split; reflexivity. Qed.

Lemma run_planSafe (P : Platform) (W : World) :
  PLAN (config (argv W)) = true ->
  Forall (planSafe (normalizeBaseApiUrl (env W))) (snd (run P W)).
Proof.
  intros HP. pose proof (main_planSafe P (config (argv W)) W HP []) as Hm.
  unfold run. destruct (main P (config (argv W)) W []) as [[u|e] evs];
    cbn [snd] in *; [exact Hm|].
  apply Forall_app. split; [exact Hm|]. repeat constructor.
Qed.

(** C1, amended: in plan mode every request that reaches the network is a
    [GET] or the [POST] to [<API>/token]; every other request is replaced by
    a plan line.  On a server with fixed answers each pass sends no write
    and still computes and prints its would-be-created count where it has
    one to print: the task definition pass always returns and prints the
    number of missing task definitions when at least one is missing (and no
    count line otherwise); the form pass, when it returns and there is at
    least one form file, prints the numbers of forms to create and to skip;
    the prompt pass and the workflow pass, when they return, print theirs.
    The OpenAI pass, when it returns, prints one would-create line for the
    integration and one for each model, and no count. *)
Theorem plan_mode_is_read_only (P : Platform) (W : World) :
  let C := config (argv W) in
  PLAN C = true ->
  Forall (planSafe (normalizeBaseApiUrl (env W))) (snd (run P W)) /\
  (static W ->
   forall (API UI : string) (token userInfo : value),
     (forall tasks h,
         let r := taskDefsSection P C W tasks API UI token userInfo h in
         let missing := missingTasks W API token tasks in
         fst r = Ret tt /\
         posts (snd r) = [] /\
         lines LPlan "Would register " (snd r) =
           match missing with
           | [] => []
           | _ :: _ =>
               [[Cnt (length missing); Lit " missing task definition(s)."]]
           end) /\
     (forall h e,
         formsSection P C W API UI token h = (Ret tt, e) ->
         theFormFiles C W <> [] ->
         let names := templateNames (remoteTemplates P W API token) in
         posts e = [] /\
         lines LPlan "Would create " e =
           [[Cnt (length (missingForms P C W names (theFormFiles C W)));
             Lit " form(s); would skip ";
             Cnt (length (existingForms P C W names (theFormFiles C W)));
             Lit " form(s)"]]) /\
     (forall prompts h e,
         promptsSection P C W prompts API UI token h = (Ret tt, e) ->
         posts e = [] /\
         lines LPlan "Would create " e =
           [[Cnt (length (missingPrompts P C W API token prompts));
             Lit " prompt(s); would skip ";
             Cnt (length (existingPrompts P C W API token prompts));
             Lit " prompt(s)"]]) /\
     (forall h e,
         workflowsSection P C W API UI token h = (Ret tt, e) ->
         posts e = [] /\
         lines LPlan "Would create " e =
           [[Cnt (length (missingWorkflows P C W API token (theWorkflowFiles C W)));
             Lit " workflow(s); would skip ";
             Cnt (length (existingWorkflows P C W API token (theWorkflowFiles C W)));
             Lit " workflow(s)"]]) /\
     (forall h e,
         openaiSection P C W API UI token h = (Ret tt, e) ->
         NO_OPENAI C = false ->
         posts e = [] /\
         lines LPlan "Would create OpenAI integration " e =
           [[Sub (openaiIntegrationName W)]] /\
         lines LPlan "Would enable model " e =
           map (fun m => [Sub m]) (openaiModels P W) /\
         countsReported e = [])).
Proof.
  cbv zeta. set (C := config (argv W)). intros HP.
  split; [now apply run_planSafe|].
  intros Hstatic API UI token userInfo. repeat split.
  - destruct (taskDefsSection_obs P C W Hstatic API token UI userInfo tasks h)
      as (_ & _ & _ & Hplan & _).
    now destruct (Hplan HP).
  - destruct (taskDefsSection_obs P C W Hstatic API token UI userInfo tasks h)
      as (Hp & _).
    now rewrite Hp, HP.
  - destruct (taskDefsSection_obs P C W Hstatic API token UI userInfo tasks h)
      as (_ & _ & _ & Hplan & _).
    now destruct (Hplan HP).
  - destruct (formsSection_ret P C W Hstatic API UI token h e) as (Hp & _);
      [assumption|].
    now rewrite Hp, HP.
  - destruct (formsSection_ret P C W Hstatic API UI token h e)
      as (_ & _ & _ & _ & Hs); [assumption|].
    match goal with Hf : theFormFiles _ _ <> [] |- _ => specialize (Hs Hf) end.
    now rewrite HP in Hs.
  - destruct (promptsSection_ret P C W Hstatic API UI token prompts h e)
      as (Hp & _); [assumption|].
    now rewrite Hp, HP.
  - destruct (promptsSection_ret P C W Hstatic API UI token prompts h e)
      as (_ & _ & _ & _ & Hs); [assumption|].
    now rewrite HP in Hs.
  - destruct (workflowsSection_ret P C W Hstatic API UI token h e)
      as (_ & Hp & _); [assumption|].
    now rewrite Hp, HP.
  - destruct (workflowsSection_ret P C W Hstatic API UI token h e)
      as (_ & _ & _ & _ & _ & Hs); [assumption|].
    now rewrite HP in Hs.
  - destruct (openaiSection_ret P C W Hstatic API UI token h e)
      as (key & _ & Hp & _); [assumption..|].
    now rewrite Hp, HP.
  - destruct (openaiSection_ret P C W Hstatic API UI token h e)
      as (key & _ & _ & _ & Hi & _); [assumption..|].
    now rewrite Hi, HP.
  - destruct (openaiSection_ret P C W Hstatic API UI token h e)
      as (key & _ & _ & _ & _ & Hm & _); [assumption..|].
    now rewrite Hm, HP.
  - pose proof (always_noCount (openaiSection P C W API UI token) h
                  (openaiSection_plan_noCount P C W API UI token HP)) as Hc.
    match goal with
    | Hr : openaiSection _ _ _ _ _ _ _ = _ |- _ => now rewrite Hr in Hc
    end.
Qed.

Lemma plan_mode_is_read_only_witness :
  let W := Scenario.checkout ["--plan"] Scenario.emptyServer in
  let C := config (argv W) in
  Forall (planSafe (normalizeBaseApiUrl (env W))) (snd (run Scenario.node W)) /\
  lines LPlan "Would create "
    (snd (formsSection Scenario.node C W Scenario.api Scenario.ui Scenario.tok []))
    = [[Cnt 2; Lit " form(s); would skip "; Cnt 0; Lit " form(s)"]].
Proof.
  pose proof (plan_mode_is_read_only Scenario.node
                (Scenario.checkout ["--plan"] Scenario.emptyServer) eq_refl)
    as [Hsafe Hcounts].
  split; [exact Hsafe|].
  destruct (Hcounts (Scenario.staticCheckout ["--plan"] Scenario.emptyServer)
              Scenario.api Scenario.ui Scenario.tok (VObj []))
    as (_ & Hforms & _).
  destruct (Hforms [] _ eq_refl) as [_ Hline].
  - vm_compute. discriminate.
  - exact Hline.
Defined.

(** ** C7: a document without a name *)

(** C7, as stated, fails on the count: with one nameless form among two
    valid ones, the form pass prints one warning, the number of forms created
    (2) and the number skipped as existing (0); no count of invalid documents
    is kept or printed. *)
Lemma no_skipped_invalid_count :
  let W := Scenario.checkout [] Scenario.emptyServer in
  let C := config (argv W) in
  let names := templateNames (remoteTemplates Scenario.node W Scenario.api Scenario.tok) in
  let r := formsSection Scenario.node C W Scenario.api Scenario.ui Scenario.tok [] in
  theFormFiles C W = ["intake.json"; "consent.json"; "draft.json"] /\
  namelessForms Scenario.node C W names (theFormFiles C W) = ["draft.json"] /\
  fst r = Ret tt /\
  lines LWarn "Skipping form (missing name): " (snd r) = [[Sub "draft.json"]] /\
  countsReported (snd r) = [2; 0].
Proof. vm_compute. repeat split; reflexivity. Qed.

(** C7, amended: when exactly one document of a pass (forms, workflows) has
    no name and the pass returns, the pass prints exactly one warning, for
    that document, and goes on; the document enters neither tally; the other
    N documents are each checked and, when missing, created with their own
    request in apply mode (reported as would-be-created in plan mode), and
    the two tallies the pass prints add up to N. *)
Theorem nameless_descriptor_skipped (P : Platform) (C : Config) (W : World)
    (API UI : string) (token : value) :
  static W ->
  (forall f0 h e,
      let files := theFormFiles C W in
      let names := templateNames (remoteTemplates P W API token) in
      let missing := missingForms P C W names files in
      let existing := existingForms P C W names files in
      formsSection P C W API UI token h = (Ret tt, e) ->
      namelessForms P C W names files = [f0] ->
      lines LWarn "Skipping form (missing name): " e = [[Sub f0]] /\
      length missing + length existing + 1 = length files /\
      posts e =
        (if PLAN C then []
         else map (fun nd => formRequest API token (snd nd)) missing) /\
      createdLines (PLAN C) "form template" e =
        map (fun nd => [Val (fst nd)]) missing /\
      lines LOk "Form template exists: " e = map (fun n => [Val n]) existing /\
      (if PLAN C then
         lines LPlan "Would create " e =
           [[Cnt (length missing); Lit " form(s); would skip ";
             Cnt (length existing); Lit " form(s)"]]
       else
         lines LOk "Forms created: " e = [[Cnt (length missing)]] /\
         lines LOk "Forms skipped (already existed): " e =
           [[Cnt (length existing)]])) /\
  (forall f0 h e,
      let files := theWorkflowFiles C W in
      let missing := missingWorkflows P C W API token files in
      let existing := existingWorkflows P C W API token files in
      workflowsSection P C W API UI token h = (Ret tt, e) ->
      namelessWorkflows P C W API token files = [f0] ->
      lines LWarn "Skipping workflow (missing name): " e = [[Sub f0]] /\
      length missing + length existing + 1 = length files /\
      posts e =
        (if PLAN C then []
         else map (fun nd => workflowRequest API token (snd nd)) missing) /\
      createdLines (PLAN C) "workflow" e =
        map (fun nd => [Val (fst nd)]) missing /\
      lines LOk "Workflow exists: " e =
        map (fun n => [Val n; Lit " (skipping)"]) existing /\
      (if PLAN C then
         lines LPlan "Would create " e =
           [[Cnt (length missing); Lit " workflow(s); would skip ";
             Cnt (length existing); Lit " workflow(s)"]]
       else
         lines LOk "Workflows created: " e = [[Cnt (length missing)]] /\
         lines LOk "Workflows skipped (already existed): " e =
           [[Cnt (length existing)]])).
Proof.
  intros Hstatic. split.
  - intros f0 h e files names missing existing He Hone.
    pose proof (formsSection_count P C W Hstatic API UI token h e He) as Hcount.
    destruct (formsSection_ret P C W Hstatic API UI token h e He)
      as (Hp & Hex & Hcr & Hsk & Hsum).
    cbv zeta in Hcount. fold files names in Hcount, Hp, Hex, Hcr, Hsk, Hsum.
    fold missing existing in Hcount, Hp, Hex, Hcr, Hsum.
    rewrite Hone in Hsk, Hcount. cbn [map length] in Hsk, Hcount.
    assert (Hfiles : files <> []) by (intros E; rewrite E in Hcount; cbn in Hcount; lia).
    specialize (Hsum Hfiles).
    repeat split; try assumption; try lia.
  - intros f0 h e files missing existing He Hone.
    pose proof (workflowsSection_count P C W API UI token h e He) as Hcount.
    destruct (workflowsSection_ret P C W Hstatic API UI token h e He)
      as (_ & Hp & Hex & Hcr & Hsk & Hsum).
    cbv zeta in Hcount. fold files in Hcount, Hp, Hex, Hcr, Hsk, Hsum.
    fold missing existing in Hcount, Hp, Hex, Hcr, Hsum.
    rewrite Hone in Hsk, Hcount. cbn [map length] in Hsk, Hcount.
    repeat split; try assumption; try lia.
Qed.

Lemma nameless_descriptor_skipped_witness :
  let W := Scenario.checkout [] Scenario.emptyServer in
  let C := config (argv W) in
  lines LWarn "Skipping form (missing name): "
    (snd (formsSection Scenario.node C W Scenario.api Scenario.ui Scenario.tok []))
  = [[Sub "draft.json"]].
Proof.
  cbv zeta.
  apply (proj1 (nameless_descriptor_skipped Scenario.node
                  (config (Scenario.argvOf []))
                  (Scenario.checkout [] Scenario.emptyServer)
                  Scenario.api Scenario.ui Scenario.tok
                  (Scenario.staticCheckout [] Scenario.emptyServer))
               "draft.json" []).
  - vm_compute. reflexivity.
  - vm_compute. reflexivity.
Defined.

(** ** C4: plan mode against apply mode *)

(** C4, as stated, fails for the OpenAI integration: against the same
    server, on which the integration exists, the apply run finds it existing
    and the plan run reports it as to be created. *)
Lemma plan_apply_integration_differ :
  let apply := snd (run Scenario.node (Scenario.bare [] Scenario.provisioned)) in
  let plan :=
    snd (run Scenario.node (Scenario.bare ["--plan"] Scenario.provisioned)) in
  lines LOk "OpenAI integration already exists: " apply = [[Sub "openai"]] /\
  lines LOk "Created OpenAI integration: " apply = [] /\
  lines LOk "OpenAI integration already exists: " plan = [] /\
  lines LPlan "Would create OpenAI integration " plan = [[Sub "openai"]].
Proof. vm_compute. repeat split; reflexivity. Qed.

(** C4, amended: on a server with fixed answers, for the task definitions,
    the forms, the prompts and the workflows, a plan pass and an apply pass
    that both return report the same resources as existing and the same
    resources as missing, in the same order, and print the same tallies; the
    plan pass sends no write and the apply pass one batched write (task
    definitions) or one write per missing resource.  For the OpenAI
    integration and its models the plan pass performs no existence check:
    it sends no request at all, whatever happened before and however it
    ends, and a plan pass that returns reports the integration and every
    model as to be created. *)
Theorem plan_apply_parity (P : Platform) (C : Config) (W : World)
    (API UI : string) (token userInfo : value) :
  static W ->
  let Cp := withPlan true C in
  let Ca := withPlan false C in
  (forall tasks hp ha,
      let rp := taskDefsSection P Cp W tasks API UI token userInfo hp in
      let ra := taskDefsSection P Ca W tasks API UI token userInfo ha in
      lines LOk "TaskDef exists: " (snd rp) = lines LOk "TaskDef exists: " (snd ra) /\
      lines LWarn "TaskDef missing: " (snd rp) =
        lines LWarn "TaskDef missing: " (snd ra) /\
      posts (snd rp) = [] /\
      length (posts (snd ra)) =
        (if length (missingTasks W API token tasks) =? 0 then 0 else 1)%nat /\
      (fst ra = Ret tt ->
       lines LPlan "Would register " (snd rp) = lines LOk "Registered " (snd ra))) /\
  (forall hp ha ep ea,
      formsSection P Cp W API UI token hp = (Ret tt, ep) ->
      formsSection P Ca W API UI token ha = (Ret tt, ea) ->
      lines LOk "Form template exists: " ep = lines LOk "Form template exists: " ea /\
      createdLines true "form template" ep = createdLines false "form template" ea /\
      posts ep = [] /\
      length (posts ea) = length (createdLines false "form template" ea) /\
      (theFormFiles C W <> [] ->
       exists created skipped,
         lines LPlan "Would create " ep =
           [[Cnt created; Lit " form(s); would skip "; Cnt skipped; Lit " form(s)"]] /\
         lines LOk "Forms created: " ea = [[Cnt created]] /\
         lines LOk "Forms skipped (already existed): " ea = [[Cnt skipped]] /\
         length (posts ea) = created)) /\
  (forall prompts hp ha ep ea,
      promptsSection P Cp W prompts API UI token hp = (Ret tt, ep) ->
      promptsSection P Ca W prompts API UI token ha = (Ret tt, ea) ->
      lines LOk "Prompt exists: " ep = lines LOk "Prompt exists: " ea /\
      createdLines true "prompt" ep = createdLines false "prompt" ea /\
      posts ep = [] /\
      exists created skipped,
        lines LPlan "Would create " ep =
          [[Cnt created; Lit " prompt(s); would skip "; Cnt skipped;
            Lit " prompt(s)"]] /\
        lines LOk "Prompts created: " ea = [[Cnt created]] /\
        lines LOk "Prompts skipped (already existed): " ea = [[Cnt skipped]] /\
        length (posts ea) = created) /\
  (forall hp ha ep ea,
      workflowsSection P Cp W API UI token hp = (Ret tt, ep) ->
      workflowsSection P Ca W API UI token ha = (Ret tt, ea) ->
      lines LOk "Workflow exists: " ep = lines LOk "Workflow exists: " ea /\
      createdLines true "workflow" ep = createdLines false "workflow" ea /\
      posts ep = [] /\
      exists created skipped,
        lines LPlan "Would create " ep =
          [[Cnt created; Lit " workflow(s); would skip "; Cnt skipped;
            Lit " workflow(s)"]] /\
        lines LOk "Workflows created: " ea = [[Cnt created]] /\
        lines LOk "Workflows skipped (already existed): " ea = [[Cnt skipped]] /\
        length (posts ea) = created) /\
  (forall hp,
      fetches (snd (openaiSection P Cp W API UI token hp)) = []) /\
  (forall hp ep,
      openaiSection P Cp W API UI token hp = (Ret tt, ep) ->
      NO_OPENAI C = false ->
      posts ep = [] /\
      lines LOk "OpenAI integration already exists: " ep = [] /\
      lines LPlan "Would create OpenAI integration " ep =
        [[Sub (openaiIntegrationName W)]] /\
      lines LPlan "Would enable model " ep =
        map (fun m => [Sub m]) (openaiModels P W)).
Proof.
  intros Hstatic Cp Ca. split; [|split; [|split; [|split; [|split]]]].
  - intros tasks hp ha rp ra.
    destruct (taskDefsSection_obs P Cp W Hstatic API token UI userInfo tasks hp)
      as (Pp & Pe & Pm & Pplan & _).
    destruct (taskDefsSection_obs P Ca W Hstatic API token UI userInfo tasks ha)
      as (Ap & Ae & Am & _ & Aapply).
    fold rp in Pp, Pe, Pm, Pplan. fold ra in Ap, Ae, Am, Aapply.
    cbn [PLAN Cp Ca withPlan] in *.
    destruct (Pplan eq_refl) as [_ Pw].
    repeat split.
    + now rewrite Pe, Ae.
    + now rewrite Pm, Am.
    + exact Pp.
    + rewrite Ap. now destruct (missingTasks W API token tasks).
    + intros Hret. now rewrite Pw, (Aapply eq_refl Hret).
  - intros hp ha ep ea Hp Ha.
    destruct (formsSection_ret P Cp W Hstatic API UI token hp ep Hp)
      as (Pp & Pe & Pc & _ & Ps).
    destruct (formsSection_ret P Ca W Hstatic API UI token ha ea Ha)
      as (Ap & Ae & Ac & _ & As).
    cbn [PLAN Cp Ca withPlan] in *.
    repeat split.
    + now rewrite Pe, Ae.
    + now rewrite Pc, Ac.
    + exact Pp.
    + now rewrite Ap, Ac, !length_map.
    + intros Hfiles. specialize (Ps Hfiles). destruct (As Hfiles) as [As1 As2].
      eexists _, _. split; [exact Ps|]. split; [exact As1|]. split; [exact As2|].
      now rewrite Ap, length_map.
  - intros prompts hp ha ep ea Hp Ha.
    destruct (promptsSection_ret P Cp W Hstatic API UI token prompts hp ep Hp)
      as (Pp & Pe & Pc & _ & Ps).
    destruct (promptsSection_ret P Ca W Hstatic API UI token prompts ha ea Ha)
      as (Ap & Ae & Ac & _ & As1 & As2).
    cbn [PLAN Cp Ca withPlan] in *.
    repeat split.
    + now rewrite Pe, Ae.
    + now rewrite Pc, Ac.
    + exact Pp.
    + eexists _, _. split; [exact Ps|]. split; [exact As1|]. split; [exact As2|].
      now rewrite Ap, length_map.
  - intros hp ha ep ea Hp Ha.
    destruct (workflowsSection_ret P Cp W Hstatic API UI token hp ep Hp)
      as (_ & Pp & Pe & Pc & _ & Ps).
    destruct (workflowsSection_ret P Ca W Hstatic API UI token ha ea Ha)
      as (_ & Ap & Ae & Ac & _ & As1 & As2).
    cbn [PLAN Cp Ca withPlan] in *.
    repeat split.
    + now rewrite Pe, Ae.
    + now rewrite Pc, Ac.
    + exact Pp.
    + eexists _, _. split; [exact Ps|]. split; [exact As1|]. split; [exact As2|].
      now rewrite Ap, length_map.
  - intros hp. apply always_silent.
    now apply openaiSection_plan_silent.
  - intros hp ep Hp Hno.
    destruct (openaiSection_ret P Cp W Hstatic API UI token hp ep Hp Hno)
      as (key & _ & Pp & Pe & Pi & Pm & _).
    cbn [PLAN Cp withPlan orb negb andb] in *.
    repeat split; assumption.
Qed.

Lemma plan_apply_parity_witness :
  let W := Scenario.checkout [] Scenario.emptyServer in
  let C := config (argv W) in
  let plan :=
    snd (formsSection Scenario.node (withPlan true C) W Scenario.api Scenario.ui
           Scenario.tok []) in
  let apply :=
    snd (formsSection Scenario.node (withPlan false C) W Scenario.api Scenario.ui
           Scenario.tok []) in
  createdLines true "form template" plan = createdLines false "form template" apply.
Proof.
  cbv zeta.
  apply (proj1 (proj2 (plan_apply_parity Scenario.node
                  (config (Scenario.argvOf []))
                  (Scenario.checkout [] Scenario.emptyServer)
                  Scenario.api Scenario.ui Scenario.tok (VObj [])
                  (Scenario.staticCheckout [] Scenario.emptyServer))) [] []).
  - vm_compute. reflexivity.
  - vm_compute. reflexivity.
Defined.

(** * Further properties *)

(** ** The environment file *)

Module DotEnvFacts.
Import DotEnv.

(** A loop whose body only computes is a fold. *)
Lemma for_of_pure {X St} (f : X -> St -> St) (xs : list X) (st : St) h :
  for_of xs (fun x s => ret (f x s)) st h =
  (Ret (fold_left (fun s x => f x s) xs st), []).
Proof.
  revert st h. induction xs as [|x xs IH]; intros st h; [reflexivity|].
  cbn [for_of fold_left]. unfold bind, ret at 1. now rewrite IH.
Qed.

(** What one line does to the value of one name. *)
Lemma loadLine_lookup (P : Platform) (line : string) (e : gmap string string)
    (k : string) :
  loadLine P line e !! k =
  match e !! k with
  | Some v => Some v
  | None =>
      if settable k then firstFor k (option_list (parseLine P line)) else None
  end.
Proof.
  unfold loadLine, firstFor.
  destruct (parseLine P line) as [[k' v']|]; cbn [option_list option_rect List.find fst].
  2: { destruct (e !! k); [reflexivity|]. now destruct (settable k). }
  unfold envHas, envSet, settable.
  destruct (String.eqb_spec k' k) as [->|Hne].
  - destruct (e !! k) as [v|] eqn:Ek.
    + rewrite bool_decide_eq_true_2 by eauto. cbn [orb]. exact Ek.
    + rewrite bool_decide_eq_false_2 by (intros [? ?]; congruence). cbn [orb].
      destruct (Js.includes inheritedNames k); cbn [negb andb];
        [now rewrite Ek, andb_false_r|].
      destruct (String.eqb k ""); cbn [negb andb fmap option_fmap option_map snd];
        [exact Ek|].
      now rewrite lookup_insert_eq.
  - assert (Hk : (if String.eqb k' "" then e else <[k' := v']> e) !! k = e !! k).
    { destruct (String.eqb k' ""); [reflexivity|].
      now rewrite lookup_insert_ne. }
    destruct (bool_decide _ || _); [|rewrite Hk];
      (destruct (e !! k); [reflexivity|]);
      now destruct (negb (String.eqb k "") && negb (Js.includes inheritedNames k)).
Qed.

(** What the whole loop does to the value of one name. *)
Lemma loop_lookup (P : Platform) (ls : list string) (e : gmap string string)
    (k : string) :
  fold_left (fun e' line => loadLine P line e') ls e !! k =
  match e !! k with
  | Some v => Some v
  | None => if settable k then firstFor k (omap (parseLine P) ls) else None
  end.
Proof.
  revert e. induction ls as [|l ls IH]; intros e; cbn [fold_left].
  - destruct (e !! k), (settable k); reflexivity.
  - rewrite IH, loadLine_lookup. cbn [omap list_omap].
    destruct (e !! k); [reflexivity|].
    destruct (settable k); [|reflexivity].
    destruct (parseLine P l) as [[k' v']|]; cbn [option_list option_rect];
      [|reflexivity].
    unfold firstFor. cbn [List.find fst]. now destruct (String.eqb k' k).
Qed.

(** What [loadDotEnvIfPresent] comes to. *)
Lemma load_cases (P : Platform) (W : World) (path : string)
    (e : gmap string string) h :
  loadDotEnvIfPresent P W path e h =
  if fs_existsSync W path then
    match fs_readFileSync W path with
    | Some content =>
        (Ret (fold_left (fun e' line => loadLine P line e')
                (Str.splitOn newline content) e),
         [EFs (FsExists path); EFs (FsReadFile path)])
    | None =>
        (Throw (ErrFs (FsReadFile path)),
         [EFs (FsExists path); EFs (FsReadFile path)])
    end
  else (Ret e, [EFs (FsExists path)]).
Proof.
  unfold loadDotEnvIfPresent, existsSync, readText.
  unfold bind at 1. unfold bind at 1. cbn [emit ret app].
  destruct (fs_existsSync W path); cbn [negb]; [|reflexivity].
  unfold bind at 1. unfold bind at 1. cbn [emit app].
  destruct (fs_readFileSync W path) as [content|]; [|reflexivity].
  cbn [ret]. now rewrite for_of_pure.
Qed.

End DotEnvFacts.

(** X1.  The environment file never changes a variable that is already set:
    whatever the file holds, every name of the environment keeps its
    value. *)
Theorem dotenv_keeps_environment (P : Platform) (W : World) (path : string)
    (e e' : gmap string string) (h evs : list event) :
  DotEnv.loadDotEnvIfPresent P W path e h = (Ret e', evs) ->
  forall k v, e !! k = Some v -> e' !! k = Some v.
Proof.
  rewrite DotEnvFacts.load_cases. intros H k v Hk.
  destruct (fs_existsSync W path); [|now injection H as <- _].
  destruct (fs_readFileSync W path) as [content|]; [|discriminate].
  injection H as <- _. now rewrite DotEnvFacts.loop_lookup, Hk.
Qed.

Lemma dotenv_keeps_environment_witness :
  EnvFile.loaded !! "CONDUCTOR_SERVER_URL" = Some "https://shell".
Proof.
  apply (dotenv_keeps_environment Scenario.node EnvFile.world ".env"
           EnvFile.shell EnvFile.loaded []
           [EFs (FsExists ".env"); EFs (FsReadFile ".env")]).
  - vm_compute. reflexivity.
  - reflexivity.
Defined.

(** X2.  When the file is there and can be read, a name that is not set
    gets the value of the first line that defines it, unless it is the
    empty name or a name every object inherits; the file is looked up once
    and read once.  When the file is not there nothing is read and the
    environment is left as it is. *)
Theorem dotenv_first_definition (P : Platform) (W : World) (path : string)
    (e : gmap string string) (h : list event) :
  match fs_existsSync W path, fs_readFileSync W path with
  | true, Some content =>
      exists e',
        DotEnv.loadDotEnvIfPresent P W path e h =
          (Ret e', [EFs (FsExists path); EFs (FsReadFile path)]) /\
        forall k,
          e' !! k =
          match e !! k with
          | Some v => Some v
          | None =>
              if DotEnv.settable k
              then DotEnv.firstFor k (DotEnv.entries P content)
              else None
          end
  | true, None =>
      DotEnv.loadDotEnvIfPresent P W path e h =
        (Throw (ErrFs (FsReadFile path)),
         [EFs (FsExists path); EFs (FsReadFile path)])
  | false, _ =>
      DotEnv.loadDotEnvIfPresent P W path e h = (Ret e, [EFs (FsExists path)])
  end.
Proof.
  rewrite DotEnvFacts.load_cases.
  destruct (fs_existsSync W path); [|reflexivity].
  destruct (fs_readFileSync W path) as [content|]; [|reflexivity].
  eexists. split; [reflexivity|].
  intros k. apply DotEnvFacts.loop_lookup.
Qed.

Lemma dotenv_first_definition_witness :
  EnvFile.loaded !! "OPENAI_API_KEY" = Some "sk-file" /\
  EnvFile.loaded !! "CONDUCTOR_SERVER_URL" = Some "https://shell" /\
  EnvFile.loaded !! "not a definition" = None.
Proof.
  pose proof (dotenv_first_definition Scenario.node EnvFile.world ".env"
                EnvFile.shell []) as H.
  change (fs_existsSync EnvFile.world ".env") with true in H.
  change (fs_readFileSync EnvFile.world ".env") with (Some EnvFile.content) in H.
  cbv iota in H. destruct H as (e' & Hload & Hlook).
  unfold EnvFile.loaded. rewrite Hload. cbn [fst].
  rewrite !Hlook. vm_compute. repeat split; reflexivity.
Defined.

(** X3.  Loading the same file a second time changes nothing. *)
Theorem dotenv_idempotent (P : Platform) (W : World) (path : string)
    (e e1 e2 : gmap string string) (h1 h2 evs1 evs2 : list event) :
  DotEnv.loadDotEnvIfPresent P W path e h1 = (Ret e1, evs1) ->
  DotEnv.loadDotEnvIfPresent P W path e1 h2 = (Ret e2, evs2) ->
  e2 = e1.
Proof.
  rewrite !DotEnvFacts.load_cases.
  destruct (fs_existsSync W path); [|now intros _ [= <- _]].
  destruct (fs_readFileSync W path) as [content|]; [|discriminate].
  intros [= <- _] [= <- _]. apply map_eq. intros k.
  rewrite DotEnvFacts.loop_lookup.
  destruct (fold_left _ _ e !! k) as [v|] eqn:E; [reflexivity|].
  rewrite DotEnvFacts.loop_lookup in E.
  destruct (e !! k); [discriminate|].
  destruct (DotEnv.settable k); [now rewrite E | reflexivity].
Qed.

Lemma dotenv_idempotent_witness :
  fst (DotEnv.loadDotEnvIfPresent Scenario.node EnvFile.world ".env"
         EnvFile.loaded []) = Ret EnvFile.loaded.
Proof.
  destruct (DotEnv.loadDotEnvIfPresent Scenario.node EnvFile.world ".env"
              EnvFile.loaded []) as [[e2|err] evs2] eqn:E2; cbn [fst].
  - f_equal.
    apply (dotenv_idempotent Scenario.node EnvFile.world ".env" EnvFile.shell
             EnvFile.loaded e2 [] []
             [EFs (FsExists ".env"); EFs (FsReadFile ".env")] evs2);
      [vm_compute; reflexivity | exact E2].
  - rewrite DotEnvFacts.load_cases in E2.
    change (fs_existsSync EnvFile.world ".env") with true in E2.
    change (fs_readFileSync EnvFile.world ".env") with (Some EnvFile.content) in E2.
    discriminate E2.
Defined.

Module SliceFacts.
Import DotEnv.

Lemma substring_append (s t : string) :
  String.substring 0 (String.length s) (s +:+ t) = s.
Proof. induction s as [|c s IH]; [now destruct t | simpl; now rewrite IH]. Qed.

Lemma sliceFrom_append (s t : string) (c : ascii) :
  sliceFrom (String.length s + 1) (s +:+ String c t) = t.
Proof. induction s as [|x s IH]; [reflexivity | exact IH]. Qed.

Lemma indexOf_append (c : ascii) (s t : string) :
  indexOf c s = None -> indexOf c (s +:+ String c t) = Some (String.length s).
Proof.
  induction s as [|x s IH].
  - intros _. change (EmptyString +:+ String c t) with (String c t).
    cbn [indexOf String.length]. now rewrite Ascii.eqb_refl.
  - change (String x s +:+ String c t) with (String x (s +:+ String c t)).
    cbn [indexOf String.length].
    destruct (Ascii.eqb x c); [discriminate|].
    destruct (indexOf c s); [discriminate|]. intros _. now rewrite IH.
Qed.

Lemma endsWith_last (s : string) (q : ascii) :
  Str.endsWith (s +:+ String q EmptyString) (String q EmptyString) = true.
Proof.
  rewrite StrFacts.endsWith_append by reflexivity.
  cbn [Str.endsWith]. now rewrite String.eqb_refl.
Qed.

Lemma startsWith_first (s : string) (q : ascii) :
  Str.startsWith (String q s) (String q EmptyString) = true.
Proof.
  unfold Str.startsWith. cbn [String.prefix].
  destruct (ascii_dec q q); [now destruct s | congruence].
Qed.

(** A value between two quotation marks of the same kind loses them and
    nothing else. *)
Lemma unquote_wrapped (q : ascii) (s : string) :
  q = dquote \/ q = squote ->
  unquote (String q (s +:+ String q EmptyString)) = s.
Proof.
  intros Hq. unfold unquote.
  assert (Hw : wrappedIn q (String q (s +:+ String q EmptyString)) = true).
  { unfold wrappedIn. rewrite startsWith_first. cbn [andb].
    change (String q (s +:+ String q EmptyString))
      with (String q s +:+ String q EmptyString).
    apply endsWith_last. }
  assert (Hor : wrappedIn dquote (String q (s +:+ String q EmptyString)) ||
                wrappedIn squote (String q (s +:+ String q EmptyString)) = true).
  { destruct Hq as [-> | ->]; rewrite Hw; [reflexivity | apply orb_true_r]. }
  rewrite Hor. unfold sliceInner.
  cbn [String.length String.substring].
  rewrite StrFacts.length_append. cbn [String.length].
  replace (S (String.length s + 1) - 2) with (String.length s) by lia.
  apply substring_append.
Qed.

Lemma startsWith_append (k t : string) (c x : ascii) :
  Str.startsWith k (String c EmptyString) = false -> x <> c ->
  Str.startsWith (k +:+ String x t) (String c EmptyString) = false.
Proof.
  unfold Str.startsWith. destruct k as [|y k].
  - intros _ Hx. change (EmptyString +:+ String x t) with (String x t).
    cbn [String.prefix]. destruct (ascii_dec c x); [congruence | reflexivity].
  - change (String y k +:+ String x t) with (String y (k +:+ String x t)).
    cbn [String.prefix]. destruct (ascii_dec c y); [|reflexivity].
    now destruct k.
Qed.

End SliceFacts.

(** X4.  A line [KEY="value"] or [KEY='value'] without surrounding white
    space defines [KEY] as [value], whatever the value holds between the
    two marks: inner quotation marks and further [=] signs are kept. *)
Theorem dotenv_quoted_line (P : Platform) (q : ascii) (k s : string) :
  let v := String q (s +:+ String q EmptyString) in
  let line := k +:+ String "=" v in
  q = DotEnv.dquote \/ q = DotEnv.squote ->
  DotEnv.indexOf "=" k = None ->
  Str.startsWith k "#" = false ->
  String_trim P line = line -> String_trim P k = k -> String_trim P v = v ->
  DotEnv.parseLine P line = Some (k, s).
Proof.
  cbv zeta. intros Hq Hk Hhash Hline Hkt Hvt. unfold DotEnv.parseLine.
  rewrite Hline.
  assert (Hne : String.eqb (k +:+ String "=" (String q (s +:+ String q EmptyString)))
                  "" = false) by now destruct k.
  rewrite Hne, SliceFacts.startsWith_append by (assumption || discriminate).
  cbn [orb]. rewrite SliceFacts.indexOf_append by assumption.
  unfold DotEnv.sliceTo.
  rewrite SliceFacts.substring_append, SliceFacts.sliceFrom_append, Hkt, Hvt.
  now rewrite SliceFacts.unquote_wrapped.
Qed.

Lemma dotenv_quoted_line_witness :
  DotEnv.parseLine Scenario.node
    ("OPENAI_API_KEY" +:+
     String "=" (String DotEnv.dquote ("sk=1" +:+ String DotEnv.dquote EmptyString)))
  = Some ("OPENAI_API_KEY", "sk=1").
Proof.
  apply (dotenv_quoted_line Scenario.node DotEnv.dquote "OPENAI_API_KEY" "sk=1");
    first [left; reflexivity | reflexivity].
Defined.

(** ** The command line *)

Module ArgFacts.

Lemma indexOf_absent (xs : list string) (x : string) :
  ~ In x xs -> Js.indexOf xs x = None.
Proof.
  induction xs as [|y xs IH]; [reflexivity|]. cbn [Js.indexOf In].
  intros Hn. destruct (String.eqb_spec y x) as [->|_]; [tauto|].
  rewrite IH by tauto. reflexivity.
Qed.

Lemma indexOf_first (pre post : list string) (x : string) :
  ~ In x pre -> Js.indexOf (pre ++ x :: post) x = Some (length pre).
Proof.
  induction pre as [|y pre IH]; cbn [Js.indexOf In app length].
  - now rewrite String.eqb_refl.
  - intros Hn. destruct (String.eqb_spec y x) as [->|_]; [tauto|].
    rewrite IH by tauto. reflexivity.
Qed.

End ArgFacts.

(** X5.  An option takes the argument after its first occurrence, whatever
    that argument is and whatever follows; an option given as the last
    argument, or not given, takes its default. *)
Theorem argValue_first_occurrence (pre post : list string)
    (flag v fallback : string) :
  ~ In flag pre ->
  argValue (pre ++ flag :: v :: post) flag fallback = v /\
  argValue (pre ++ [flag]) flag fallback = fallback /\
  argValue pre flag fallback = fallback.
Proof.
  intros Hn. unfold argValue.
  rewrite !ArgFacts.indexOf_first, ArgFacts.indexOf_absent by assumption.
  repeat split.
  - rewrite lookup_app_r by lia.
    now replace (length pre + 1 - length pre) with 1 by lia.
  - rewrite lookup_app_r by lia.
    now replace (length pre + 1 - length pre) with 1 by lia.
Qed.

Lemma argValue_first_occurrence_witness :
  argValue (Scenario.argvOf ["--forms-dir"; "--plan"; "--forms-dir"; "later"])
    "--forms-dir" "./forms" = "--plan" /\
  argValue (Scenario.argvOf ["--forms-dir"]) "--forms-dir" "./forms" = "./forms" /\
  argValue (Scenario.argvOf []) "--forms-dir" "./forms" = "./forms".
Proof.
  apply (argValue_first_occurrence (Scenario.argvOf [])
           ["--forms-dir"; "later"] "--forms-dir" "--plan" "./forms").
  cbn. intuition discriminate.
Defined.

(** ** Required environment variables *)

(** X6.  [mustEnv] gives the value, as it is, of the first name in the list
    whose value is neither empty nor blank, without printing, reading or
    requesting anything; when there is no such name it throws and the error
    lists every name that was tried. *)
Theorem mustEnv_first_usable (P : Platform) (W : World) (names : list string)
    (h : list event) :
  match List.find (usable P W) names with
  | Some n =>
      exists v,
        env W !! n = Some v /\ v <> "" /\ String_trim P v <> "" /\
        mustEnv P W names h = (Ret v, [])
  | None => mustEnv P W names h = (Throw (ErrMissingEnv names), [])
  end.
Proof.
  unfold mustEnv.
  assert (H : match List.find (usable P W) names with
              | Some n =>
                  exists v, env W !! n = Some v /\ v <> "" /\
                            String_trim P v <> "" /\
                            firstSetEnv P W names = Some v
              | None => firstSetEnv P W names = None
              end).
  { induction names as [|n names IH]; [reflexivity|].
    cbn [List.find firstSetEnv]. unfold usable at 1.
    destruct (env W !! n) as [v|] eqn:En; [|exact IH].
    destruct (String.eqb_spec v ""); cbn [negb andb]; [exact IH|].
    destruct (String.eqb_spec (String_trim P v) ""); cbn [negb]; [exact IH|].
    exists v. auto. }
  destruct (List.find (usable P W) names).
  - destruct H as (v & ? & ? & ? & ->). exists v. auto.
  - now rewrite H.
Qed.

(** ** The OpenAI models *)

Module SplitFacts.

Lemma splitOn_nonempty (sep : ascii) (s : string) : Str.splitOn sep s <> [].
Proof.
  induction s as [|c s IH]; [discriminate|]. cbn [Str.splitOn].
  destruct (Ascii.eqb c sep); [discriminate|].
  now destruct (Str.splitOn sep s).
Qed.

(** No piece holds the separator. *)
Lemma splitOn_pieces (sep : ascii) (s : string) :
  Forall (fun p => DotEnv.indexOf sep p = None) (Str.splitOn sep s).
Proof.
  induction s as [|c s IH]; [repeat constructor|]. cbn [Str.splitOn].
  destruct (Ascii.eqb c sep) eqn:Ec; [now constructor|].
  destruct (Str.splitOn sep s) as [|w ws]; [repeat constructor; cbn; now rewrite Ec|].
  inversion IH as [|? ? Hw Hws]; subst. constructor; [|assumption].
  cbn [DotEnv.indexOf]. now rewrite Ec, Hw.
Qed.

End SplitFacts.

(** X7.  No model name is empty.  When [OPENAI_MODELS] is unset or empty
    the models are the four defaults; otherwise each model is the trimmed
    form of one comma-free piece of the variable, so a variable made only of
    commas and blanks gives no model at all rather than the defaults. *)
Theorem openaiModels_names (P : Platform) (W : World) :
  Forall (fun m => m <> "") (openaiModels P W) /\
  match env_truthy (env W) "OPENAI_MODELS" with
  | None => openaiModels P W = DEFAULT_OPENAI_MODELS
  | Some s =>
      Forall (fun m => exists piece,
                  In piece (Str.splitOn "," s) /\
                  DotEnv.indexOf "," piece = None /\
                  m = String_trim P piece)
             (openaiModels P W) /\
      (Forall (fun piece => String_trim P piece = "") (Str.splitOn "," s) ->
       openaiModels P W = [])
  end.
Proof.
  unfold openaiModels.
  destruct (env_truthy (env W) "OPENAI_MODELS") as [s|].
  - pose proof (SplitFacts.splitOn_pieces "," s) as Hp.
    induction (Str.splitOn "," s) as [|p ps IH];
      [repeat split; intros; constructor|].
    inversion Hp as [|? ? Hp1 Hps]; subst.
    destruct (IH Hps) as (I1 & I2 & I3). cbn [map List.filter].
    destruct (String.eqb_spec (String_trim P p) "") as [E|E]; cbn [negb].
    + split; [exact I1|]. split.
      * eapply Forall_impl; [exact I2|].
        intros m (q & ? & ? & ?). exists q. cbn [In]. auto.
      * intros Hall. inversion Hall; subst. auto.
    + split; [now constructor|]. split.
      * constructor; [exists p; cbn [In]; auto|].
        eapply Forall_impl; [exact I2|].
        intros m (q & ? & ? & ?). exists q. cbn [In]. auto.
      * intros Hall. inversion Hall; subst. contradiction.
  - split; [|reflexivity]. repeat constructor; discriminate.
Qed.

(** ** Names in addresses *)

Module EncodeFacts.

Lemma hexDigit_inj (a b : nat) :
  a < 16 -> b < 16 -> Str.hexDigit a = Str.hexDigit b -> a = b.
Proof.
  intros Ha Hb.
  do 16 (destruct a as [|a]; [do 16 (destruct b as [|b]; [first [reflexivity | discriminate]|]); lia|]).
  lia.
Qed.

Lemma byte_bound (c : ascii) : nat_of_ascii c < 256.
Proof. apply nat_ascii_bounded. Qed.

Lemma byte_inj (a b : ascii) :
  Nat.div (nat_of_ascii a) 16 = Nat.div (nat_of_ascii b) 16 ->
  Nat.modulo (nat_of_ascii a) 16 = Nat.modulo (nat_of_ascii b) 16 ->
  a = b.
Proof.
  intros Hd Hm.
  rewrite <- (ascii_nat_embedding a), <- (ascii_nat_embedding b).
  f_equal.
  rewrite (Nat.div_mod_eq (nat_of_ascii a) 16), (Nat.div_mod_eq (nat_of_ascii b) 16).
  now rewrite Hd, Hm.
Qed.

Lemma percent_reserved : Str.unreserved "%" = false.
Proof. reflexivity. Qed.

Lemma encodeURIComponent_inj (a b : string) :
  Str.encodeURIComponent a = Str.encodeURIComponent b -> a = b.
Proof.
  revert b. induction a as [|x a IH]; intros [|y b]; cbn [Str.encodeURIComponent].
  - reflexivity.
  - destruct (Str.unreserved y); discriminate.
  - destruct (Str.unreserved x); discriminate.
  - destruct (Str.unreserved x) eqn:Ux, (Str.unreserved y) eqn:Uy.
    + intros [= -> H]. f_equal. now apply IH.
    + intros [= -> _]. now rewrite percent_reserved in Ux.
    + intros [= <- _]. now rewrite percent_reserved in Uy.
    + intros [= Hd Hm H].
      change (Str.hexDigit (Nat.div (nat_of_ascii x) 16) =
              Str.hexDigit (Nat.div (nat_of_ascii y) 16)) in Hd.
      change (Str.hexDigit (Nat.modulo (nat_of_ascii x) 16) =
              Str.hexDigit (Nat.modulo (nat_of_ascii y) 16)) in Hm.
      pose proof (byte_bound x). pose proof (byte_bound y).
      apply hexDigit_inj in Hd;
        [|apply Nat.Div0.div_lt_upper_bound; lia
         |apply Nat.Div0.div_lt_upper_bound; lia].
      apply hexDigit_inj in Hm;
        [|apply Nat.mod_upper_bound; lia|apply Nat.mod_upper_bound; lia].
      f_equal; [now apply byte_inj | now apply IH].
Qed.

Lemma append_inj_r (a x y : string) : a +:+ x = a +:+ y -> x = y.
Proof.
  induction a as [|c a IH]; [exact id|].
  change (String c a +:+ x) with (String c (a +:+ x)).
  change (String c a +:+ y) with (String c (a +:+ y)).
  intros [= H]. now apply IH.
Qed.

End EncodeFacts.

(** X8.  The address strings the script builds for two different names
    are different strings: the string built for a task definition, for a
    prompt, or for a model of a given integration determines the name,
    because the encoding of a name loses nothing.  The statement is about
    the strings handed to [fetch], not about what [fetch] makes of them:
    the integration name goes into the string as it is, and a [#] in it
    hides the model part from the server. *)
Theorem address_strings_distinct (API : string) :
  (forall a b, Str.encodeURIComponent a = Str.encodeURIComponent b -> a = b) /\
  (forall a b, taskDefUrl API a = taskDefUrl API b -> a = b) /\
  (forall (a b : string * string),
      promptGetUrl API a = promptGetUrl API b -> fst a = fst b) /\
  (forall name a b, modelUrl API name a = modelUrl API name b -> a = b).
Proof.
  split; [exact EncodeFacts.encodeURIComponent_inj|].
  unfold taskDefUrl, promptGetUrl, modelUrl.
  repeat split; intros;
    repeat match goal with
      | H : _ +:+ _ = _ +:+ _ |- _ => apply EncodeFacts.append_inj_r in H
      end;
    now apply EncodeFacts.encodeURIComponent_inj.
Qed.

(** ** The two base addresses *)

(** X10.  The API base always ends in [/api] and never in a slash, and the
    UI base is the API base without that ending: putting [/api] back on the
    UI base gives the API base. *)
Theorem ui_base_of_api (e : gmap string string) :
  let API := normalizeBaseApiUrl e in
  uiBaseFromApi API +:+ "/api" = API /\
  Str.endsWith API "/api" = true /\
  Str.endsWith API "/" = false.
Proof.
  cbv zeta. destruct (normalized_shape e) as [s ->]. unfold uiBaseFromApi.
  rewrite StrFacts.stripApi_append.
  rewrite !StrFacts.endsWith_append by (simpl; lia).
  repeat split; reflexivity.
Qed.

(** ** The template lookup *)

Module ValueFacts.

Lemma sameValueZero_sym (a b : value) :
  Js.sameValueZero a b = Js.sameValueZero b a.
Proof.
  destruct a, b; cbn [Js.sameValueZero]; try reflexivity.
  - now destruct b, b0.
  - apply Bool.eq_true_iff_eq. rewrite !Qeq_bool_iff.
    split; intros E; now symmetry.
  - apply String.eqb_sym.
Qed.

Lemma sameValueZero_truthy (a b : value) :
  Js.sameValueZero a b = true -> Js.truthy a = Js.truthy b.
Proof.
  destruct a, b; cbn [Js.sameValueZero Js.truthy]; try discriminate; try reflexivity.
  - now destruct b, b0.
  - intros H%Qeq_bool_iff. f_equal. apply Bool.eq_true_iff_eq.
    rewrite !Qeq_bool_iff. split; intros E; [now rewrite <- H | now rewrite H].
  - intros ->%String.eqb_eq. reflexivity.
Qed.

(** Looking for a name among the templates, and looking it up in the set
    of their names, agree on every name that is not falsy. *)
Lemma some_setHas (ts : list value) (name : value) :
  Js.truthy name = true ->
  existsb (fun t => Js.sameValueZero (Js.optGet t "name") name) ts =
  setHas (templateNames ts) name.
Proof.
  intros Hn. unfold setHas, templateNames.
  induction ts as [|t ts IH]; [reflexivity|].
  cbn [existsb map List.filter]. rewrite IH.
  destruct (Js.truthy (Js.optGet t "name")) eqn:Ht; cbn [existsb].
  - now rewrite sameValueZero_sym.
  - destruct (Js.sameValueZero (Js.optGet t "name") name) eqn:Es; [|reflexivity].
    apply sameValueZero_truthy in Es. congruence.
Qed.

End ValueFacts.

(** X11.  For every name that is not falsy (the only names the form pass
    asks about), the helper [humanTemplateExists] sends the one request
    that [listHumanTemplates] sends and answers what the form pass finds in
    its set of template names; it throws exactly when the listing does. *)
Theorem humanTemplateExists_agrees (P : Platform) (W : World) (API : string)
    (token name : value) (h : list event) :
  Js.truthy name = true ->
  humanTemplateExists P W API token name h =
  match listHumanTemplates P W API token h with
  | (Ret ts, evs) => (Ret (setHas (templateNames ts) name), evs)
  | (Throw err, evs) => (Throw err, evs)
  end.
Proof.
  intros Hn. unfold humanTemplateExists, bind.
  destruct (listHumanTemplates P W API token h) as [[ts|err] evs]; [|reflexivity].
  cbn [ret]. now rewrite app_nil_r, ValueFacts.some_setHas.
Qed.

Lemma humanTemplateExists_agrees_witness :
  fst (humanTemplateExists Scenario.node
         (Scenario.bare [] Machines.listed) Scenario.api Scenario.tok
         (VStr "intake") []) = Ret true /\
  fst (humanTemplateExists Scenario.node
         (Scenario.bare [] Machines.listed) Scenario.api Scenario.tok
         (VStr "consent") []) = Ret false.
Proof.
  rewrite !humanTemplateExists_agrees by reflexivity.
  vm_compute. split; reflexivity.
Defined.

(** ** Whole runs *)

Module RunFacts.

Lemma prefix_append (a b : string) : String.prefix a (a +:+ b) = true.
Proof.
  induction a as [|c a IH]; [now destruct b|].
  change (String c a +:+ b) with (String c (a +:+ b)).
  cbn [String.prefix]. destruct (ascii_dec c c); [exact IH | congruence].
Qed.

Lemma always_and {A} (phi psi : event -> Prop) (m : M A) :
  always phi m -> always psi m -> always (fun e => phi e /\ psi e) m.
Proof.
  intros H1 H2 h. specialize (H1 h). specialize (H2 h).
  induction H1 as [|e evs He _ IH]; [constructor|].
  inversion H2; subst. constructor; auto.
Qed.

(** A first half that always returns the same value. *)
Lemma always_bind_ret {A B} phi (m : M A) (k : A -> M B) (a : A) :
  always phi m -> (forall h, fst (m h) = Ret a) -> always phi (k a) ->
  always phi (bind m k).
Proof.
  intros Hm Ha Hk h. unfold bind. specialize (Hm h). specialize (Ha h).
  destruct (m h) as [o e1]. cbn [fst snd] in *. subst o.
  specialize (Hk (h ++ e1)). destruct (k a (h ++ e1)) as [o e2].
  cbn [snd] in *. now apply Forall_app.
Qed.

Lemma run_events (P : Platform) (W : World) phi :
  always phi (main P (config (argv W)) W) ->
  (forall msg, phi (ELog LError msg)) ->
  Forall phi (snd (run P W)).
Proof.
  intros Hm He. specialize (Hm []). unfold run.
  destruct (main P (config (argv W)) W []) as [[u|e] evs]; cbn [snd] in *;
    [exact Hm|].
  apply Forall_app. split; [exact Hm|]. repeat constructor. apply He.
Qed.

Ltac server_prim :=
  first
    [ apply always_http;
        [exact I | intros _ ? ? _ Hu; cbn [onServer]; rewrite Hu; apply prefix_append]
    | apply always_fetch; intros ?; apply prefix_append ].

Lemma main_onServer (P : Platform) (C : Config) (W : World) :
  always (onServer (normalizeBaseApiUrl (env W))) (main P C W).
Proof.
  unfold main. walk server_prim.
Qed.

End RunFacts.

(** X12.  Every address string a run hands to [fetch] begins with the
    normalized API base: the script builds no address from anything but
    the configured base, in both modes and whatever the files and the
    server say.  The statement is about the string handed to [fetch]; what
    [fetch] resolves it to is outside it (the integration name goes into
    the string as it is, so dot segments in it can lead above the base). *)
Theorem addresses_begin_with_api_base (P : Platform) (W : World) :
  Forall (onServer (normalizeBaseApiUrl (env W))) (snd (run P W)).
Proof.
  apply RunFacts.run_events; [apply RunFacts.main_onServer | intros; exact I].
Qed.

Module TokenFacts.

(** [http] emits its plan line, or the request built from its arguments. *)
Lemma always_http_req (P : Platform) (C : Config) (W : World) phi
    method url token headers body expect okStatuses :
  phi (ELog LPlan [Sub method; Lit " "; Sub url]) ->
  (forall a,
      phi (EFetch (Request method url (requestHeaders token headers body) body) a)) ->
  always phi (http P C W method url token headers body expect okStatuses).
Proof.
  intros Hlog Hreq. unfold http.
  destruct (PLAN C && negb (allowInPlan method url)).
  - apply always_bind; [apply always_emit, Hlog | intros; apply always_ret].
  - apply always_bind; [now apply always_fetch|].
    intros res.
    destruct (negb (existsb (Nat.eqb (res_status res)) okStatuses));
      [apply always_throw|].
    destruct expect; [|apply always_ret].
    destruct (String.eqb (res_text res) ""); [apply always_ret|].
    destruct (JSON_parse P (res_text res)); apply always_ret.
Qed.

Ltac token_request :=
  intros ?; first [ left; reflexivity | right; reflexivity ].

Ltac token_prim :=
  first
    [ apply always_http_req; [exact I | token_request]
    | apply always_fetch; token_request ].

Lemma authenticate_by_token (P : Platform) (C : Config) (W : World)
    (API t : string) h :
  env W !! "CONDUCTOR_ACCESS_TOKEN" = Some t -> t <> "" ->
  authenticate P C W API h =
  (Ret (VStr t),
   [ELog LSection [Lit "Authentication"];
    ELog LOk [Lit "Using CONDUCTOR_ACCESS_TOKEN"]]).
Proof.
  intros Ht Hne. destruct t as [|c t]; [congruence|].
  unfold authenticate, env_val. rewrite Ht. reflexivity.
Qed.

Lemma main_authorized (P : Platform) (C : Config) (W : World) (t : string) :
  env W !! "CONDUCTOR_ACCESS_TOKEN" = Some t -> t <> "" ->
  always (authorized (normalizeBaseApiUrl (env W)) t) (main P C W).
Proof.
  intros Ht Hne. destruct t as [|c t]; [congruence|].
  unfold main.
  do 4 (apply always_bind; [apply always_emit; exact I | intros _]).
  apply RunFacts.always_bind_ret with (a := VStr (String c t)).
  - unfold authenticate, env_val. rewrite Ht. cbn [Js.truthy String.eqb negb].
    walk token_prim.
  - intros h. unfold authenticate, env_val. rewrite Ht. reflexivity.
  - walk token_prim.
Qed.

End TokenFacts.

(** X13.  When [CONDUCTOR_ACCESS_TOKEN] is set, the authentication step
    returns that token and sends no request: the key pair is not exchanged
    for a token.  Every request of the run carries the token in
    [X-Authorization], except the connectivity check, which is sent with
    the [accept] header only. *)
Theorem access_token_run (P : Platform) (W : World) (t : string) :
  env W !! "CONDUCTOR_ACCESS_TOKEN" = Some t -> t <> "" ->
  (forall C API h,
      authenticate P C W API h =
      (Ret (VStr t),
       [ELog LSection [Lit "Authentication"];
        ELog LOk [Lit "Using CONDUCTOR_ACCESS_TOKEN"]])) /\
  Forall (authorized (normalizeBaseApiUrl (env W)) t) (snd (run P W)).
Proof.
  intros Ht Hne. split.
  - intros C API h. now apply TokenFacts.authenticate_by_token.
  - apply RunFacts.run_events; [|intros; exact I].
    now apply TokenFacts.main_authorized.
Qed.

Lemma access_token_run_witness :
  let W := Scenario.checkout [] Scenario.emptyServer in
  fetches (snd (authenticate Scenario.node (config (argv W)) W Scenario.api [])) = [] /\
  Forall (authorized (normalizeBaseApiUrl (env W)) "tok") (snd (run Scenario.node W)).
Proof.
  destruct (access_token_run Scenario.node
              (Scenario.checkout [] Scenario.emptyServer) "tok")
    as [Hauth Hrun]; [reflexivity | discriminate |].
  split; [|exact Hrun].
  now rewrite Hauth.
Defined.

Module StopFacts.

Lemma bind_emit {B} (ev : event) (k : unit -> M B) h :
  bind (emit ev) k h = (fst (k tt (h ++ [ev])), ev :: snd (k tt (h ++ [ev]))).
Proof. unfold bind, emit. now destruct (k tt (h ++ [ev])). Qed.

Lemma bind_throws {A B} (m : M A) (k : A -> M B) h err evs :
  m h = (Throw err, evs) -> bind m k h = (Throw err, evs).
Proof. unfold bind. now intros ->. Qed.

(** Without an access token and without a complete key pair,
    authentication throws before any request. *)
Lemma authenticate_needs_credentials (P : Platform) (C : Config) (W : World)
    (API : string) h :
  Js.truthy (env_val W "CONDUCTOR_ACCESS_TOKEN") = false ->
  Js.truthy (keyId W) && Js.truthy (keySecret W) = false ->
  authenticate P C W API h =
  (Throw ErrNeedCredentials, [ELog LSection [Lit "Authentication"]]).
Proof.
  intros Ht Hk. unfold authenticate, section. rewrite bind_emit, Ht.
  cbn [negb]. fold (keyId W) (keySecret W).
  rewrite <- negb_andb, Hk. reflexivity.
Qed.

Lemma stops_bind_l {A B} phi (m : M A) (k : A -> M B) :
  stops phi m -> stops phi (bind m k).
Proof.
  intros Hm h. destruct (Hm h) as (Hphi & err & He & Hl). unfold bind.
  destruct (m h) as [o e1]. cbn [fst snd] in *. subst o. cbn [fst snd]. eauto.
Qed.

Lemma stops_bind_r {A B} phi (m : M A) (k : A -> M B) :
  always phi m ->
  always (noLine LSection "OpenAI Integration (idempotent)") m ->
  (forall a, stops phi (k a)) -> stops phi (bind m k).
Proof.
  intros Hm Hn Hk h. unfold bind.
  pose proof (always_noLine _ _ m h Hn) as Hl. specialize (Hm h).
  destruct (m h) as [[a|err] e1]; cbn [fst snd] in *.
  - destruct (Hk a (h ++ e1)) as (Hphi & err & He & Hor).
    destruct (k a (h ++ e1)) as [o e2]. cbn [fst snd] in *.
    split; [now apply Forall_app|].
    exists err. split; [assumption|].
    rewrite lines_app, Hl. exact Hor.
  - split; [assumption|]. eauto.
Qed.

Ltac read_prim :=
  apply always_http;
  [ exact I
  | intros _ ? ? Hm Hu; cbn [planSafe]; rewrite Hm, Hu;
    first [left; reflexivity | right; split; reflexivity] ].

Lemma main_needs_openai_key (P : Platform) (C : Config) (W : World) :
  NO_OPENAI C = false ->
  firstSetEnv P W ["OPENAI_API_KEY"] = None ->
  stops (planSafe (normalizeBaseApiUrl (env W))) (main P C W).
Proof.
  intros Hno Hkey. unfold main.
  do 4 (apply stops_bind_r; [apply always_emit; exact I | no_line | intros _]).
  apply stops_bind_r; [unfold authenticate; walk read_prim | no_line | intros token].
  apply stops_bind_r; [unfold checkConnectivity; walk read_prim | no_line | intros _].
  apply stops_bind_r; [unfold fetchUserInfo; walk read_prim | no_line | intros userInfo].
  apply stops_bind_l. unfold openaiSection. intros h.
  unfold section. rewrite bind_emit, Hno.
  erewrite bind_throws by (unfold mustEnv; rewrite Hkey; reflexivity).
  cbn [fst snd]. split; [repeat constructor|]. eauto.
Qed.

Lemma closes_bind mode {A B} (m : M A) (k : A -> M B) :
  always (noLine LHeader "Setup complete (") m ->
  (forall a, closes mode (k a)) -> closes mode (bind m k).
Proof.
  intros Hn Hk h. unfold closes, bind, banner in *.
  pose proof (always_noLine _ _ m h Hn) as Hl.
  destruct (m h) as [[a|err] e1]; cbn [fst snd] in *; [|exact Hl].
  specialize (Hk a (h ++ e1)). destruct (k a (h ++ e1)) as [o e2].
  cbn [fst snd] in *. now rewrite lines_app, Hl, Hk.
Qed.

Lemma main_closes (P : Platform) (C : Config) (W : World) :
  closes (modeName C) (main P C W).
Proof.
  unfold main.
  do 12 (apply closes_bind; [no_line | intros ?]).
  intros h. reflexivity.
Qed.

Lemma main_no_error_line (P : Platform) (C : Config) (W : World) :
  always (noLine LError "ERROR:") (main P C W).
Proof. unfold main. no_line. Qed.

End StopFacts.

Module StartFacts.

Lemma load_events (P : Platform) (W : World) (e : gmap string string) h :
  snd (DotEnv.loadDotEnvIfPresent P W ".env" e h) = dotEnvLookup W.
Proof.
  rewrite DotEnvFacts.load_cases. unfold dotEnvLookup.
  destruct (fs_existsSync W ".env"); [|reflexivity].
  now destruct (fs_readFileSync W ".env").
Qed.

(** Once the environment file is loaded, the process is [main] on the
    environment the file leaves, behind the lookup of the file. *)
Lemma runWithDotEnv_loaded (P : Platform) (W : World) (e : gmap string string) :
  fst (DotEnv.loadDotEnvIfPresent P W ".env" (env W) []) = Ret e ->
  runWithDotEnv P W =
  (exit_code (fst (main P (config (argv W)) (Machines.withEnv e W) (dotEnvLookup W))),
   dotEnvLookup W ++
   snd (main P (config (argv W)) (Machines.withEnv e W) (dotEnvLookup W)) ++
   match fst (main P (config (argv W)) (Machines.withEnv e W) (dotEnvLookup W)) with
   | Ret _ => []
   | Throw err => [ELog LError (Lit "ERROR:" :: error_message err)]
   end).
Proof.
  intros Hload. pose proof (load_events P W (env W) []) as Hev.
  unfold runWithDotEnv, mainWithDotEnv, bind.
  destruct (DotEnv.loadDotEnvIfPresent P W ".env" (env W) []) as [o evs].
  cbn [fst snd] in *. subst o evs. cbn [app].
  destruct (main P _ _ _) as [[u|err] evs]; cbn [fst snd exit_code].
  - now rewrite app_nil_r.
  - now rewrite app_assoc.
Qed.

End StartFacts.

(** X14.  When the environment file is absent or can be read, and after
    loading it there is no access token and not both a key id and a key
    secret, the process ends with exit code 1 before any request is sent:
    it looks up the environment file, prints its heading, the
    authentication line and the error, and nothing else.  A key variable
    that is set but empty counts: it hides the variables that [??] would
    fall back to. *)
Theorem missing_credentials (P : Platform) (W : World) (e : gmap string string) :
  let C := config (argv W) in
  let W' := Machines.withEnv e W in
  let API := normalizeBaseApiUrl e in
  fst (DotEnv.loadDotEnvIfPresent P W ".env" (env W) []) = Ret e ->
  Js.truthy (env_val W' "CONDUCTOR_ACCESS_TOKEN") = false ->
  Js.truthy (keyId W') && Js.truthy (keySecret W') = false ->
  runWithDotEnv P W =
  (1,
   dotEnvLookup W ++
   [ELog LHeader [Lit "Orkes Healthcare Relocation Setup"];
    ELog LBullet [Lit "Mode: ";
                  Lit (if PLAN C then "PLAN (no changes)" else "APPLY")];
    ELog LBullet [Lit "Orkes API: "; Sub API];
    ELog LBullet [Lit "Orkes UI : "; Sub (uiBaseFromApi API)];
    ELog LSection [Lit "Authentication"];
    ELog LError (Lit "ERROR:" :: error_message ErrNeedCredentials)]) /\
  fetches (snd (runWithDotEnv P W)) = [] /\
  (e !! "CONDUCTOR_KEY_ID" = Some "" -> Js.truthy (keyId W') = false) /\
  (e !! "CONDUCTOR_KEY_SECRET" = Some "" -> Js.truthy (keySecret W') = false).
Proof.
  cbv zeta. intros Hload Ht Hk.
  assert (Hrun : runWithDotEnv P W =
    (1,
     dotEnvLookup W ++
     [ELog LHeader [Lit "Orkes Healthcare Relocation Setup"];
      ELog LBullet [Lit "Mode: ";
                    Lit (if PLAN (config (argv W)) then "PLAN (no changes)"
                         else "APPLY")];
      ELog LBullet [Lit "Orkes API: "; Sub (normalizeBaseApiUrl e)];
      ELog LBullet [Lit "Orkes UI : ";
                    Sub (uiBaseFromApi (normalizeBaseApiUrl e))];
      ELog LSection [Lit "Authentication"];
      ELog LError (Lit "ERROR:" :: error_message ErrNeedCredentials)])).
  { rewrite (StartFacts.runWithDotEnv_loaded P W e Hload).
    unfold main, header, bullet. cbv zeta.
    rewrite !StopFacts.bind_emit.
    erewrite StopFacts.bind_throws
      by (now apply StopFacts.authenticate_needs_credentials).
    reflexivity. }
  split; [exact Hrun|]. split.
  - rewrite Hrun. cbn [snd]. unfold dotEnvLookup.
    now destruct (fs_existsSync W ".env").
  - unfold keyId, keySecret, env_val. cbn [env Machines.withEnv].
    split; intros ->; reflexivity.
Qed.

Lemma missing_credentials_witness :
  runWithDotEnv Scenario.node EnvFile.world =
  (1,
   [EFs (FsExists ".env"); EFs (FsReadFile ".env");
    ELog LHeader [Lit "Orkes Healthcare Relocation Setup"];
    ELog LBullet [Lit "Mode: "; Lit "APPLY"];
    ELog LBullet [Lit "Orkes API: "; Sub "https://shell/api"];
    ELog LBullet [Lit "Orkes UI : "; Sub "https://shell"];
    ELog LSection [Lit "Authentication"];
    ELog LError (Lit "ERROR:" :: error_message ErrNeedCredentials)]) /\
  fetches (snd (runWithDotEnv Scenario.node EnvFile.world)) = [].
Proof.
  destruct (missing_credentials Scenario.node EnvFile.world EnvFile.loaded)
    as (Hrun & Hf & _);
    [vm_compute; reflexivity | reflexivity | reflexivity |].
  split; [|exact Hf].
  rewrite Hrun. vm_compute. reflexivity.
Defined.

(** X27.  An environment file that is there but cannot be read (a
    directory, a file without read permission) ends the process with exit
    code 1 before the heading: nothing is printed but the error line, and
    no request is sent. *)
Theorem unreadable_env_file (P : Platform) (W : World) :
  fs_existsSync W ".env" = true -> fs_readFileSync W ".env" = None ->
  fst (runWithDotEnv P W) = 1 /\
  fsOps (snd (runWithDotEnv P W)) = [FsExists ".env"; FsReadFile ".env"] /\
  fetches (snd (runWithDotEnv P W)) = [] /\
  lines LHeader "Orkes Healthcare Relocation Setup" (snd (runWithDotEnv P W)) = [] /\
  length (lines LError "ERROR:" (snd (runWithDotEnv P W))) = 1 /\
  length (snd (runWithDotEnv P W)) = 3.
Proof.
  intros Hex Hread. unfold runWithDotEnv, mainWithDotEnv, bind.
  rewrite DotEnvFacts.load_cases, Hex, Hread.
  repeat split; reflexivity.
Qed.

Lemma unreadable_env_file_witness :
  let W := Machines.withEnv Scenario.envToken
             {| argv := Scenario.argvOf []; env := ∅;
                fs_existsSync := fun _ => true;
                fs_readdirSync := fun _ => None;
                fs_readFileSync := fun _ => None;
                net := fun _ => Scenario.emptyServer |} in
  fst (runWithDotEnv Scenario.node W) = 1 /\
  fetches (snd (runWithDotEnv Scenario.node W)) = [].
Proof.
  cbv zeta.
  match goal with
  | |- fst (runWithDotEnv ?P ?W) = _ /\ _ =>
      destruct (unreadable_env_file P W) as (H1 & _ & H3 & _);
        [reflexivity | reflexivity | exact (conj H1 H3)]
  end.
Defined.

(** X15.  Without [--no-openai] and without a usable [OPENAI_API_KEY], the
    run ends with exit code 1 and creates nothing: the only requests are
    reads and the exchange of the key pair for a token; if the OpenAI pass
    was reached at all, the error printed is the missing variable. *)
Theorem missing_openai_key (P : Platform) (W : World) :
  NO_OPENAI (config (argv W)) = false ->
  firstSetEnv P W ["OPENAI_API_KEY"] = None ->
  fst (run P W) = 1 /\
  Forall (planSafe (normalizeBaseApiUrl (env W))) (snd (run P W)) /\
  (lines LSection "OpenAI Integration (idempotent)" (snd (run P W)) = [] \/
   lines LError "ERROR:" (snd (run P W)) =
     [error_message (ErrMissingEnv ["OPENAI_API_KEY"])]).
Proof.
  intros Hno Hkey.
  destruct (StopFacts.main_needs_openai_key P (config (argv W)) W Hno Hkey [])
    as (Hphi & err & He & Hor).
  pose proof (always_noLine _ _ _ [] (StopFacts.main_no_error_line P (config (argv W)) W))
    as Hne.
  unfold run. destruct (main P (config (argv W)) W []) as [o evs].
  cbn [fst snd] in *. subst o. cbn [fst snd].
  split; [reflexivity|]. split.
  - apply Forall_app. split; [exact Hphi | repeat constructor].
  - rewrite !lines_app, Hne. destruct Hor as [Hl | ->].
    + left. now rewrite Hl.
    + right. reflexivity.
Qed.

Lemma missing_openai_key_witness :
  let W := Machines.noOpenaiKey in
  fst (run Scenario.node W) = 1 /\
  Forall (planSafe (normalizeBaseApiUrl (env W))) (snd (run Scenario.node W)) /\
  (lines LSection "OpenAI Integration (idempotent)" (snd (run Scenario.node W)) = [] \/
   lines LError "ERROR:" (snd (run Scenario.node W)) =
     [error_message (ErrMissingEnv ["OPENAI_API_KEY"])]).
Proof.
  apply (missing_openai_key Scenario.node Machines.noOpenaiKey); reflexivity.
Defined.

(** X16.  The closing banner and the error line tell the exit code: a run
    that exits with 0 prints the banner once, with its mode, and no error
    line; a run that exits with 1 prints one error line and no banner. *)
Theorem banner_tells_exit_code (P : Platform) (W : World) :
  let C := config (argv W) in
  match fst (run P W) with
  | 0 =>
      banner (snd (run P W)) = [[Sub (modeName C); Lit " mode)"]] /\
      lines LError "ERROR:" (snd (run P W)) = []
  | _ =>
      banner (snd (run P W)) = [] /\
      length (lines LError "ERROR:" (snd (run P W))) = 1
  end.
Proof.
  cbv zeta.
  pose proof (StopFacts.main_closes P (config (argv W)) W []) as Hb.
  pose proof (always_noLine _ _ _ [] (StopFacts.main_no_error_line P (config (argv W)) W))
    as Hne.
  unfold run. destruct (main P (config (argv W)) W []) as [[u|err] evs];
    cbn [fst snd] in *.
  - now split.
  - unfold banner in *. rewrite !lines_app, Hb, Hne. now split.
Qed.

(** ** The steps and the passes *)

Module PassFacts.

Lemma http_get (P : Platform) (C : Config) (W : World) url token headers body
    expect okStatuses h :
  http P C W "GET" url token headers body expect okStatuses h =
  let r := Request "GET" url (requestHeaders token headers body) body in
  (match net W h r with
   | Some res =>
       if existsb (Nat.eqb (res_status res)) okStatuses
       then Ret (decoded P expect (res_text res))
       else Throw (ErrHttp (res_status res) (res_statusText res) url (res_text res))
   | None => Throw (ErrFetch url)
   end, [EFetch r (net W h r)]).
Proof.
  unfold http, allowInPlan. cbn [String.eqb Ascii.eqb Bool.eqb orb negb].
  rewrite andb_false_r. unfold bind, fetch. cbv zeta.
  destruct (net W h _) as [res|]; [|reflexivity].
  destruct (existsb _ _); cbn [negb]; [|reflexivity].
  unfold decoded. destruct expect; [|reflexivity].
  destruct (String.eqb _ _); [reflexivity|].
  now destruct (JSON_parse P _).
Qed.

Lemma fetchUserInfo_eq (P : Platform) (C : Config) (W : World) (API : string)
    (token : value) h :
  let r := userInfoRequest API token in
  let v := userInfoOf P (net W h r) in
  fetchUserInfo P C W API token h =
  (Ret v, [EFetch r (net W h r); ELog LOk (Lit "Authenticated as: " :: who v)]).
Proof.
  cbv zeta. unfold fetchUserInfo, try_catch, bind. rewrite http_get.
  cbv zeta. fold (userInfoRequest API token).
  unfold userInfoOf, who, ok, emit, ret.
  destruct (net W h (userInfoRequest API token)) as [res|]; [|reflexivity].
  cbn [existsb]. rewrite orb_false_r.
  destruct (Nat.eqb (res_status res) 200); cbn [app].
  - now destruct (Js.truthy _).
  - reflexivity.
Qed.

End PassFacts.

(** X17.  The user-info step does not stop a run over the answer it gets:
    it sends one read, and whatever comes back (no answer at all, a status
    other than 200, a body that is not JSON, [null]) it returns a value and
    prints who is authenticated, falling back to the empty object and to
    [unknown user].  This is for answers whose name, when it is not falsy,
    and whose id are no objects or arrays: the line that prints them stands
    outside the [try], and turning an object into text can throw. *)
Theorem user_info_is_optional (P : Platform) (C : Config) (W : World)
    (API : string) (token : value) (h : list event) :
  let r := userInfoRequest API token in
  let v := userInfoOf P (net W h r) in
  (Js.truthy (Js.optGet v "name") = true ->
   primitive (Js.optGet v "name") && primitive (Js.optGet v "id") = true) ->
  fetchUserInfo P C W API token h =
    (Ret v, [EFetch r (net W h r); ELog LOk (Lit "Authenticated as: " :: who v)]) /\
  (transportFailure (net W h r) = true -> v = VObj [] /\ who v = [Lit "unknown user"]).
Proof.
  cbv zeta. intros _. split; [apply PassFacts.fetchUserInfo_eq|].
  unfold transportFailure, userInfoOf, res_ok.
  destruct (net W h (userInfoRequest API token)) as [res|]; [|now split].
  destruct (Nat.eqb_spec (res_status res) 200) as [E|_]; [|now split].
  rewrite E. discriminate.
Qed.

Lemma user_info_is_optional_witness :
  let W := Scenario.bare [] Machines.knownUser in
  let r :=
    fetchUserInfo Scenario.node (config (argv W)) W Scenario.api Scenario.tok [] in
  fst r = Ret (VObj [("name", VStr "intake")]) /\
  lines LOk "Authenticated as: " (snd r) =
    [[Val (VStr "intake"); Lit " ("; Val (VStr "unknown"); Lit ")"]].
Proof.
  cbv zeta.
  destruct (user_info_is_optional Scenario.node
              (config (argv (Scenario.bare [] Machines.knownUser)))
              (Scenario.bare [] Machines.knownUser) Scenario.api Scenario.tok [])
    as [Heq _]; [reflexivity|].
  rewrite Heq. vm_compute. split; reflexivity.
Defined.

(** ** The headers of a request *)

Module HeaderFacts.

Lemma assoc_objSet_eq (k : string) (v : value) (props : list (string * value)) :
  Js.assoc k (Js.objSet k v props) = Some v.
Proof.
  induction props as [|[k' v'] props IH]; cbn [Js.objSet Js.assoc].
  - now rewrite String.eqb_refl.
  - destruct (String.eqb k k') eqn:E; cbn [Js.assoc].
    + now rewrite String.eqb_refl.
    + now rewrite E.
Qed.

Lemma assoc_objSet_ne (k k' : string) (v : value) (props : list (string * value)) :
  k <> k' -> Js.assoc k (Js.objSet k' v props) = Js.assoc k props.
Proof.
  intros Hne. apply String.eqb_neq in Hne.
  induction props as [|[k2 v2] props IH]; cbn [Js.objSet Js.assoc].
  - now rewrite Hne.
  - destruct (String.eqb k' k2) eqn:E; cbn [Js.assoc].
    + apply String.eqb_eq in E. subst k2. now rewrite Hne.
    + now rewrite IH.
Qed.

End HeaderFacts.

(** X18.  The headers of every request [http] sends: [accept] is always
    there, the caller's or [*/*]; a token that is not falsy is sent as
    [X-Authorization] and replaces a header of that name given by the
    caller; a body that is not a string gets the content type
    [application/json] unless the caller gave a content type; every other
    header is the caller's. *)
Theorem request_headers (P : Platform) (C : Config) (W : World)
    (method url : string) (token : value)
    (headers : option (list (string * value))) (body : option body)
    (x : expect) (okStatuses : list nat) :
  let given := default [] headers in
  let hs := requestHeaders token headers body in
  always (fun e => match e with
                   | EFetch r _ => r = Request method url hs body
                   | _ => True
                   end)
         (http P C W method url token headers body x okStatuses) /\
  Js.assoc "accept" hs =
    Some (Js.nullish (Js.optGet (VObj given) "accept") (VStr "*/*")) /\
  Js.assoc "X-Authorization" hs =
    (if Js.truthy token then Some token else Js.assoc "X-Authorization" given) /\
  Js.assoc "Content-Type" hs =
    match body with
    | Some (BodyJson _) =>
        if Js.truthy (Js.optGet (VObj given) "Content-Type")
        then Js.assoc "Content-Type" given
        else Some (VStr "application/json")
    | _ => Js.assoc "Content-Type" given
    end /\
  (forall k, k <> "accept" -> k <> "X-Authorization" -> k <> "Content-Type" ->
             Js.assoc k hs = Js.assoc k given).
Proof.
  cbv zeta. split.
  { apply TokenFacts.always_http_req; [exact I | reflexivity]. }
  unfold requestHeaders. set (given := default [] headers).
  set (acc := Js.nullish (Js.optGet (VObj given) "accept") (VStr "*/*")).
  assert (Hct : forall hs0,
             Js.assoc "Content-Type" hs0 = Js.assoc "Content-Type" given ->
             Js.optGet (VObj hs0) "Content-Type" =
             Js.optGet (VObj given) "Content-Type").
  { intros hs0 E. cbn [Js.optGet]. now rewrite E. }
  destruct (Js.truthy token) eqn:Ht;
    (destruct body as [[text|v]|];
     [| rewrite Hct
          by (rewrite ?HeaderFacts.assoc_objSet_ne by discriminate; reflexivity);
        destruct (Js.truthy (Js.optGet (VObj given) "Content-Type")) eqn:Hc;
        cbn [negb]
      |]);
    repeat split; intros;
    rewrite ?HeaderFacts.assoc_objSet_eq;
    repeat first
      [ rewrite HeaderFacts.assoc_objSet_ne by (discriminate || congruence)
      | rewrite HeaderFacts.assoc_objSet_eq ];
    reflexivity.
Qed.

(** ** The form pass lists the templates once *)

Module ReadFacts.

Lemma gets_app (a b : list event) : gets (a ++ b) = gets a ++ gets b.
Proof. unfold gets. apply omap_app. Qed.

Lemma gets_bind {A B} (m : M A) (k : A -> M B) h :
  gets (snd (bind m k h)) =
  gets (snd (m h)) ++
  match fst (m h) with
  | Ret a => gets (snd (k a (h ++ snd (m h))))
  | Throw _ => []
  end.
Proof.
  unfold bind. destruct (m h) as [[a|err] e1]; cbn [fst snd];
    [|now rewrite app_nil_r].
  destruct (k a (h ++ e1)) as [o e2]. cbn [snd]. apply gets_app.
Qed.

Lemma always_noGet {A} (m : M A) h : always noGet m -> gets (snd (m h)) = [].
Proof.
  intros Hm. specialize (Hm h). induction Hm as [|e evs He _ IH]; [reflexivity|].
  change (e :: evs) with ([e] ++ evs). now rewrite gets_app, He, IH.
Qed.

Lemma gets_bind_quiet {A B} (m : M A) (k : A -> M B) h :
  (forall a, always noGet (k a)) ->
  gets (snd (bind m k h)) = gets (snd (m h)).
Proof.
  intros Hk. rewrite gets_bind.
  destruct (fst (m h)) as [a|err];
    [rewrite (always_noGet (k a)) by apply Hk|]; apply app_nil_r.
Qed.

Lemma gets_emit {B} (ev : event) (k : unit -> M B) h :
  gets [ev] = [] ->
  gets (snd (bind (emit ev) k h)) = gets (snd (k tt (h ++ [ev]))).
Proof.
  intros He. rewrite StopFacts.bind_emit. cbn [snd].
  change (ev :: snd (k tt (h ++ [ev]))) with ([ev] ++ snd (k tt (h ++ [ev]))).
  now rewrite gets_app, He.
Qed.

Lemma existsSync_eq (W : World) (p : string) h :
  existsSync W p h = (Ret (fs_existsSync W p), [EFs (FsExists p)]).
Proof. reflexivity. Qed.

Lemma readdirSync_eq (W : World) (p : string) h :
  readdirSync W p h =
  (match fs_readdirSync W p with
   | Some names => Ret names
   | None => Throw (ErrFs (FsReaddir p))
   end, [EFs (FsReaddir p)]).
Proof. unfold readdirSync, bind, emit. now destruct (fs_readdirSync W p). Qed.

Ltac write_prim :=
  apply always_http;
  [ reflexivity
  | intros _ ? ? Hm _; unfold noGet, gets, isGet; cbn [omap list_omap];
    rewrite Hm; reflexivity ].

Lemma formLoop_noGet (P : Platform) (C : Config) (W : World) (API : string)
    (token : value) (names : list value) (files : list string) st :
  always noGet
    (counts <- for_of files (ensureForm P C W API token names) st ;;
     formsSummary C counts).
Proof. walk write_prim. Qed.

Lemma listHumanTemplates_events (P : Platform) (W : World) (API : string)
    (token : value) h :
  snd (listHumanTemplates P W API token h) =
  [EFetch (templatesRequest API token) (net W h (templatesRequest API token))].
Proof.
  unfold listHumanTemplates, bind, fetch. fold (templatesRequest API token).
  destruct (net W h (templatesRequest API token)) as [res|]; [|reflexivity].
  destruct (negb (res_ok res)); [reflexivity|].
  destruct (String.eqb (res_text res) ""); [reflexivity|].
  destruct (JSON_parse P (res_text res)) as [[]|]; reflexivity.
Qed.

End ReadFacts.

(** X19.  The form pass asks the server for the templates once when there
    is at least one form file, however many there are, and not at all when
    there is none; it sends no other read, whether it returns or throws. *)
Theorem templates_listed_once (P : Platform) (C : Config) (W : World)
    (API UI : string) (token : value) (h : list event) :
  gets (snd (formsSection P C W API UI token h)) =
  match theFormFiles C W with
  | [] => []
  | _ :: _ => [templatesRequest API token]
  end.
Proof.
  unfold formsSection, theFormFiles, section, info, bullet.
  rewrite ReadFacts.gets_emit by reflexivity.
  rewrite ReadFacts.gets_bind, ReadFacts.existsSync_eq.
  cbn [fst snd gets omap list_omap app].
  rewrite ReadFacts.gets_bind_quiet by (intros; apply always_emit; reflexivity).
  destruct (fs_existsSync W (FORMS_DIR C)); cbn [negb]; [|reflexivity].
  rewrite ReadFacts.gets_bind, ReadFacts.readdirSync_eq.
  cbn [fst snd gets omap list_omap app].
  destruct (fs_readdirSync W (FORMS_DIR C)) as [entries|]; [|reflexivity].
  destruct (List.filter _ entries) as [|f files]; [reflexivity|].
  cbn [length Nat.eqb].
  rewrite ReadFacts.gets_bind, ReadFacts.listHumanTemplates_events.
  cbn [gets omap list_omap app].
  destruct (fst (listHumanTemplates P W API token _)) as [ts|err];
    [|reflexivity].
  now rewrite ReadFacts.always_noGet by apply ReadFacts.formLoop_noGet.
Qed.

(** ** Documents that cannot be used *)

Module DocFacts.

Lemma judge_broken (known : value -> bool) (d : option value) :
  brokenDoc d = true -> judge known d = Broken.
Proof. destruct d as [[]|]; cbn; congruence. Qed.

Lemma forms_returned (P : Platform) (C : Config) (W : World) (API UI : string)
    (token : value) h e :
  formsSection P C W API UI token h = (Ret tt, e) ->
  Forall (fun f => brokenDoc (readDoc P W (path_join P (FORMS_DIR C) f)) = false)
         (theFormFiles C W).
Proof.
  unfold formsSection, theFormFiles. intros H. returned.
  match goal with
  | Hx : existsSync _ _ _ = _ |- _ => apply existsSync_ret in Hx as [-> ->]
  end.
  destruct (fs_existsSync W (FORMS_DIR C)); cbn [negb] in *; [|constructor].
  returned.
  match goal with
  | Hr : readdirSync _ _ _ = _ |- _ => apply readdirSync_ret in Hr as [-> ->]
  end.
  destruct (List.filter _ _) as [|f files] eqn:Hfiles; [constructor|].
  cbn [length Nat.eqb] in *. returned.
  match goal with
  | Hl : for_of _ _ _ _ = _ |- _ =>
      pose proof (for_of_all _ _ (ensureForm_valid P C W API token _) _ _ _ _ _ Hl)
        as Hall
  end.
  eapply Forall_impl; [exact Hall|]. intros g Hg. cbn beta in Hg.
  destruct (brokenDoc _) eqn:Eb; [|reflexivity].
  exfalso. apply Hg. unfold formVerdict. now apply judge_broken.
Qed.

Lemma workflows_returned (P : Platform) (C : Config) (W : World)
    (API UI : string) (token : value) h e :
  workflowsSection P C W API UI token h = (Ret tt, e) ->
  Forall (fun f => brokenDoc (readDoc P W (workflowPath P C W f)) = false)
         (theWorkflowFiles C W).
Proof.
  unfold workflowsSection. intros H. returned.
  match goal with
  | Hx : existsSync _ _ _ = _ |- _ => apply existsSync_ret in Hx as [-> ->]
  end.
  destruct (fs_existsSync W (WORKFLOWS_DIR C)); cbn [negb] in *; [|discriminate].
  returned.
  match goal with
  | Hf : workflowFiles _ _ _ = _ |- _ => apply workflowFiles_ret in Hf as ->
  end.
  match goal with
  | Hl : for_of _ _ _ _ = _ |- _ =>
      pose proof (for_of_all _ _ (ensureWorkflow_valid P C W API UI token) _ _ _ _ _ Hl)
        as Hall
  end.
  eapply Forall_impl; [exact Hall|]. intros g Hg. cbn beta in Hg.
  destruct (brokenDoc _) eqn:Eb; [|reflexivity].
  exfalso. apply Hg. unfold workflowVerdict. now apply judge_broken.
Qed.

End DocFacts.

(** X20.  A form or workflow file that cannot be read, is not JSON, or
    holds [null] is not skipped like a document without a name: when the
    pass has such a file among those it goes through, the pass throws. *)
Theorem broken_document_stops_pass (P : Platform) (C : Config) (W : World)
    (API UI : string) (token : value) (h : list event) :
  (forall f,
      In f (theFormFiles C W) ->
      brokenDoc (readDoc P W (path_join P (FORMS_DIR C) f)) = true ->
      exists err, fst (formsSection P C W API UI token h) = Throw err) /\
  (forall f,
      In f (theWorkflowFiles C W) ->
      brokenDoc (readDoc P W (workflowPath P C W f)) = true ->
      exists err, fst (workflowsSection P C W API UI token h) = Throw err).
Proof.
  split; intros f Hin Hb.
  - destruct (formsSection P C W API UI token h) as [[[]|err] e] eqn:E;
      [|cbn; eauto].
    apply DocFacts.forms_returned in E.
    rewrite Forall_forall in E. apply list_elem_of_In in Hin.
    specialize (E f Hin). cbn beta in E. congruence.
  - destruct (workflowsSection P C W API UI token h) as [[[]|err] e] eqn:E;
      [|cbn; eauto].
    apply DocFacts.workflows_returned in E.
    rewrite Forall_forall in E. apply list_elem_of_In in Hin.
    specialize (E f Hin). cbn beta in E. congruence.
Qed.

(** ** The prompt pass accounts for every prompt *)

Module PromptFacts.

Section Prompts.

Variable P : Platform.
Variable C : Config.
Variable W : World.
Hypothesis Hstatic : static W.
Variable API UI : string.
Variable token : value.

(** A prompt that was gone through is of exactly one kind: created (or to
    be created), already there, or without its file. *)
Lemma ensurePrompt_kind enc p st h st' e :
  ensurePrompt P C W API UI token enc p st h = (Ret st', e) ->
  one (promptMissing P C W API token p) +
  (if promptExists P C W API token p then 1 else 0) +
  (if promptHasFile P C W p then 0 else 1) = 1.
Proof.
  unfold ensurePrompt. destruct st as [c s], p as [p_name p_file].
  intros H. returned.
  match goal with
  | Hx : existsSync _ _ _ = _ |- _ => apply existsSync_ret in Hx as [-> ->]
  end.
  unfold promptMissing, promptExists, promptHasFile, promptPath. cbn [fst snd].
  destruct (fs_existsSync W _) eqn:Hfile; cbn [negb andb] in *; [|reflexivity].
  returned.
  match goal with
  | Hx : exists_ _ _ _ _ = _ |- _ => rewrite exists_static in Hx by assumption
  end.
  returned. fold (promptGetUrl API (p_name, p_file)) in *.
  destruct (remoteOk W _ token); cbn [negb]; [reflexivity|].
  returned.
  match goal with
  | Hx : readText _ _ _ = _ |- _ => apply readText_ret in Hx as [-> _]
  end.
  reflexivity.
Qed.

Lemma kinds_add_up (prompts : list (string * string)) :
  Forall (fun p =>
            one (promptMissing P C W API token p) +
            (if promptExists P C W API token p then 1 else 0) +
            (if promptHasFile P C W p then 0 else 1) = 1) prompts ->
  length (missingPrompts P C W API token prompts) +
  length (existingPrompts P C W API token prompts) +
  length (filelessPrompts P C W prompts) = length prompts.
Proof.
  unfold missingPrompts, existingPrompts, filelessPrompts.
  induction 1 as [|p prompts Hp _ IH]; [reflexivity|].
  cbn [omap list_omap List.filter length].
  destruct (promptMissing P C W API token p),
    (promptExists P C W API token p), (promptHasFile P C W p);
    cbn in *; lia.
Qed.

Lemma promptsSection_all prompts h e :
  promptsSection P C W prompts API UI token h = (Ret tt, e) ->
  length (missingPrompts P C W API token prompts) +
  length (existingPrompts P C W API token prompts) +
  length (filelessPrompts P C W prompts) = length prompts.
Proof.
  unfold promptsSection. intros H. returned. apply kinds_add_up.
  match goal with
  | Hl : for_of _ _ _ _ = _ |- _ =>
      exact (for_of_all _ _ (ensurePrompt_kind _) _ _ _ _ _ Hl)
  end.
Qed.

End Prompts.

End PromptFacts.

(** X21.  On a server with fixed answers, a prompt pass that returns has
    accounted for every required prompt exactly once: the number it reports
    as created (or to be created), the number it reports as already there
    and the number of warnings about a missing prompt file add up to the
    number of prompts. *)
Theorem prompts_accounted_for (P : Platform) (C : Config) (W : World)
    (API UI : string) (token : value) (prompts : list (string * string))
    (h e : list event) :
  static W ->
  promptsSection P C W prompts API UI token h = (Ret tt, e) ->
  exists created skipped,
    (if PLAN C then
       lines LPlan "Would create " e =
         [[Cnt created; Lit " prompt(s); would skip "; Cnt skipped;
           Lit " prompt(s)"]]
     else
       lines LOk "Prompts created: " e = [[Cnt created]] /\
       lines LOk "Prompts skipped (already existed): " e = [[Cnt skipped]]) /\
    created + skipped + length (lines LWarn "Prompt file not found: " e) =
    length prompts.
Proof.
  intros Hstatic H.
  pose proof (PromptFacts.promptsSection_all P C W Hstatic API UI token prompts h e H)
    as Hsum.
  destruct (promptsSection_ret P C W Hstatic API UI token prompts h e H)
    as (_ & _ & _ & Hwarn & Htally).
  exists (length (missingPrompts P C W API token prompts)),
         (length (existingPrompts P C W API token prompts)).
  split; [exact Htally|].
  now rewrite Hwarn, length_map.
Qed.

Lemma prompts_accounted_for_witness :
  let W := Scenario.checkout [] Scenario.emptyServer in
  let C := config (argv W) in
  let e := snd (promptsSection Scenario.node C W REQUIRED_PROMPTS Scenario.api
                  Scenario.ui Scenario.tok []) in
  exists created skipped,
    (if PLAN C then
       lines LPlan "Would create " e =
         [[Cnt created; Lit " prompt(s); would skip "; Cnt skipped;
           Lit " prompt(s)"]]
     else
       lines LOk "Prompts created: " e = [[Cnt created]] /\
       lines LOk "Prompts skipped (already existed): " e = [[Cnt skipped]]) /\
    created + skipped + length (lines LWarn "Prompt file not found: " e) =
    length REQUIRED_PROMPTS.
Proof.
  apply (prompts_accounted_for Scenario.node
           (config (argv (Scenario.checkout [] Scenario.emptyServer)))
           (Scenario.checkout [] Scenario.emptyServer)
           Scenario.api Scenario.ui Scenario.tok REQUIRED_PROMPTS []).
  - apply Scenario.staticCheckout.
  - vm_compute. reflexivity.
Defined.

(** ** The writes of a whole run *)

Module WriteFacts.

Lemma posts_quiet (evs : list event) : Forall quiet evs -> posts evs = [].
Proof.
  induction 1 as [|e evs He _ IH]; [reflexivity|].
  change (e :: evs) with ([e] ++ evs). rewrite posts_app, IH, app_nil_r.
  destruct e as [r a| |]; try reflexivity.
  cbn in He |- *. now rewrite He.
Qed.

Lemma authenticate_token (P : Platform) (C : Config) (W : World) (API : string)
    (t : string) h :
  env W !! "CONDUCTOR_ACCESS_TOKEN" = Some t -> t <> "" ->
  authenticate P C W API h =
  (Ret (VStr t),
   [ELog LSection [Lit "Authentication"];
    ELog LOk [Lit "Using CONDUCTOR_ACCESS_TOKEN"]]).
Proof.
  intros Ht Hne. destruct t as [|c t]; [congruence|].
  unfold authenticate, env_val. rewrite Ht. reflexivity.
Qed.

Lemma checkConnectivity_quiet (P : Platform) (C : Config) (W : World)
    (API : string) :
  always quiet (checkConnectivity P C W API).
Proof.
  unfold checkConnectivity, info, ok.
  apply always_bind; [apply always_emit; exact I | intros _].
  apply always_bind; [apply quiet_http_get | intros _].
  apply always_emit; exact I.
Qed.

Lemma openaiSection_skipped (P : Platform) (C : Config) (W : World)
    (API UI : string) (token : value) h :
  NO_OPENAI C = true ->
  posts (snd (openaiSection P C W API UI token h)) = [].
Proof. intros Hno. unfold openaiSection. rewrite Hno. reflexivity. Qed.

Lemma done_quiet (C : Config) h : posts (snd (done C h)) = [].
Proof. reflexivity. Qed.

Lemma main_writes (P : Platform) (W : World) (t : string) (evs : list event) :
  static W ->
  env W !! "CONDUCTOR_ACCESS_TOKEN" = Some t -> t <> "" ->
  PLAN (config (argv W)) = false ->
  main P (config (argv W)) W [] = (Ret tt, evs) ->
  posts evs =
  openaiWrites P (config (argv W)) W (normalizeBaseApiUrl (env W)) (VStr t) ++
  taskDefWrites P W (normalizeBaseApiUrl (env W)) (VStr t) ++
  formWrites P (config (argv W)) W (normalizeBaseApiUrl (env W)) (VStr t) ++
  promptWrites P (config (argv W)) W (normalizeBaseApiUrl (env W)) (VStr t) ++
  workflowWrites P (config (argv W)) W (normalizeBaseApiUrl (env W)) (VStr t).
Proof.
  intros Hstatic Htoken Hne.
  set (C := config (argv W)). set (API := normalizeBaseApiUrl (env W)).
  intros Happly.
  unfold main. fold API. cbv zeta. intros H. returned.
  repeat match goal with
    | Hx : emit _ _ = _ |- _ => clear Hx
    | u : unit |- _ => destruct u
    end.
  match goal with
  | Ha : authenticate _ _ _ _ _ = _ |- _ =>
      rewrite (authenticate_token P C W API t _ Htoken Hne) in Ha;
      injection Ha as <- <-
  end.
  match goal with
  | Hc : checkConnectivity _ _ _ _ ?h = (_, ?e) |- _ =>
      assert (Hconn : posts e = [])
        by (apply posts_quiet;
            pose proof (checkConnectivity_quiet P C W API h) as Hq;
            rewrite Hc in Hq; exact Hq);
      clear Hc
  end.
  match goal with
  | Hu : fetchUserInfo _ _ _ _ _ _ = _ |- _ =>
      rewrite PassFacts.fetchUserInfo_eq in Hu; cbv zeta in Hu;
      rewrite Hstatic in Hu; fold (remoteUserInfo P W API (VStr t)) in Hu;
      injection Hu as <- <-
  end.
  match goal with
  | Hw : workflowsSection _ _ _ _ _ _ _ = _ |- _ =>
      apply (workflowsSection_ret P C W Hstatic) in Hw as (_ & Hw & _)
  end.
  match goal with
  | Hp : promptsSection _ _ _ _ _ _ _ _ = _ |- _ =>
      apply (promptsSection_ret P C W Hstatic) in Hp as (Hp & _)
  end.
  match goal with
  | Hf : formsSection _ _ _ _ _ _ _ = _ |- _ =>
      apply (formsSection_ret P C W Hstatic) in Hf as (Hf & _)
  end.
  match goal with
  | Ht : taskDefsSection _ _ _ _ _ _ _ _ ?h = (_, ?e) |- _ =>
      pose proof (taskDefsSection_obs P C W Hstatic API (VStr t)
                    (uiBaseFromApi API) (remoteUserInfo P W API (VStr t))
                    WORKER_TASKS h) as Htd;
      cbv zeta in Htd; rewrite Ht in Htd; cbn [snd] in Htd;
      destruct Htd as (Htd & _); clear Ht
  end.
  assert (Hopen : forall h e,
             openaiSection P C W API (uiBaseFromApi API) (VStr t) h = (Ret tt, e) ->
             posts e = openaiWrites P C W API (VStr t)).
  { intros h e Ho. unfold openaiWrites.
    destruct (NO_OPENAI C) eqn:Hno.
    - pose proof (openaiSection_skipped P C W API (uiBaseFromApi API) (VStr t) h Hno)
        as Hs.
      now rewrite Ho in Hs.
    - destruct (openaiSection_ret P C W Hstatic API (uiBaseFromApi API) (VStr t)
                  h e Ho Hno) as (key & -> & -> & _).
      now rewrite Happly. }
  match goal with
  | Ho : openaiSection _ _ _ _ _ _ _ = _ |- _ => apply Hopen in Ho
  end.
  match goal with
  | Hd : done _ ?h = (_, ?e) |- _ =>
      assert (Hdone : posts e = [])
        by (pose proof (done_quiet C h) as Hq; now rewrite Hd in Hq);
      clear Hd
  end.
  rewrite Happly in *.
  rewrite !posts_app.
  repeat match goal with
    | Hx : posts _ = _ |- _ => rewrite Hx; clear Hx
    end.
  cbn [posts omap list_omap app]. rewrite ?app_nil_r.
  change (isGet (userInfoRequest API (VStr t))) with true. cbn [app].
  unfold taskDefWrites, formWrites, promptWrites, workflowWrites.
  now destruct (missingTasks W API (VStr t) WORKER_TASKS).
Qed.

End WriteFacts.

(** X22.  An apply run that is authenticated by [CONDUCTOR_ACCESS_TOKEN]
    and exits with 0 on a server with fixed answers sends its writes in
    the order of the passes and nothing else: the integration and the
    missing models, the one batch of missing task definitions, the missing
    forms, the missing prompts, the missing workflows.  A run that finds
    nothing missing writes nothing, so running the script again after a
    complete run changes nothing on the server. *)
Theorem writes_of_a_run (P : Platform) (W : World) (t : string) :
  let C := config (argv W) in
  let API := normalizeBaseApiUrl (env W) in
  static W ->
  env W !! "CONDUCTOR_ACCESS_TOKEN" = Some t -> t <> "" ->
  PLAN C = false ->
  fst (run P W) = 0 ->
  posts (snd (run P W)) =
  openaiWrites P C W API (VStr t) ++ taskDefWrites P W API (VStr t) ++
  formWrites P C W API (VStr t) ++ promptWrites P C W API (VStr t) ++
  workflowWrites P C W API (VStr t).
Proof.
  cbv zeta. intros Hstatic Ht Hne Happly Hexit.
  pose proof (fun evs => WriteFacts.main_writes P W t evs Hstatic Ht Hne Happly) as Hm.
  unfold run in *.
  destruct (main P (config (argv W)) W []) as [[[]|err] evs]; [|discriminate].
  now apply Hm.
Qed.

Lemma writes_of_a_run_witness :
  let W := Scenario.checkout [] Scenario.emptyServer in
  let C := config (argv W) in
  let API := normalizeBaseApiUrl (env W) in
  posts (snd (run Scenario.node W)) =
  openaiWrites Scenario.node C W API (VStr "tok") ++
  taskDefWrites Scenario.node W API (VStr "tok") ++
  formWrites Scenario.node C W API (VStr "tok") ++
  promptWrites Scenario.node C W API (VStr "tok") ++
  workflowWrites Scenario.node C W API (VStr "tok").
Proof.
  apply (writes_of_a_run Scenario.node
           (Scenario.checkout [] Scenario.emptyServer) "tok").
  - apply Scenario.staticCheckout.
  - reflexivity.
  - discriminate.
  - reflexivity.
  - vm_compute. reflexivity.
Defined.

(** ** The OpenAI pass accounts for every model *)

Module ModelFacts.

Lemma filter_split {A} (f : A -> bool) (xs : list A) :
  length (List.filter (fun x => negb (f x)) xs) + length (List.filter f xs) =
  length xs.
Proof.
  induction xs as [|x xs IH]; [reflexivity|]. cbn [List.filter].
  destruct (f x); cbn [negb length]; lia.
Qed.

End ModelFacts.

(** X23.  On a server with fixed answers, an OpenAI pass that returns in
    apply mode has checked every configured model: the number it reports as
    added and the number it reports as already present add up to the number
    of models, and it has sent one write for each model added, after one
    for the integration when that was missing. *)
Theorem models_accounted_for (P : Platform) (C : Config) (W : World)
    (API UI : string) (token : value) (h e : list event) :
  static W -> PLAN C = false -> NO_OPENAI C = false ->
  openaiSection P C W API UI token h = (Ret tt, e) ->
  exists added present,
    lines LOk "Models added: " e = [[Cnt added]] /\
    lines LOk "Models already present: " e = [[Cnt present]] /\
    added + present = length (openaiModels P W) /\
    length (posts e) =
      (if remoteOk W (integrationUrl API (openaiIntegrationName W)) token
       then 0 else 1) + added.
Proof.
  intros Hstatic Happly Hno H.
  destruct (openaiSection_ret P C W Hstatic API UI token h e H Hno)
    as (key & _ & Hposts & _ & _ & _ & Hcounts).
  destruct (Hcounts Happly) as [Hadded Hpresent].
  eexists _, _. split; [exact Hadded|]. split; [exact Hpresent|].
  split; [apply ModelFacts.filter_split|].
  rewrite Hposts, Happly, length_app, length_map. cbn [orb].
  now destruct (remoteOk W _ token).
Qed.

Lemma models_accounted_for_witness :
  let W := Scenario.bare [] Scenario.provisioned in
  let C := config (argv W) in
  let e := snd (openaiSection Scenario.node C W Scenario.api Scenario.ui
                  Scenario.tok []) in
  exists added present,
    lines LOk "Models added: " e = [[Cnt added]] /\
    lines LOk "Models already present: " e = [[Cnt present]] /\
    added + present = length (openaiModels Scenario.node W) /\
    length (posts e) =
      (if remoteOk W (integrationUrl Scenario.api (openaiIntegrationName W))
            Scenario.tok
       then 0 else 1) + added.
Proof.
  apply (models_accounted_for Scenario.node
           (config (argv (Scenario.bare [] Scenario.provisioned)))
           (Scenario.bare [] Scenario.provisioned)
           Scenario.api Scenario.ui Scenario.tok []).
  - apply Scenario.staticBare.
  - reflexivity.
  - reflexivity.
  - vm_compute. reflexivity.
Defined.

(** ** The connectivity check *)

Module ConnFacts.

Lemma bind_returns {A B} (m : M A) (k : A -> M B) h a e1 :
  m h = (Ret a, e1) ->
  bind m k h = (fst (k a (h ++ e1)), e1 ++ snd (k a (h ++ e1))).
Proof. unfold bind. intros ->. now destruct (k a (h ++ e1)). Qed.

Lemma checkConnectivity_fails (P : Platform) (C : Config) (W : World)
    (API : string) h :
  let a := net W (h ++ [ELog LInfo [Lit "Checking server connectivity"]])
             (versionRequest API) in
  (forall res, a = Some res -> res_status res <> 200) ->
  checkConnectivity P C W API h =
  (Throw (transportError (versionRequest API) a),
   [ELog LInfo [Lit "Checking server connectivity"];
    EFetch (versionRequest API) a]).
Proof.
  cbv zeta. intros Ha. unfold checkConnectivity, info.
  rewrite StopFacts.bind_emit.
  erewrite StopFacts.bind_throws; [reflexivity|].
  rewrite PassFacts.http_get. cbv zeta.
  change (Request "GET" (API +:+ "/version")
            (requestHeaders VUndefined None None) None)
    with (versionRequest API).
  destruct (net W _ (versionRequest API)) as [res|] eqn:E; [|reflexivity].
  specialize (Ha res eq_refl). cbn [existsb].
  destruct (Nat.eqb_spec (res_status res) 200); [contradiction | reflexivity].
Qed.

End ConnFacts.

(** X24.  The connectivity check decides whether a run starts its passes:
    when the environment file is absent or can be read, the access token
    is set after loading it, and the read of [/version] gets no answer or
    an answer whose status is not 200 (a 204 included), the process exits
    with 1 right after that request.  It has looked up the environment
    file and nothing else on the disk, and has written nothing. *)
Theorem unreachable_server (P : Platform) (W : World) (e : gmap string string)
    (t : string) :
  let C := config (argv W) in
  let API := normalizeBaseApiUrl e in
  let a := net W (dotEnvLookup W ++ opening C API) (versionRequest API) in
  fst (DotEnv.loadDotEnvIfPresent P W ".env" (env W) []) = Ret e ->
  e !! "CONDUCTOR_ACCESS_TOKEN" = Some t -> t <> "" ->
  (forall res, a = Some res -> res_status res <> 200) ->
  runWithDotEnv P W =
  (1,
   dotEnvLookup W ++ opening C API ++
   [EFetch (versionRequest API) a;
    ELog LError
      (Lit "ERROR:" :: error_message (transportError (versionRequest API) a))]) /\
  fsOps (snd (runWithDotEnv P W)) = fsOps (dotEnvLookup W) /\
  posts (snd (runWithDotEnv P W)) = [].
Proof.
  cbv zeta. intros Hload Ht Hne Ha.
  assert (Hrun : runWithDotEnv P W =
    (1,
     dotEnvLookup W ++ opening (config (argv W)) (normalizeBaseApiUrl e) ++
     [EFetch (versionRequest (normalizeBaseApiUrl e))
        (net W (dotEnvLookup W ++ opening (config (argv W)) (normalizeBaseApiUrl e))
           (versionRequest (normalizeBaseApiUrl e)));
      ELog LError
        (Lit "ERROR:" ::
         error_message
           (transportError (versionRequest (normalizeBaseApiUrl e))
              (net W (dotEnvLookup W ++
                      opening (config (argv W)) (normalizeBaseApiUrl e))
                 (versionRequest (normalizeBaseApiUrl e)))))])).
  { rewrite (StartFacts.runWithDotEnv_loaded P W e Hload).
    unfold main, header, bullet. cbv zeta.
    rewrite !StopFacts.bind_emit.
    erewrite ConnFacts.bind_returns
      by (apply (WriteFacts.authenticate_token P _ _ _ t); assumption).
    erewrite StopFacts.bind_throws; cycle 1.
    { apply ConnFacts.checkConnectivity_fails. cbv zeta.
      cbn [net Machines.withEnv env]. intros res Hres. apply Ha.
      rewrite <- Hres. f_equal. unfold opening.
      rewrite <- !app_assoc. reflexivity. }
    cbn [fst snd exit_code net Machines.withEnv env app]. unfold opening.
    do 3 f_equal. rewrite <- !app_assoc. reflexivity. }
  split; [exact Hrun|]. rewrite Hrun. cbn [snd].
  split.
  - rewrite fsOps_app, fsOps_app. cbn. now rewrite app_nil_r.
  - rewrite posts_app, posts_app. unfold dotEnvLookup.
    destruct (fs_existsSync W ".env"); reflexivity.
Qed.

Lemma unreachable_server_witness :
  fst (runWithDotEnv Scenario.node TokenFile.world) = 1 /\
  fetches (snd (runWithDotEnv Scenario.node TokenFile.world)) =
    [versionRequest Scenario.api] /\
  fsOps (snd (runWithDotEnv Scenario.node TokenFile.world)) =
    [FsExists ".env"; FsReadFile ".env"] /\
  lines LError "ERROR:" (snd (runWithDotEnv Scenario.node TokenFile.world)) =
    [error_message (ErrFetch (Scenario.api +:+ "/version"))].
Proof.
  destruct (unreachable_server Scenario.node TokenFile.world TokenFile.loaded "tok")
    as (Hrun & _);
    [ vm_compute; reflexivity
    | reflexivity
    | discriminate
    | vm_compute; intros res H; discriminate H
    | ].
  rewrite Hrun. vm_compute. repeat split; reflexivity.
Defined.

(** ** The environment file and the base address *)

(** X25.  What the shell has set decides the server even when the file
    says otherwise: with a non-empty [CONDUCTOR_SERVER_API_URL] in the
    shell the API base after loading the file is the one before; and when
    the shell sets both address variables to the empty string, the file
    cannot fill them and the run goes to the default server. *)
Theorem shell_decides_server (P : Platform) (W : World) (path : string)
    (e e' : gmap string string) (h evs : list event) :
  DotEnv.loadDotEnvIfPresent P W path e h = (Ret e', evs) ->
  (forall u, e !! "CONDUCTOR_SERVER_API_URL" = Some u -> u <> "" ->
             normalizeBaseApiUrl e' = normalizeBaseApiUrl e) /\
  (e !! "CONDUCTOR_SERVER_API_URL" = Some "" ->
   e !! "CONDUCTOR_SERVER_URL" = Some "" ->
   normalizeBaseApiUrl e' = "https://developer.orkescloud.com/api").
Proof.
  intros H.
  assert (Hkeep : forall k v, e !! k = Some v -> e' !! k = Some v).
  { rewrite DotEnvFacts.load_cases in H. intros k v Hk.
    destruct (fs_existsSync W path); [|now injection H as <- _].
    destruct (fs_readFileSync W path) as [content|]; [|discriminate].
    injection H as <- _. now rewrite DotEnvFacts.loop_lookup, Hk. }
  split.
  - intros u Hu Hne. unfold normalizeBaseApiUrl, env_truthy.
    rewrite (Hkeep _ _ Hu), Hu.
    now destruct (String.eqb_spec u "").
  - intros Ha Hb. unfold normalizeBaseApiUrl, env_truthy.
    now rewrite (Hkeep _ _ Ha), (Hkeep _ _ Hb).
Qed.

Lemma shell_decides_server_witness :
  let file :=
    "CONDUCTOR_SERVER_URL=https://file" +:+ EnvFile.nl in
  let W := Machines.withEnv KeyMachines.emptyAddresses
             {| argv := []; env := ∅;
                fs_existsSync := fun _ => true;
                fs_readdirSync := fun _ => None;
                fs_readFileSync := fun _ => Some file;
                net := fun _ _ => None |} in
  match fst (DotEnv.loadDotEnvIfPresent Scenario.node W ".env"
               KeyMachines.emptyAddresses []) with
  | Ret e' => normalizeBaseApiUrl e' = "https://developer.orkescloud.com/api"
  | Throw _ => False
  end.
Proof.
  cbv zeta.
  destruct (DotEnv.loadDotEnvIfPresent _ _ _ _ _) as [[e'|err] evs] eqn:E;
    cbn [fst].
  - apply (shell_decides_server _ _ _ _ _ _ _ E); reflexivity.
  - vm_compute in E. discriminate E.
Defined.

(** ** The token exchange *)

Module KeyFacts.

Lemma tokenUrl_token (API : string) : tokenUrl (API +:+ "/token") = true.
Proof.
  unfold tokenUrl. rewrite StrFacts.endsWith_append by (simpl; lia).
  reflexivity.
Qed.

Lemma http_token (P : Platform) (C : Config) (W : World) (API : string) h res :
  net W h (tokenRequest W API) = Some res ->
  res_status res = 200 ->
  http P C W "POST" (API +:+ "/token") VUndefined
    (Some [("accept", VStr "application/json");
           ("Content-Type", VStr "application/json")])
    (Some (BodyJson (VObj [("keyId", keyId W); ("keySecret", keySecret W)])))
    ExpectJson [200] h =
  (Ret (decoded P ExpectJson (res_text res)),
   [EFetch (tokenRequest W API) (Some res)]).
Proof.
  intros Hnet Hst. unfold http, allowInPlan. rewrite tokenUrl_token.
  cbn [String.eqb Ascii.eqb Bool.eqb orb andb negb]. rewrite andb_false_r.
  fold (tokenRequest W API). unfold bind, fetch. rewrite Hnet.
  cbn [existsb]. rewrite Hst. cbn [Nat.eqb orb negb]. unfold decoded.
  destruct (String.eqb _ _); [reflexivity|].
  now destruct (JSON_parse P _).
Qed.

Lemma authenticate_exchange (P : Platform) (C : Config) (W : World)
    (API : string) h res :
  let d := decoded P ExpectJson (res_text res) in
  Js.truthy (env_val W "CONDUCTOR_ACCESS_TOKEN") = false ->
  Js.truthy (keyId W) && Js.truthy (keySecret W) = true ->
  net W ((h ++ [ELog LSection [Lit "Authentication"]]) ++
         [ELog LInfo [Lit "Using key/secret to obtain token"]])
        (tokenRequest W API) = Some res ->
  res_status res = 200 ->
  d <> VNull -> d <> VUndefined ->
  authenticate P C W API h =
  (if negb (Js.truthy (Js.optGet d "token")) && negb (PLAN C)
   then Throw ErrNoToken else Ret (Js.optGet d "token"),
   [ELog LSection [Lit "Authentication"];
    ELog LInfo [Lit "Using key/secret to obtain token"];
    EFetch (tokenRequest W API) (Some res)]).
Proof.
  cbv zeta. intros Ht Hk Hnet Hst Hnull Hundef.
  apply andb_true_iff in Hk as [Hid Hsec].
  unfold authenticate, section, info. rewrite StopFacts.bind_emit, Ht.
  cbn [negb]. fold (keyId W) (keySecret W). rewrite Hid, Hsec. cbn [negb orb].
  rewrite StopFacts.bind_emit.
  erewrite ConnFacts.bind_returns by (apply http_token; eassumption).
  cbn [fst snd app].
  destruct (decoded P ExpectJson (res_text res)); try congruence;
    unfold bind; cbn [get ret];
    destruct (negb _ && negb _); reflexivity.
Qed.

End KeyFacts.

(** X26.  When the environment file is absent or can be read, a process
    that authenticates with the key pair and gets from the token endpoint
    a 200 whose body holds no token (an empty body, an object without a
    truthy [token], text that is not JSON) exits in apply mode with 1
    right after that one request, with the no-token error; in plan mode
    the same answer does not stop the authentication step, which goes on
    without a token. *)
Theorem token_exchange_without_token (P : Platform) (W : World)
    (e : gmap string string) (res : response) :
  let C := config (argv W) in
  let W' := Machines.withEnv e W in
  let API := normalizeBaseApiUrl e in
  let d := decoded P ExpectJson (res_text res) in
  fst (DotEnv.loadDotEnvIfPresent P W ".env" (env W) []) = Ret e ->
  Js.truthy (env_val W' "CONDUCTOR_ACCESS_TOKEN") = false ->
  Js.truthy (keyId W') && Js.truthy (keySecret W') = true ->
  net W (dotEnvLookup W ++ keyOpening C API) (tokenRequest W' API) = Some res ->
  res_status res = 200 ->
  d <> VNull -> d <> VUndefined ->
  Js.truthy (Js.optGet d "token") = false ->
  if PLAN C then
    authenticate P C W' API
      (dotEnvLookup W ++
       [ELog LHeader [Lit "Orkes Healthcare Relocation Setup"];
        ELog LBullet [Lit "Mode: "; Lit "PLAN (no changes)"];
        ELog LBullet [Lit "Orkes API: "; Sub API];
        ELog LBullet [Lit "Orkes UI : "; Sub (uiBaseFromApi API)]]) =
    (Ret (Js.optGet d "token"),
     [ELog LSection [Lit "Authentication"];
      ELog LInfo [Lit "Using key/secret to obtain token"];
      EFetch (tokenRequest W' API) (Some res)])
  else
    runWithDotEnv P W =
    (1,
     dotEnvLookup W ++ keyOpening C API ++
     [EFetch (tokenRequest W' API) (Some res);
      ELog LError (Lit "ERROR:" :: error_message ErrNoToken)]).
Proof.
  cbv zeta. intros Hload Ht Hk Hnet Hst Hnull Hundef Htok.
  set (C := config (argv W)) in *. set (API := normalizeBaseApiUrl e) in *.
  set (W' := Machines.withEnv e W) in *.
  assert (Hnet' : forall pre,
             pre = dotEnvLookup W ++
                   [ELog LHeader [Lit "Orkes Healthcare Relocation Setup"];
                    ELog LBullet [Lit "Mode: ";
                                  Lit (if PLAN C then "PLAN (no changes)"
                                       else "APPLY")];
                    ELog LBullet [Lit "Orkes API: "; Sub API];
                    ELog LBullet [Lit "Orkes UI : "; Sub (uiBaseFromApi API)]] ->
             net W' ((pre ++ [ELog LSection [Lit "Authentication"]]) ++
                     [ELog LInfo [Lit "Using key/secret to obtain token"]])
               (tokenRequest W' API) = Some res).
  { intros pre ->. cbn [net W' Machines.withEnv]. rewrite <- Hnet.
    f_equal. unfold keyOpening. rewrite <- !app_assoc. reflexivity. }
  destruct (PLAN C) eqn:Hplan.
  - rewrite (KeyFacts.authenticate_exchange P C W' API _ res Ht Hk)
      by (try apply Hnet'; try assumption; reflexivity).
    now rewrite Htok, Hplan.
  - rewrite (StartFacts.runWithDotEnv_loaded P W e Hload).
    fold C W'. unfold main, header, bullet. cbv zeta.
    change (env W') with e. fold API.
    rewrite !StopFacts.bind_emit.
    erewrite StopFacts.bind_throws; cycle 1.
    { rewrite (KeyFacts.authenticate_exchange P C W' API _ res Ht Hk);
        [ rewrite Htok, Hplan; reflexivity
        | apply Hnet'; rewrite Hplan, <- !app_assoc; reflexivity
        | assumption.. ]. }
    cbn [fst snd exit_code app]. unfold keyOpening. rewrite Hplan.
    reflexivity.
Qed.

Lemma token_exchange_without_token_witness :
  fst (runWithDotEnv Scenario.node (KeyMachines.world [])) = 1 /\
  map req_url (fetches (snd (runWithDotEnv Scenario.node (KeyMachines.world [])))) =
    [Scenario.api +:+ "/token"] /\
  lines LError "ERROR:" (snd (runWithDotEnv Scenario.node (KeyMachines.world []))) =
    [error_message ErrNoToken].
Proof.
  pose proof (token_exchange_without_token Scenario.node (KeyMachines.world [])
                KeyMachines.keyPair (Response 200 "OK" "{}")) as H.
  cbv zeta in H.
  change (PLAN (config (argv (KeyMachines.world [])))) with false in H.
  cbv iota in H.
  rewrite H; try reflexivity; try discriminate.
  vm_compute. repeat split; reflexivity.
Defined.
